(** * SolarDB: query, resampling, assembly and evaluation layer

    A shallow embedding of [solardb/db/data.py], [solardb/db/assemble.py]
    and [solardb/db/evaluate.py].

    Conventions of the embedding
    - Python integers are [Z]; instants ([datetime.datetime], pandas
      [Timestamp]) are [Z] microseconds since the epoch, calendar dates
      ([datetime.date]) are [Z] days since the epoch.
    - Floating point columns are exact rationals [Q]; rounding of IEEE
      doubles in arithmetic is not modelled.  An integer column that pandas
      holds as float64 (one with a missing cell beside a value) has its
      cells rounded to doubles by [float64].
    - SQL NULL, [None], [NaN] and [NaT] cells are [None] of an option type.
    - A table is the list of its records in the order in which the database
      engine enumerates them: the order of the rows of a query without
      ORDER BY, and of the rows that an ORDER BY leaves tied, is that of
      the list.  Every listing of a table is a table, and every answer that
      is a permutation of the selected rows, sorted as the query asks, is
      the answer over some listing ([query_any_listing]).
    - The source times that the smoothing recomputes through float64 are the
      cell [Recomputed]; their values are not modelled.
    - Raised exceptions are the left summand of [result]. *)

From Stdlib Require Import ZArith QArith Qround List String Bool Lia.
From Stdlib Require Import Permutation Sorted Finite.
Import ListNotations.

Open Scope Z_scope.

(** ** Exceptions *)

Inductive exn : Type :=
| RuntimeError (msg : string)
| ValueError (msg : string)
| KeyError (key : string)
| IndexError
| AttributeError (attr : string)
| TypeError (msg : string).

Definition result (A : Type) : Type := (exn + A)%type.

Definition ret {A} (a : A) : result A := inr a.
Definition raise {A} (e : exn) : result A := inl e.
Definition bind {A B} (m : result A) (k : A -> result B) : result B :=
  match m with
  | inl e => inl e
  | inr a => k a
  end.

Notation "x <- m ;; k" := (bind m (fun x => k))
  (at level 61, m at next level, right associativity).

Definition raises {A} (m : result A) : Prop := exists e, m = inl e.

(** ** Identity: [PowerPlantID] (data.py) *)

Record PowerPlantID : Type := mkPowerPlantID {
  pp_id : Z;
  inv_id : option Z   (* [None] for the whole power plant *)
}.

(** [PowerPlantID(p)]: the constructor's default [inv_id=None]. *)
Definition whole_plant (p : Z) : PowerPlantID := mkPowerPlantID p None.

Definition is_whole_power_plant (self : PowerPlantID) : bool :=
  match inv_id self with
  | None => true
  | Some _ => false
  end.

(** [__lt__]. *)
Definition PowerPlantID_lt (self other : PowerPlantID) : bool :=
  (pp_id self <? pp_id other) ||
  ((pp_id self =? pp_id other) &&
   (match inv_id self with
    | None => true
    | Some i =>
        match inv_id other with
        | None => false
        | Some j => i <? j
        end
    end)).

(** [__eq__]: the comparison of two optional integers is Python's [==]. *)
Definition opt_Z_eqb (a b : option Z) : bool :=
  match a, b with
  | None, None => true
  | Some x, Some y => x =? y
  | _, _ => false
  end.

Definition PowerPlantID_eq (self other : PowerPlantID) : bool :=
  (pp_id self =? pp_id other) && opt_Z_eqb (inv_id self) (inv_id other).

(** [PowerPlantIDT = Union[int, Tuple[int, int], PowerPlantID]]; tuples and
    lists are sequences of integers of any length. *)
Inductive PowerPlantIDT : Type :=
| IdInt (p : Z)
| IdSeq (l : list Z)
| IdObj (o : PowerPlantID).

Definition get_pp_id (pp : PowerPlantIDT) : result PowerPlantID :=
  match pp with
  | IdObj o => ret o
  | IdSeq l =>
      match l with
      | [] => raise IndexError
      | p :: rest =>
          ret (mkPowerPlantID p
                 (Some (match rest with
                        | [] => -1
                        | i :: _ => i
                        end)))
      end
  | IdInt p => ret (mkPowerPlantID p (Some (-1)))
  end.

(** ** Time *)

Definition datetime : Type := Z.

Definition usec : Z := 1.
Definition second : Z := 1000000.
Definition minute : Z := 60 * second.
Definition hour : Z := 60 * minute.
Definition day : Z := 24 * hour.

(** [SolarDBConfig.P_FREQUENCY_D] (5min) and [S_FREQUENCY_D] (1h). *)
Definition P_FREQUENCY_D : Z := 5 * minute.
Definition S_FREQUENCY_D : Z := 1 * hour.

(** A bound of a query is a [datetime.date] or a [datetime.datetime]. *)
Inductive date_or_datetime : Type :=
| Date (days : Z)
| DateTime (t : datetime).

(** Modelled from the spec: [solardb/common/util.py] is not part of the
    sources at hand; [date_earliest_date_time] is the start-of-day instant
    of a calendar date. *)
Definition date_earliest_date_time (d : Z) : datetime := d * day.

(** Modelled from the spec: [date_latest_date_time] (same missing module) is
    the end-of-day instant of a calendar date, the last microsecond of it. *)
Definition date_latest_date_time (d : Z) : datetime := d * day + (day - usec).

(** Modelled from the spec: [freq_floor] and [freq_ceil] (same missing
    module) round an instant down and up to a boundary of the frequency. *)
Definition freq_floor (t : datetime) (freq : Z) : datetime := freq * (t / freq).
Definition freq_ceil (t : datetime) (freq : Z) : datetime := - (freq * ((- t) / freq)).

(** [dt if isinstance(dt, datetime.datetime) else date_earliest_date_time(dt)] *)
Definition earliest_of (d : date_or_datetime) : datetime :=
  match d with
  | DateTime t => t
  | Date n => date_earliest_date_time n
  end.

(** [pd.date_range(start, end, freq, closed="left")]: the instants
    [start + k*freq] that lie before [end]. *)
Definition date_range_count (start stop freq : Z) : nat :=
  Z.to_nat ((stop - start + freq - 1) / freq).

Definition date_range (start stop freq : Z) : list datetime :=
  map (fun k => start + Z.of_nat k * freq) (seq 0 (date_range_count start stop freq)).

(** ** Generic list helpers standing for SQL and pandas primitives *)

(** [ORDER BY]: a stable insertion sort along a boolean order.  Rows that
    the order leaves tied stay in the order of the listing, which stands
    for the order of the engine. *)
Fixpoint insert_by {A} (le : A -> A -> bool) (x : A) (l : list A) : list A :=
  match l with
  | [] => [x]
  | y :: l' => if le x y then x :: l else y :: insert_by le x l'
  end.

Definition order_by {A} (le : A -> A -> bool) (l : list A) : list A :=
  fold_right (insert_by le) [] l.

(** The distinct values of a key column in ascending order: the group keys
    of [DataFrame.groupby]. *)
Fixpoint insert_uniq (x : Z) (l : list Z) : list Z :=
  match l with
  | [] => [x]
  | y :: l' =>
      if x <? y then x :: l
      else if x =? y then l
      else y :: insert_uniq x l'
  end.

Definition group_keys (l : list Z) : list Z := fold_right insert_uniq [] l.

Definition is_some {A} (o : option A) : bool :=
  match o with
  | Some _ => true
  | None => false
  end.

Definition is_none {A} (o : option A) : bool :=
  match o with
  | None => true
  | Some _ => false
  end.

(** The double nearest to an integer (round to nearest, ties to even): the
    conversion of an integer cell when pandas types its column float64.  It
    is the identity up to [2^53] in magnitude; the integers of the store
    are 64-bit, far from the overflow of a double. *)
Definition float64 (z : Z) : Z :=
  let a := Z.abs z in
  if a <? 2 ^ 53 then z
  else
    let k := Z.log2 a - 52 in
    let q := a / 2 ^ k in
    let r := a mod 2 ^ k in
    let half := 2 ^ (k - 1) in
    let q' := if r <? half then q
              else if half <? r then q + 1
              else if Z.even q then q
              else q + 1 in
    Z.sgn z * (q' * 2 ^ k).

(** The dtype of an [Integer] column: int64 while no cell is missing, object
    when every cell is, float64 when the column holds a missing cell beside
    an integer, be it a NULL of the store or the cell of a row that a
    reindex created. *)
Definition is_float64 (col : list (option Z)) : bool :=
  existsb is_none col && existsb is_some col.

Definition as_float64 (col : list (option Z)) (c : option Z) : option Z :=
  if is_float64 col then option_map float64 c else c.

(** An optional filter of a query: absent means no restriction. *)
Definition when_set {A} (o : option A) (f : A -> bool) : bool :=
  match o with
  | None => true
  | Some a => f a
  end.

(** The first non-missing cell of a column: [GroupBy.first]. *)
Fixpoint first_valid {A B} (f : A -> option B) (l : list A) : option B :=
  match l with
  | [] => None
  | r :: l' =>
      match f r with
      | Some v => Some v
      | None => first_valid f l'
      end
  end.

(** [Series.ffill]: carry the last known value forward. *)
Fixpoint ffill_from {A} (prev : option A) (l : list (option A)) : list (option A) :=
  match l with
  | [] => []
  | Some v :: l' => Some v :: ffill_from (Some v) l'
  | None :: l' => prev :: ffill_from prev l'
  end.

Definition ffill {A} (l : list (option A)) : list (option A) := ffill_from None l.

Fixpoint zip_with {A B C} (f : A -> B -> C) (l : list A) (l' : list B) : list C :=
  match l, l' with
  | a :: t, b :: t' => f a b :: zip_with f t t'
  | _, _ => []
  end.

Fixpoint has_dup (l : list Z) : bool :=
  match l with
  | [] => false
  | x :: l' => existsb (Z.eqb x) l' || has_dup l'
  end.

Definition list_min (l : list Z) : option Z :=
  match l with
  | [] => None
  | x :: l' => Some (fold_left Z.min l' x)
  end.

Definition list_max (l : list Z) : option Z :=
  match l with
  | [] => None
  | x :: l' => Some (fold_left Z.max l' x)
  end.

(** [Series.interpolate(method="time")] with the default forward direction:
    a gap between two known samples is filled linearly in the index value,
    a gap after the last known sample repeats it, a gap before the first
    known sample stays missing. *)
Fixpoint next_valid (l : list (Z * option Q)) : option (Z * Q) :=
  match l with
  | [] => None
  | (x, Some y) :: _ => Some (x, y)
  | (_, None) :: l' => next_valid l'
  end.

Definition lerp (x0 : Z) (y0 : Q) (x1 : Z) (y1 : Q) (x : Z) : Q :=
  ((y1 - y0) / inject_Z (x1 - x0)) * inject_Z (x - x0) + y0.

Fixpoint interp_from (prev : option (Z * Q)) (l : list (Z * option Q)) : list (option Q) :=
  match l with
  | [] => []
  | (x, Some y) :: l' => Some y :: interp_from (Some (x, y)) l'
  | (x, None) :: l' =>
      match prev with
      | None => None
      | Some (x0, y0) =>
          match next_valid l' with
          | None => Some y0
          | Some (x1, y1) => Some (lerp x0 y0 x1 y1 x)
          end
      end :: interp_from prev l'
  end.

Definition interpolate_column (xs : list Z) (ys : list (option Q)) : list (option Q) :=
  interp_from None (combine xs ys).

(** [DataFrame.reindex] along a time index: the row of each label of the
    new index, a row of missing cells for a label the frame does not hold.
    pandas refuses to reindex a frame whose index has duplicate labels. *)
Definition reindex_by {R} (key : R -> datetime) (nan : datetime -> R)
    (df : list R) (grid : list datetime) : result (list R) :=
  match grid with
  | _ :: _ =>
      if has_dup (map key df)
      then raise (ValueError "cannot reindex from a duplicate axis")
      else ret (map (fun t =>
                  match find (fun r => key r =? t) df with
                  | Some r => r
                  | None => nan t
                  end) grid)
  | [] => ret []
  end.

(** [df.iloc[:n]] *)
Definition iloc_head {R} (n : Z) (df : list R) : list R :=
  if n <? 0
  then firstn (List.length df - Z.to_nat (- n)) df
  else firstn (Z.to_nat n) df.

(** ** Storage schema (tables.py) *)

(** The eleven floating point columns of the weather table, which are
    [SolarDBConfig.WEATHER_FEATURES]. *)
Inductive weather_feature : Type :=
| precip_int | precip_prob | temp | apparent_temp | dew_point | humidity
| pressure | wind_speed | wind_bearing | cloud_cover | visibility.

(** One record of [SolarWeatherTable], keyed by [(pp_id, dt, age)]. *)
Record SolarWeatherTable : Type := mkWeatherRecord {
  wt_pp_id : Z;
  wt_dt : datetime;
  wt_age : Z;
  wt_src_dt : option datetime;
  wt_summary : option string;
  wt_feature : weather_feature -> option Q;
  wt_ipolated : option bool;
  wt_epolated : option bool
}.

(** One record of [SolarPowerTable], keyed by [(pp_id, inv_id, dt)]. *)
Record SolarPowerTable : Type := mkPowerRecord {
  pt_pp_id : Z;
  pt_inv_id : Z;
  pt_dt : datetime;
  pt_power_ac : option Z;
  pt_power_dc : option Z;
  pt_energy_hour : option Z;
  pt_energy_day : option Z;
  pt_energy_week : option Z;
  pt_energy_month : option Z;
  pt_ipolated : option bool;
  pt_epolated : option bool
}.

(** One record of [SolarExogenousTable], keyed by [(pp_id, dt)]. *)
Record SolarExogenousTable : Type := mkExogenousRecord {
  et_pp_id : Z;
  et_dt : datetime;
  et_sun_altitude : option Q;
  et_sun_azimuth : option Q;
  et_sun_irradiance : option Q;
  et_status : option Z;
  et_error : option Z;
  et_clear : option Q
}.

(** ** Weather frames and [SolarDBData.get_pp_weather] (data.py)

    The [columns] argument is left at its default: every non-key column. *)

(** A cell of the ["src_dt"] column.  The fix-up of a smoothed frame
    recomputes the whole column in floating point ([pd.to_numeric],
    [Series.interpolate] along the ["dt"] index of the frame of all plants,
    [pd.to_datetime]): every cell, also one that held a stored instant, is
    then the rounding of a double to nanoseconds.  What the doubles round
    to is not modelled: a cell of the recomputed column is [Recomputed] and
    carries no value. *)
Inductive src_dt_cell : Type :=
| SrcDt (s : option datetime)
| Recomputed.

(** The instant of a cell that was not recomputed. *)
Definition src_dt_of (c : src_dt_cell) : option datetime :=
  match c with
  | SrcDt s => s
  | Recomputed => None
  end.

(** A row of a weather [DataFrame].  The cell of an absent column is [None]:
    ["pp_id"] is a column only when the query is not limited to one plant or
    [all_indices] is set, ["age"] only when no source limit is given. *)
Record weather_row : Type := mkWeatherRow {
  w_pp_id : option Z;
  w_dt : datetime;
  w_age : option Z;
  w_src_dt : src_dt_cell;
  w_summary : option string;
  w_feature : weather_feature -> option Q;
  w_ipolated : option bool;
  w_epolated : option bool
}.

Record weather_frame : Type := mkWeatherFrame {
  wf_index : list string;        (* [idx_columns] *)
  wf_rows : list weather_row
}.

Definition with_pp_id (v : option Z) (r : weather_row) : weather_row :=
  mkWeatherRow v (w_dt r) (w_age r) (w_src_dt r) (w_summary r) (w_feature r)
    (w_ipolated r) (w_epolated r).

Definition with_src_dt (r : weather_row) (v : src_dt_cell) : weather_row :=
  mkWeatherRow (w_pp_id r) (w_dt r) (w_age r) v (w_summary r) (w_feature r)
    (w_ipolated r) (w_epolated r).

Definition with_summary (r : weather_row) (v : option string) : weather_row :=
  mkWeatherRow (w_pp_id r) (w_dt r) (w_age r) (w_src_dt r) v (w_feature r)
    (w_ipolated r) (w_epolated r).

Definition with_feature (r : weather_row) (v : weather_feature -> option Q) : weather_row :=
  mkWeatherRow (w_pp_id r) (w_dt r) (w_age r) (w_src_dt r) (w_summary r) v
    (w_ipolated r) (w_epolated r).

Definition with_ipolated (r : weather_row) (v : option bool) : weather_row :=
  mkWeatherRow (w_pp_id r) (w_dt r) (w_age r) (w_src_dt r) (w_summary r) (w_feature r)
    v (w_epolated r).

Definition with_epolated (r : weather_row) (v : option bool) : weather_row :=
  mkWeatherRow (w_pp_id r) (w_dt r) (w_age r) (w_src_dt r) (w_summary r) (w_feature r)
    (w_ipolated r) v.

(** The cells of the eleven feature columns of a row are computed column by
    column and stored: [tabulate g] is [g] with its eleven values computed
    once. *)
Definition tabulate (g : weather_feature -> option Q) : weather_feature -> option Q :=
  let v0 := g precip_int in
  let v1 := g precip_prob in
  let v2 := g temp in
  let v3 := g apparent_temp in
  let v4 := g dew_point in
  let v5 := g humidity in
  let v6 := g pressure in
  let v7 := g wind_speed in
  let v8 := g wind_bearing in
  let v9 := g cloud_cover in
  let v10 := g visibility in
  fun f =>
    match f with
    | precip_int => v0
    | precip_prob => v1
    | temp => v2
    | apparent_temp => v3
    | dew_point => v4
    | humidity => v5
    | pressure => v6
    | wind_speed => v7
    | wind_bearing => v8
    | cloud_cover => v9
    | visibility => v10
    end.

(** [SolarDBConfig.WEATHER_FEATURES] *)
Definition features : list weather_feature :=
  [precip_int; precip_prob; temp; apparent_temp; dew_point; humidity;
   pressure; wind_speed; wind_bearing; cloud_cover; visibility].

(** The dtypes of the columns of a weather frame.  pandas types a column
    when the frame is built from the fetched rows: a [Float] column with a
    value is float64, ["src_dt"] with an instant is datetime64, a flag
    column without a missing cell is bool, and a column that holds [None]
    only, a flag column with a missing cell, ["summary"] and every column
    of a frame without rows are of dtype object.  The cells of the
    embedding carry no dtype, so it is read off the cells of the column. *)
Definition datetime64_column (df : list weather_row) : bool :=
  existsb (fun r => is_some (src_dt_of (w_src_dt r))) df.

Definition float64_column (f : weather_feature) (df : list weather_row) : bool :=
  existsb (fun r => is_some (w_feature r f)) df.

Definition bool_column (flag : weather_row -> option bool) (df : list weather_row) : bool :=
  match df with
  | [] => false
  | _ :: _ => forallb (fun r => is_some (flag r)) df
  end.

(** [np.all(obj.dtypes == np.dtype("object"))] for the frame that the rows
    [idf] give when reindexed to [grid].  The rows are a group of the frame
    [whole] and share its dtypes; a bool column turns to object when the
    reindex gives it a missing cell, that is, when an instant of the grid
    has no row. *)
Definition object_only (whole idf : list weather_row) (grid : list datetime) : bool :=
  let gaps := existsb (fun t => negb (existsb (fun r => w_dt r =? t) idf)) grid in
  negb (datetime64_column whole) &&
  forallb (fun f => negb (float64_column f whole)) features &&
  (negb (bool_column w_ipolated whole) || gaps) &&
  (negb (bool_column w_epolated whole) || gaps).

(** The row a reindex creates for a label the frame does not hold. *)
Definition nan_row (t : datetime) : weather_row :=
  mkWeatherRow None t None (SrcDt None) None (fun _ => None) None None.

(** [order_by(dt.asc(), age.asc())] *)
Definition weather_order (a b : SolarWeatherTable) : bool :=
  (wt_dt a <? wt_dt b) || ((wt_dt a =? wt_dt b) && (wt_age a <=? wt_age b)).

(** The [WHERE] clauses of the weather query; a comparison with a NULL
    [src_dt] does not hold. *)
Definition weather_where (pp : option PowerPlantID) (dt_start dt_end : option datetime)
    (src_age : option Z) (src_dt_max : option datetime) (r : SolarWeatherTable) : bool :=
  when_set pp (fun p => wt_pp_id r =? pp_id p) &&
  when_set dt_start (fun t => t <=? wt_dt r) &&
  when_set dt_end (fun t => wt_dt r <=? t) &&
  when_set src_age (fun a => wt_age r =? a) &&
  when_set src_dt_max (fun m =>
    match wt_src_dt r with
    | Some s => s <=? m
    | None => false
    end).

Definition weather_query (table : list SolarWeatherTable) (pp : option PowerPlantID)
    (dt_start dt_end : option datetime) (src_age : option Z)
    (src_dt_max : option datetime) : list SolarWeatherTable :=
  order_by weather_order (filter (weather_where pp dt_start dt_end src_age src_dt_max) table).

(** [pd.DataFrame(data=data, columns=column_names)] *)
Definition weather_row_of (has_pp has_age : bool) (r : SolarWeatherTable) : weather_row :=
  mkWeatherRow (if has_pp then Some (wt_pp_id r) else None) (wt_dt r)
    (if has_age then Some (wt_age r) else None)
    (SrcDt (wt_src_dt r)) (wt_summary r) (wt_feature r) (wt_ipolated r) (wt_epolated r).

(** [df.groupby("dt").first().reset_index()]: one row per timestamp, in
    ascending order of the timestamps, each cell the first non-missing cell
    of its column within the group. *)
Definition first_of_group (k : datetime) (g : list weather_row) : weather_row :=
  mkWeatherRow (first_valid w_pp_id g) k (first_valid w_age g)
    (SrcDt (first_valid (fun r => src_dt_of (w_src_dt r)) g)) (first_valid w_summary g)
    (tabulate (fun f => first_valid (fun r => w_feature r f) g))
    (first_valid w_ipolated g) (first_valid w_epolated g).

Definition groupby_dt_first (df : list weather_row) : list weather_row :=
  map (fun k => first_of_group k (filter (fun r => w_dt r =? k) df))
      (group_keys (map w_dt df)).

(** The right-edge extension of an unbounded query: a copy of the last row
    at the last primary-frequency instant of the last day.  A frame without
    rows has no last label ([df.loc[nan]] is a KeyError); in a ["src_dt"]
    column of dtype object the cell of the last row is [None], which cannot
    be subtracted from an instant. *)
Definition extend_right (df : list weather_row) : result (list weather_row) :=
  match list_max (map w_dt df), rev df with
  | Some dt_max, r :: _ =>
      let new_dt := freq_floor (date_latest_date_time (dt_max / day)) P_FREQUENCY_D in
      if datetime64_column df
      then ret (df ++ [ mkWeatherRow (w_pp_id r) new_dt (w_age r)
                          (SrcDt (option_map (fun s => new_dt + (w_dt r - s))
                                             (src_dt_of (w_src_dt r))))
                          (w_summary r) (w_feature r) (Some false) (Some true) ])
      else raise (TypeError "unsupported operand type(s) for -: 'Timestamp' and 'NoneType'")
  | _, _ => raise (KeyError "nan")
  end.

(** [DataFrame.reindex] by the ["dt"] index. *)
Definition reindex (df : list weather_row) (grid : list datetime) : result (list weather_row) :=
  reindex_by w_dt nan_row df grid.

(** The interpolation of the blocks of a frame: only the floating point
    columns are interpolated, each along the ["dt"] index. *)
Definition interpolate_blocks (df : list weather_row) : list weather_row :=
  let column f := interpolate_column (map w_dt df) (map (fun r => w_feature r f) df) in
  zip_with (fun r i => with_feature r (tabulate (fun f => nth i (column f) None)))
           df (seq 0 (List.length df)).

(** [DataFrame.interpolate(method="time")]: a frame without rows is given
    back as it is, a frame whose columns are all of dtype object is
    refused, the blocks of any other frame are interpolated. *)
Definition interpolate_time (all_object : bool) (df : list weather_row)
    : result (list weather_row) :=
  match df with
  | [] => ret []
  | _ :: _ =>
      if all_object
      then raise (TypeError "Cannot interpolate with all object-dtype columns in the DataFrame. Try setting at least one column to a numeric dtype.")
      else ret (interpolate_blocks df)
  end.

(** [resample_df], applied to the whole frame or to a group of it. *)
Definition resample_df (whole : list weather_row) (res_dt_start res_dt_end : datetime)
    (idf : list weather_row) : result (list weather_row) :=
  let idf := map (with_pp_id None) idf in
  let grid := date_range res_dt_start (res_dt_end + P_FREQUENCY_D) P_FREQUENCY_D in
  df <- reindex idf grid ;;
  interpolate_time (object_only whole idf grid) df.

(** [df.groupby("pp_id").apply(resample_df).reset_index()]: the groups in
    ascending order of the plant, each resampled on its own, the plant put
    back as a column.  For a frame without any group pandas gives back a
    frame without the index columns, which the closing [set_index] refuses. *)
Fixpoint apply_groups (f : list weather_row -> result (list weather_row))
    (df : list weather_row) (keys : list Z) : result (list weather_row) :=
  match keys with
  | [] => ret []
  | k :: keys' =>
      g <- f (filter (fun r => opt_Z_eqb (w_pp_id r) (Some k)) df) ;;
      rest <- apply_groups f df keys' ;;
      ret (map (with_pp_id (Some k)) g ++ rest)
  end.

Definition groupby_pp_id_apply (f : list weather_row -> result (list weather_row))
    (df : list weather_row) : result (list weather_row) :=
  match df with
  | [] => raise (KeyError "pp_id")
  | _ :: _ =>
      apply_groups f df
        (group_keys (flat_map (fun r => match w_pp_id r with
                                        | Some k => [k]
                                        | None => []
                                        end) df))
  end.

(** The fix-up of ["src_dt"]: the column is turned to numbers, interpolated
    as doubles and turned back to instants; every cell of it is recomputed. *)
Definition fix_src_dt (df : list weather_row) : list weather_row :=
  map (fun r => with_src_dt r Recomputed) df.

Definition fix_summary (df : list weather_row) : list weather_row :=
  zip_with with_summary df (ffill (map w_summary df)).

Definition fix_ipolated (df : list weather_row) : list weather_row :=
  zip_with with_ipolated df (ffill (map w_ipolated df)).

Definition fix_epolated (df : list weather_row) : list weather_row :=
  zip_with with_epolated df (ffill (map w_epolated df)).

(** The [if interpolate_smooth:] block. *)
Definition smooth (has_pp : bool) (dt_start dt_end : option datetime)
    (df : list weather_row) : result (list weather_row) :=
  df <- match dt_end with
        | None => extend_right df
        | Some _ => ret df
        end ;;
  res_dt_start <- match dt_start, list_min (map w_dt df) with
                  | Some t, _ => ret t
                  | None, Some t => ret t
                  | None, None => raise (ValueError "NaT")
                  end ;;
  res_dt_end <- match dt_end, list_max (map w_dt df) with
                | Some t, _ => ret t
                | None, Some t => ret t
                | None, None => raise (ValueError "NaT")
                end ;;
  df <- (if has_pp
         then groupby_pp_id_apply (resample_df df res_dt_start res_dt_end) df
         else resample_df df res_dt_start res_dt_end df) ;;
  let df := fix_src_dt df in
  let df := fix_summary df in
  let df := fix_ipolated df in
  let df := fix_epolated df in
  ret (match dt_end with
       | Some _ => removelast df
       | None => df
       end).

Definition get_pp_weather (table : list SolarWeatherTable)
    (pp : option PowerPlantIDT) (dt_start dt_end : option date_or_datetime)
    (all_indices : bool) (src_age : option Z) (src_dt_max : option datetime)
    (interpolate_smooth : bool) : result weather_frame :=
  let no_limit := match src_age, src_dt_max with
                  | None, None => true
                  | _, _ => false
                  end in
  if interpolate_smooth && no_limit
  then raise (RuntimeError "Smooth interpolation is only supported for age-limited queries!")
  else
    let has_pp := match pp with None => true | Some _ => all_indices end in
    let idx_columns :=
      (if has_pp then ["pp_id"%string] else []) ++ ["dt"%string]
        ++ (if no_limit then ["age"%string] else []) in
    pp <- match pp with
          | None => ret None
          | Some i => p <- get_pp_id i ;; ret (Some p)
          end ;;
    let dt_start :=
      option_map (fun d => let t := earliest_of d in
                           if interpolate_smooth then freq_floor t S_FREQUENCY_D else t)
                 dt_start in
    let dt_end :=
      option_map (fun d => let t := earliest_of d in
                           if interpolate_smooth then freq_ceil t S_FREQUENCY_D else t)
                 dt_end in
    let data := weather_query table pp dt_start dt_end src_age src_dt_max in
    let df := map (weather_row_of has_pp no_limit) data in
    let df := match src_dt_max with
              | Some _ => groupby_dt_first df
              | None => df
              end in
    df <- (if interpolate_smooth then smooth has_pp dt_start dt_end df else ret df) ;;
    ret (mkWeatherFrame idx_columns df).

(** ** Power frames and [SolarDBData.get_pp_power] (data.py) *)

Record power_row : Type := mkPowerRow {
  p_pp_id : option Z;
  p_inv_id : option Z;
  p_dt : datetime;
  p_power_ac : option Z;
  p_power_dc : option Z;
  p_energy_hour : option Z;
  p_energy_day : option Z;
  p_energy_week : option Z;
  p_energy_month : option Z;
  p_ipolated : option bool;
  p_epolated : option bool
}.

Record power_frame : Type := mkPowerFrame {
  pf_index : list string;
  pf_rows : list power_row
}.

Definition power_where (pp : option PowerPlantID) (dt_start dt_end : option datetime)
    (r : SolarPowerTable) : bool :=
  when_set pp (fun p =>
    (pt_pp_id r =? pp_id p) &&
    when_set (inv_id p) (fun i => pt_inv_id r =? i)) &&
  when_set dt_start (fun t => t <=? pt_dt r) &&
  when_set dt_end (fun t => pt_dt r <=? t).

(** The query of [get_pp_power], [ORDER BY dt]: records of one timestamp
    (the inverters of a plant) come in the order of the listing. *)
Definition power_query (table : list SolarPowerTable) (pp : option PowerPlantID)
    (dt_start dt_end : option datetime) : list SolarPowerTable :=
  order_by (fun a b => pt_dt a <=? pt_dt b) (filter (power_where pp dt_start dt_end) table).

Definition power_row_of (has_pp has_inv : bool) (r : SolarPowerTable) : power_row :=
  mkPowerRow (if has_pp then Some (pt_pp_id r) else None)
    (if has_inv then Some (pt_inv_id r) else None) (pt_dt r)
    (pt_power_ac r) (pt_power_dc r) (pt_energy_hour r) (pt_energy_day r)
    (pt_energy_week r) (pt_energy_month r) (pt_ipolated r) (pt_epolated r).

(** The integer columns of a power frame typed as pandas types them: the
    cells of a float64 column are doubles.  [upcast_power_row df r] is the
    row [r] of the frame [df] so typed. *)
Definition upcast_power_row (df : list power_row) (r : power_row) : power_row :=
  mkPowerRow (p_pp_id r) (p_inv_id r) (p_dt r)
    (as_float64 (map p_power_ac df) (p_power_ac r))
    (as_float64 (map p_power_dc df) (p_power_dc r))
    (as_float64 (map p_energy_hour df) (p_energy_hour r))
    (as_float64 (map p_energy_day df) (p_energy_day r))
    (as_float64 (map p_energy_week df) (p_energy_week r))
    (as_float64 (map p_energy_month df) (p_energy_month r))
    (p_ipolated r) (p_epolated r).

Definition upcast_power (df : list power_row) : list power_row :=
  map (upcast_power_row df) df.

Definition get_pp_power (table : list SolarPowerTable)
    (pp : option PowerPlantIDT) (dt_start dt_end : option date_or_datetime)
    (all_indices : bool) : result power_frame :=
  cols <- match pp with
          | None => ret (true, true)
          | Some i =>
              if all_indices then ret (true, true)
              else match i with
                   | IdObj o => ret (false, is_whole_power_plant o)
                   | _ => raise (AttributeError "is_whole_power_plant")
                   end
          end ;;
  let '(has_pp, has_inv) := cols in
  let idx_columns :=
    (if has_pp then ["pp_id"%string] else []) ++
    (if has_inv then ["inv_id"%string] else []) ++ ["dt"%string] in
  pp <- match pp with
        | None => ret None
        | Some i => p <- get_pp_id i ;; ret (Some p)
        end ;;
  let dt_start := option_map earliest_of dt_start in
  let dt_end := option_map earliest_of dt_end in
  let data := power_query table pp dt_start dt_end in
  ret (mkPowerFrame idx_columns (upcast_power (map (power_row_of has_pp has_inv) data))).

(** ** Exogenous frames and [SolarDBData.get_pp_exogenous] (data.py) *)

Record exogenous_row : Type := mkExogenousRow {
  e_pp_id : option Z;
  e_dt : datetime;
  e_sun_altitude : option Q;
  e_sun_azimuth : option Q;
  e_sun_irradiance : option Q;
  e_status : option Z;
  e_error : option Z;
  e_clear : option Q
}.

Record exogenous_frame : Type := mkExogenousFrame {
  ef_index : list string;
  ef_rows : list exogenous_row
}.

Definition exogenous_where (pp : option PowerPlantID) (dt_start dt_end : option datetime)
    (r : SolarExogenousTable) : bool :=
  when_set pp (fun p => et_pp_id r =? pp_id p) &&
  when_set dt_start (fun t => t <=? et_dt r) &&
  when_set dt_end (fun t => et_dt r <=? t).

Definition exogenous_query (table : list SolarExogenousTable) (pp : option PowerPlantID)
    (dt_start dt_end : option datetime) : list SolarExogenousTable :=
  order_by (fun a b => et_dt a <=? et_dt b)
           (filter (exogenous_where pp dt_start dt_end) table).

Definition exogenous_row_of (has_pp : bool) (r : SolarExogenousTable) : exogenous_row :=
  mkExogenousRow (if has_pp then Some (et_pp_id r) else None) (et_dt r)
    (et_sun_altitude r) (et_sun_azimuth r) (et_sun_irradiance r)
    (et_status r) (et_error r) (et_clear r).

(** The two integer columns of an exogenous frame typed as pandas types
    them. *)
Definition upcast_exogenous_row (df : list exogenous_row) (r : exogenous_row)
    : exogenous_row :=
  mkExogenousRow (e_pp_id r) (e_dt r)
    (e_sun_altitude r) (e_sun_azimuth r) (e_sun_irradiance r)
    (as_float64 (map e_status df) (e_status r))
    (as_float64 (map e_error df) (e_error r)) (e_clear r).

Definition upcast_exogenous (df : list exogenous_row) : list exogenous_row :=
  map (upcast_exogenous_row df) df.

Definition get_pp_exogenous (table : list SolarExogenousTable)
    (pp : option PowerPlantIDT) (dt_start dt_end : option date_or_datetime)
    (all_indices : bool) : result exogenous_frame :=
  let has_pp := match pp with None => true | Some _ => all_indices end in
  let idx_columns := (if has_pp then ["pp_id"%string] else []) ++ ["dt"%string] in
  pp <- match pp with
        | None => ret None
        | Some i => p <- get_pp_id i ;; ret (Some p)
        end ;;
  let dt_start := option_map earliest_of dt_start in
  let dt_end := option_map earliest_of dt_end in
  let data := exogenous_query table pp dt_start dt_end in
  ret (mkExogenousFrame idx_columns (upcast_exogenous (map (exogenous_row_of has_pp) data))).

(** ** The data source and [SolarDBAssembler] (assemble.py) *)

(** The tables a [SolarDBData] reads. *)
Record SolarDBData : Type := mkSolarDBData {
  power_table : list SolarPowerTable;
  weather_table : list SolarWeatherTable;
  exogenous_table : list SolarExogenousTable
}.

Definition _convert_date_time (d : date_or_datetime) : datetime := earliest_of d.

Definition _prepare_frame_index (frequency : Z) (dt_start dt_end : datetime) : list datetime :=
  date_range dt_start dt_end frequency.

Definition nan_power_row (t : datetime) : power_row :=
  mkPowerRow None None t None None None None None None None None.

Definition fill {A} (v : A) (c : option A) : option A :=
  match c with
  | Some x => Some x
  | None => Some v
  end.

(** The [fillna] calls of [prepare_history]: zero for every column but the
    identity and the flags, [False] and [True] for the two flags. *)
Definition fill_history (r : power_row) : power_row :=
  mkPowerRow (p_pp_id r) (p_inv_id r) (p_dt r)
    (fill 0 (p_power_ac r)) (fill 0 (p_power_dc r))
    (fill 0 (p_energy_hour r)) (fill 0 (p_energy_day r))
    (fill 0 (p_energy_week r)) (fill 0 (p_energy_month r))
    (fill false (p_ipolated r)) (fill true (p_epolated r)).

Definition assign_power_id (pp inv : Z) (r : power_row) : power_row :=
  mkPowerRow (Some pp) (Some inv) (p_dt r)
    (p_power_ac r) (p_power_dc r) (p_energy_hour r) (p_energy_day r)
    (p_energy_week r) (p_energy_month r) (p_ipolated r) (p_epolated r).

Definition with_p_dt (r : power_row) (t : datetime) : power_row :=
  mkPowerRow (p_pp_id r) (p_inv_id r) t
    (p_power_ac r) (p_power_dc r) (p_energy_hour r) (p_energy_day r)
    (p_energy_week r) (p_energy_month r) (p_ipolated r) (p_epolated r).

Definition full_index : list string := ["pp_id"; "inv_id"; "dt"]%string.

Definition inv_id_or_aggregate (p : PowerPlantID) : Z :=
  match inv_id p with
  | Some i => i
  | None => -1
  end.

Definition prepare_history (data : SolarDBData) (pp : PowerPlantIDT)
    (dt_start : date_or_datetime) (history_cnt : Z) (history_fallback : bool)
    : result power_frame :=
  pp <- get_pp_id pp ;;
  let dt_start := _convert_date_time dt_start in
  let dt_alt_start := dt_start - P_FREQUENCY_D * history_cnt in
  let dt_alt_end := dt_start in
  let dt_ealt_end := dt_start + P_FREQUENCY_D * history_cnt in
  let frame_index := _prepare_frame_index P_FREQUENCY_D dt_alt_start dt_alt_end in
  if history_fallback then
    power_df <- get_pp_power (power_table data) (Some (IdObj pp))
                  (Some (DateTime dt_alt_start)) (Some (DateTime dt_ealt_end)) true ;;
    let rows := iloc_head history_cnt (pf_rows power_df) in
    if Nat.eqb (List.length rows) (List.length frame_index)
    then ret (mkPowerFrame full_index (zip_with with_p_dt rows frame_index))
    else raise (ValueError "Length mismatch")
  else
    power_df <- get_pp_power (power_table data) (Some (IdObj pp))
                  (Some (DateTime dt_alt_start)) (Some (DateTime dt_alt_end)) true ;;
    rows <- reindex_by p_dt nan_power_row
              (iloc_head history_cnt (pf_rows power_df)) frame_index ;;
    let rows := map fill_history (upcast_power rows) in
    ret (mkPowerFrame full_index
           (map (assign_power_id (pp_id pp) (inv_id_or_aggregate pp)) rows)).

(** A row of the frame [prepare_weather] returns: the weather columns, the
    exogenous columns merged in on the index, the assigned ["inv_id"]. *)
Record feature_row : Type := mkFeatureRow {
  f_inv_id : Z;
  f_weather : weather_row;
  f_exogenous : exogenous_row
}.

Record feature_frame : Type := mkFeatureFrame {
  ff_index : list string;
  ff_rows : list feature_row
}.

(** [weather_df.merge(exogenous_df, left_index=True, right_index=True)]: the
    inner join on the [(pp_id, dt)] index, in the order of the left frame
    (both frames come sorted by time). *)
Definition merge (left : list weather_row) (right : list exogenous_row)
    : list (weather_row * exogenous_row) :=
  flat_map (fun w =>
    map (fun e => (w, e))
        (filter (fun e => opt_Z_eqb (w_pp_id w) (e_pp_id e) && (w_dt w =? e_dt e)) right))
    left.

Definition prepare_weather (data : SolarDBData) (pp : PowerPlantIDT)
    (dt_start dt_end : date_or_datetime) (weather_scheme : string)
    (forecast_delta : option Z) : result feature_frame :=
  pp <- get_pp_id pp ;;
  let dt_start := _convert_date_time dt_start in
  let dt_end := _convert_date_time dt_end in
  weather_df <-
    (if String.eqb weather_scheme "measured" then
       get_pp_weather (weather_table data) (Some (IdObj pp))
         (Some (DateTime dt_start)) (Some (DateTime dt_end)) true (Some 0) None true
     else if String.eqb weather_scheme "forecast" then
       match forecast_delta with
       | None => raise (RuntimeError "Weather sampling used, but forecast_delta is not set!")
       | Some delta =>
           get_pp_weather (weather_table data) (Some (IdObj pp))
             (Some (DateTime dt_start)) (Some (DateTime dt_end)) true (Some delta) None true
       end
     else if String.eqb weather_scheme "realistic" then
       get_pp_weather (weather_table data) (Some (IdObj pp))
         (Some (DateTime dt_start)) (Some (DateTime dt_end)) true None (Some dt_start) true
     else raise (RuntimeError "Unknown weather sampling scheme")) ;;
  exogenous_df <- get_pp_exogenous (exogenous_table data) (Some (IdObj pp))
                    (Some (DateTime dt_start)) (Some (DateTime dt_end)) true ;;
  ret (mkFeatureFrame full_index
         (map (fun we => mkFeatureRow (inv_id_or_aggregate pp) (fst we) (snd we))
              (merge (wf_rows weather_df) (ef_rows exogenous_df)))).

(** ** Caller-supplied frames and [SolarDBEvaluator] (evaluate.py)

    The frames handed to the evaluator are checked for their index names
    and columns at run time, so they are modelled with names: a row maps
    the name of an index level or of a column to its cell.  An unnamed
    index level is the positional [RangeIndex]. *)

Inductive cell : Type :=
| CInt (z : Z)
| CTime (t : datetime)
| CNum (q : Q)
| CStr (s : string)
| CBool (b : bool)
| CNaN.

Record DataFrame : Type := mkDataFrame {
  index_names : list (option string);
  columns : list string;
  rows : list (string -> cell)
}.

(** [pd.DataFrame()] *)
Definition empty_frame : DataFrame := mkDataFrame [None] [] [].

Definition len (df : DataFrame) : nat := List.length (rows df).

Definition mem (n : string) (l : list string) : bool := existsb (String.eqb n) l.

(** [n in df.index.names] *)
Definition in_index_names (n : string) (df : DataFrame) : bool :=
  existsb (fun o => match o with
                    | Some s => String.eqb n s
                    | None => false
                    end) (index_names df).

Definition upd (r : string -> cell) (k : string) (v : cell) : string -> cell :=
  fun k' => if String.eqb k' k then v else r k'.

Definition digit (i : nat) : string :=
  String (Ascii.ascii_of_nat (48 + i)) EmptyString.

(** The column names [reset_index] gives the index levels. *)
Definition level_labels (names : list (option string)) : list (option string * string) :=
  match names with
  | [None] => [(None, "index"%string)]
  | _ => zip_with (fun o i => (o, match o with
                                  | Some s => s
                                  | None => String.append "level_" (digit i)
                                  end)) names (seq 0 (List.length names))
  end.

Definition reset_index (df : DataFrame) : result DataFrame :=
  let labels := level_labels (index_names df) in
  if existsb (fun l => mem (snd l) (columns df)) labels
  then raise (ValueError "cannot insert, already exists")
  else
    ret (mkDataFrame [None] (map snd labels ++ columns df)
           (zip_with (fun r i =>
              fold_right (fun l r' => match fst l with
                                      | None => upd r' (snd l) (CInt (Z.of_nat i))
                                      | Some _ => r'
                                      end) r labels)
              (rows df) (seq 0 (len df)))).

(** [df.assign(name=v)] with a scalar. *)
Definition assign (name : string) (v : cell) (df : DataFrame) : DataFrame :=
  mkDataFrame (index_names df)
    (if mem name (columns df) then columns df else columns df ++ [name])
    (map (fun r => upd r name v) (rows df)).

(** [df.set_index(keys)] with column names. *)
Definition set_index (keys : list string) (df : DataFrame) : result DataFrame :=
  match filter (fun k => negb (mem k (columns df))) keys with
  | k :: _ => raise (KeyError k)
  | [] =>
      ret (mkDataFrame (map Some keys)
             (filter (fun c => negb (mem c keys)) (columns df)) (rows df))
  end.

(** [df.set_index(other.index)] for frames of one length: the index of
    [other] replaces the index of [df]. *)
Definition set_index_of (other df : DataFrame) : DataFrame :=
  mkDataFrame (index_names other) (columns df)
    (zip_with (fun r o =>
       fold_right (fun n r' => match n with
                               | Some s => upd r' s (o s)
                               | None => r'
                               end) r (index_names other))
       (rows df) (rows other)).

(** [df.rename(columns={old: new})] *)
Definition rename_column (old new : string) (df : DataFrame) : DataFrame :=
  mkDataFrame (index_names df)
    (map (fun c => if String.eqb c old then new else c) (columns df))
    (map (fun r => upd r new (r old)) (rows df)).

Definition is_missing (c : cell) : bool :=
  match c with
  | CNaN => true
  | _ => false
  end.

(** [df[col].count()]: the number of cells that are not missing. *)
Definition count (col : string) (df : DataFrame) : nat :=
  List.length (filter (fun r => negb (is_missing (r col))) (rows df)).

(** [df.index.get_level_values(level=name)] *)
Definition get_level_values (name : string) (df : DataFrame) : result (list cell) :=
  if in_index_names name df
  then ret (map (fun r => r name) (rows df))
  else raise (KeyError name).

Definition cell_eqb (a b : cell) : bool :=
  match a, b with
  | CInt x, CInt y => x =? y
  | CTime x, CTime y => x =? y
  | CNum x, CNum y => Qeq_bool x y
  | CStr x, CStr y => String.eqb x y
  | CBool x, CBool y => Bool.eqb x y
  | CNaN, CNaN => true
  | _, _ => false
  end.

(** [Index.unique] *)
Fixpoint unique (l : list cell) : list cell :=
  match l with
  | [] => []
  | c :: l' => c :: filter (fun d => negb (cell_eqb c d)) (unique l')
  end.

Definition times (l : list cell) : list datetime :=
  flat_map (fun c => match c with
                     | CTime t => [t]
                     | _ => []
                     end) l.

(** [min()] and [max()] of a level of instants; [None] is [NaT]. *)
Definition level_min (l : list cell) : option datetime := list_min (times l).
Definition level_max (l : list cell) : option datetime := list_max (times l).

Definition opt_time_eqb (a b : option datetime) : bool := opt_Z_eqb a b.

(** [int(c)] of the constructor of [PowerPlantID]. *)
Definition int_of_cell (c : cell) : result Z :=
  match c with
  | CInt z => ret z
  | CBool b => ret (if b then 1 else 0)
  | CNum q => ret (Z.quot (Qnum q) (Zpos (Qden q)))
  | _ => raise (ValueError "int() argument")
  end.

(** [pp_id.pp_id] and [-1 if pp_id.is_whole_power_plant() else pp_id.inv_id]
    of the two [assign] calls; the attributes exist on a [PowerPlantID] only. *)
Definition assigned_ids (pp : option PowerPlantIDT) : result (cell * cell) :=
  match pp with
  | None => ret (CInt 0, CInt 0)
  | Some (IdObj o) => ret (CInt (pp_id o), CInt (inv_id_or_aggregate o))
  | Some _ => raise (AttributeError "pp_id")
  end.

Definition attach_ids (pp : option PowerPlantIDT) (df : DataFrame) : result DataFrame :=
  df <- reset_index df ;;
  ids <- assigned_ids pp ;;
  set_index full_index (assign "inv_id" (snd ids) (assign "pp_id" (fst ids) df)).

Definition lacks_ids (df : DataFrame) : bool :=
  negb (in_index_names "pp_id" df) || negb (in_index_names "inv_id" df).

Section Evaluator.

(** The statistics are floating point aggregates over the ground truth of
    the data source; their dictionaries are kept abstract. *)
Variable dict : Type.
Variable _evaluate_power :
  PowerPlantID -> DataFrame -> option datetime -> option datetime ->
  string -> bool -> result dict.
Variable _evaluate_weather :
  PowerPlantID -> DataFrame -> option datetime -> option datetime -> result dict.

Definition _evaluate_history (pp : PowerPlantID) (history_df : DataFrame)
    (dt_start dt_end : option datetime) (prediction_type : string) : result dict :=
  dts <- get_level_values "dt" history_df ;;
  _evaluate_power pp history_df (level_min dts) (level_max dts) prediction_type true.

Record stats : Type := mkStats {
  stats_power : dict;
  stats_weather : option dict;
  stats_history : option dict
}.

Definition evaluate_prediction (prediction_df : DataFrame) (prediction_type : string)
    (history_df weather_df : DataFrame) (pp : option PowerPlantIDT) : result stats :=
  let has_history := negb (Nat.eqb (len history_df) 0) in
  let has_weather := negb (Nat.eqb (len weather_df) 0) in
  prediction_df <-
    (if lacks_ids prediction_df then
       if is_none pp && negb (Nat.eqb (len prediction_df) 0)
       then raise (RuntimeError "Prediction frame is missing indices!")
       else attach_ids pp prediction_df
     else ret prediction_df) ;;
  history_df <-
    (if lacks_ids history_df then
       if is_none pp && has_history
       then raise (RuntimeError "History frame is missing indices!")
       else attach_ids pp prediction_df
     else ret history_df) ;;
  if negb (mem "power" (columns prediction_df))
  then raise (RuntimeError "Provided prediction DataFrame does not contain power column!")
  else if negb (Nat.eqb (count "power" prediction_df) (len prediction_df))
  then raise (RuntimeError "Provided prediction DataFrame contains NaN or other invalid values!")
  else
    weather_df <-
      (if has_weather then
         if negb (Nat.eqb (len weather_df) (len prediction_df))
         then raise (RuntimeError "Prediction and Weather DataFrames are not the same length!")
         else ret (set_index_of prediction_df weather_df)
       else ret weather_df) ;;
    history_df <-
      (if has_history then
         let history_df :=
           if mem prediction_type (columns history_df)
              && negb (mem "power" (columns history_df))
           then rename_column prediction_type "power" history_df
           else history_df in
         if negb (mem "power" (columns history_df))
         then raise (RuntimeError "Provided history DataFrame does not contain power column!")
         else ret history_df
       else ret history_df) ;;
    pp_level <- get_level_values "pp_id" prediction_df ;;
    inv_level <- get_level_values "inv_id" prediction_df ;;
    let pp_ids := unique pp_level in
    let inv_ids := unique inv_level in
    match pp_ids, inv_ids with
    | [p], [i] =>
        p <- int_of_cell p ;;
        i <- int_of_cell i ;;
        let pp := mkPowerPlantID p (Some i) in
        dts <- get_level_values "dt" prediction_df ;;
        let dt_start := level_min dts in
        let dt_end := level_max dts in
        wth <- (if has_weather
                then w <- get_level_values "dt" weather_df ;;
                     ret (level_min w, level_max w)
                else ret (dt_start, dt_end)) ;;
        let '(dt_wth_start, dt_wth_end) := wth in
        if has_weather && (negb (opt_time_eqb dt_start dt_wth_start)
                           || negb (opt_time_eqb dt_end dt_wth_end))
        then raise (RuntimeError "Provided weather DataFrame does not cover the same date-time range as the prediction frame")
        else
          s_power <- _evaluate_power pp prediction_df dt_start dt_end prediction_type false ;;
          s_weather <- (if has_weather
                        then d <- _evaluate_weather pp weather_df dt_start dt_end ;;
                             ret (Some d)
                        else ret None) ;;
          s_history <- (if has_history
                        then d <- _evaluate_history pp history_df dt_start dt_end
                                    prediction_type ;;
                             ret (Some d)
                        else ret None) ;;
          ret (mkStats s_power s_weather s_history)
    | _, _ => raise (RuntimeError "Prediction DataFrame does not contain precisely on power plant!")
    end.

End Evaluator.

(** ** Specification predicates and proof automation *)

(** A frame holds numbers: its ["src_dt"] column or one of its feature
    columns has a value, so that the column is not of dtype object. *)
Definition holds_numbers (df : list weather_row) : bool :=
  datetime64_column df || existsb (fun f => float64_column f df) features.

(** The composite key of the weather table and its uniqueness. *)
Definition weather_key (r : SolarWeatherTable) : Z * datetime * Z :=
  (wt_pp_id r, wt_dt r, wt_age r).

Definition weather_keys_unique (table : list SolarWeatherTable) : Prop :=
  NoDup (map weather_key table).

(** The composite key of the exogenous table and its uniqueness. *)
Definition exogenous_key (r : SolarExogenousTable) : Z * datetime :=
  (et_pp_id r, et_dt r).

Definition exogenous_keys_unique (table : list SolarExogenousTable) : Prop :=
  NoDup (map exogenous_key table).

(** The temperature cell of a row of features. *)
Definition f_temp (r : feature_row) : option Q := w_feature (f_weather r) temp.

Definition f_dt (r : feature_row) : datetime := w_dt (f_weather r).

(** The temperature of a row is exactly linear in the time elapsed since
    the anchor of 10 degrees at [t0], towards 12 degrees one hour later, and
    lies between the anchors, strictly so after [t0]. *)
Definition linear_from_10_to_12 (t0 t : datetime) (c : option Q) : Prop :=
  exists v, c = Some v /\
    (v == 10 + (12 - 10) * (inject_Z (t - t0) / inject_Z hour))%Q /\
    (10 <= v)%Q /\ (v < 12)%Q /\ (t0 < t -> (10 < v)%Q).

(** A cell holds the first known value of a column among the records of a
    group taken in ascending age: the value of a record before which every
    fresher record of the group has none, or nothing when no record of the
    group has a value. *)
Definition first_known {B} (G : SolarWeatherTable -> Prop)
    (col : SolarWeatherTable -> option B) (c : option B) : Prop :=
  match c with
  | Some v =>
      exists r, G r /\ col r = Some v /\
                forall r', G r' -> wt_age r' < wt_age r -> col r' = None
  | None => forall r, G r -> col r = None
  end.

(** The freshest record of a group: none of the group has a smaller age. *)
Definition freshest (G : SolarWeatherTable -> Prop) (r0 : SolarWeatherTable) : Prop :=
  G r0 /\ forall r, G r -> wt_age r0 <= wt_age r.

(** The records of one plant for the instant [t] that a query with a cutoff
    selects. *)
Definition cutoff_group (table : list SolarWeatherTable) (pid : PowerPlantID)
    (dt_start dt_end : option datetime) (src_age : option Z) (cutoff : datetime)
    (t : datetime) (r : SolarWeatherTable) : Prop :=
  In r table /\
  weather_where (Some pid) dt_start dt_end src_age (Some cutoff) r = true /\
  wt_dt r = t.

(** Every cell of a row is the first known value of its column in a group. *)
Definition cells_first_known (G : SolarWeatherTable -> Prop) (row : weather_row) : Prop :=
  (exists c, w_src_dt row = SrcDt c /\ first_known G wt_src_dt c) /\
  first_known G wt_summary (w_summary row) /\
  (forall c, first_known G (fun r => wt_feature r c) (w_feature row c)) /\
  first_known G wt_ipolated (w_ipolated row) /\
  first_known G wt_epolated (w_epolated row).

(** A row carries every value the record [r0] has. *)
Definition carries (row : weather_row) (r0 : SolarWeatherTable) : Prop :=
  w_src_dt row = SrcDt (wt_src_dt r0) /\
  (forall v, wt_summary r0 = Some v -> w_summary row = Some v) /\
  (forall c v, wt_feature r0 c = Some v -> w_feature row c = Some v) /\
  (forall v, wt_ipolated r0 = Some v -> w_ipolated row = Some v) /\
  (forall v, wt_epolated r0 = Some v -> w_epolated row = Some v).

(** The composite key of the power table and its uniqueness. *)
Definition power_key (r : SolarPowerTable) : Z * Z * datetime :=
  (pt_pp_id r, pt_inv_id r, pt_dt r).

Definition power_keys_unique (table : list SolarPowerTable) : Prop :=
  NoDup (map power_key table).

(** The power table has a record of the identity at the instant. *)
Definition stored_at (table : list SolarPowerTable) (pid : PowerPlantID)
    (t : datetime) : Prop :=
  exists r, In r table /\ power_where (Some pid) None None r = true /\ pt_dt r = t.

(** A row of a history frame that stands for a missing record. *)
Definition zero_filled (row : power_row) : Prop :=
  p_power_ac row = Some 0 /\ p_power_dc row = Some 0 /\
  p_energy_hour row = Some 0 /\ p_energy_day row = Some 0 /\
  p_energy_week row = Some 0 /\ p_energy_month row = Some 0 /\
  p_ipolated row = Some false /\ p_epolated row = Some true.

(** The cells of the ["power"] column of a frame. *)
Definition power_cells (df : DataFrame) : list cell :=
  map (fun r => r "power"%string) (rows df).

(** A data-contract error: a RuntimeError with its message. *)
Definition data_contract_error {A} (m : result A) : Prop :=
  exists msg, m = inl (RuntimeError msg).

(** A frame indexed as the docstring of [evaluate_prediction] asks, by
    [(pp_id, inv_id, dt)] or by [dt], with no column named as one of these
    levels. *)
Definition indexed_as_documented (df : DataFrame) : Prop :=
  (index_names df = [Some "pp_id"; Some "inv_id"; Some "dt"]%string \/
   index_names df = [Some "dt"%string]) /\
  mem "pp_id" (columns df) = false /\
  mem "inv_id" (columns df) = false /\
  mem "dt" (columns df) = false.

(** The identity argument left out or given as a [PowerPlantID]. *)
Definition given_as_object (pp : option PowerPlantIDT) : Prop :=
  pp = None \/ exists o, pp = Some (IdObj o).

(** Strictly ascending lists. *)
Inductive ascending : list Z -> Prop :=
| asc_nil : ascending []
| asc_one x : ascending [x]
| asc_cons x y l : x < y -> ascending (y :: l) -> ascending (x :: y :: l).

#[local] Hint Constructors ascending : core.

(** Case analysis on every scrutinee of a hypothesis that is a result. *)
Ltac break_match H :=
  repeat match type of H with
         | context [match ?x with _ => _ end] => destruct x eqn:?; try discriminate H
         | context [if ?x then _ else _] => destruct x eqn:?; try discriminate H
         end.

(** ** Fixtures *)

(** 2021-01-01 as a calendar date and as the instant 2021-01-01T00:00. *)
Definition d_2021_01_01 : Z := 18628.
Definition t_2021_01_01 : datetime := date_earliest_date_time d_2021_01_01.

(** One record of each table stamped 2021-01-01T12:00, plant 1. *)
Definition noon_power : SolarPowerTable :=
  mkPowerRecord 1 (-1) (t_2021_01_01 + 12 * hour)
    (Some 500) (Some 520) (Some 40) (Some 300) (Some 900) (Some 2000)
    (Some false) (Some false).

Definition noon_weather : SolarWeatherTable :=
  mkWeatherRecord 1 (t_2021_01_01 + 12 * hour) 0 (Some (t_2021_01_01 + 12 * hour))
    (Some "Clear"%string) (fun _ => Some (1 # 1)%Q) (Some false) (Some false).

Definition noon_exogenous : SolarExogenousTable :=
  mkExogenousRecord 1 (t_2021_01_01 + 12 * hour)
    (Some (1 # 2)%Q) (Some (3 # 1)%Q) (Some (800 # 1)%Q) (Some 0) (Some 0) (Some (1 # 10)%Q).

(** The measured weather of plant 1 at 2021-01-01T00:00, 10 degrees, and
    at 2021-01-01T01:00, 12 degrees. *)
Definition measured_at (t : datetime) (degrees : Q) (text : string) : SolarWeatherTable :=
  mkWeatherRecord 1 t 0 (Some t) (Some text)
    (fun f => match f with
              | temp => Some degrees
              | apparent_temp => Some degrees
              | _ => Some (1 # 2)%Q
              end)
    (Some false) (Some false).

Definition two_anchor_weather : list SolarWeatherTable :=
  [ measured_at t_2021_01_01 (10 # 1)%Q "Clear";
    measured_at (t_2021_01_01 + hour) (12 # 1)%Q "Cloudy" ].

(** The same two measurements taken at 00:30 and at 01:30: an hourly series
    off the hour. *)
Definition half_past_weather : list SolarWeatherTable :=
  [ measured_at (t_2021_01_01 + 30 * minute) (10 # 1)%Q "Clear";
    measured_at (t_2021_01_01 + 90 * minute) (12 # 1)%Q "Cloudy" ].

(** Two records of plant 1, at 00:00 and at 01:00, that hold a summary and
    the flags but no source time and no feature value. *)
Definition summary_only (t : datetime) : SolarWeatherTable :=
  mkWeatherRecord 1 t 0 None (Some "Clear"%string) (fun _ => None)
    (Some false) (Some false).

Definition summary_only_weather : list SolarWeatherTable :=
  [ summary_only t_2021_01_01; summary_only (t_2021_01_01 + hour) ].

(** The exogenous records of plant 1 every five minutes from
    2021-01-01T00:00 to 01:00. *)
Definition exogenous_at (k : nat) : SolarExogenousTable :=
  mkExogenousRecord 1 (t_2021_01_01 + Z.of_nat k * P_FREQUENCY_D)
    (Some (1 # 4)%Q) (Some (2 # 1)%Q) (Some (inject_Z (Z.of_nat k))) (Some 0) (Some 0)
    (Some (1 # 5)%Q).

Definition five_minute_exogenous : list SolarExogenousTable :=
  map exogenous_at (seq 0 13).

(** Two forecasts of plant 1 for 2021-01-01T12:00: the fresher one, issued
    one hour ahead, has no temperature; the older one, issued two hours
    ahead, has 5 degrees. *)
Definition forecast_fresh : SolarWeatherTable :=
  mkWeatherRecord 1 (t_2021_01_01 + 12 * hour) 1 (Some (t_2021_01_01 + 11 * hour))
    (Some "Rain"%string)
    (fun f => match f with
              | temp => None
              | _ => Some (1 # 2)%Q
              end)
    (Some false) (Some false).

Definition forecast_older : SolarWeatherTable :=
  mkWeatherRecord 1 (t_2021_01_01 + 12 * hour) 2 (Some (t_2021_01_01 + 10 * hour))
    (Some "Clear"%string)
    (fun f => match f with
              | temp => Some (5 # 1)%Q
              | _ => Some (1 # 4)%Q
              end)
    (Some false) (Some false).

Definition two_forecasts : list SolarWeatherTable := [forecast_older; forecast_fresh].

(** The measured weather of two plants: plant 1 at 2021-01-01T00:00 and
    01:00, plant 2 at 01:00 only. *)
Definition snow_of_plant_2 : SolarWeatherTable :=
  mkWeatherRecord 2 (t_2021_01_01 + hour) 0 (Some (t_2021_01_01 + hour))
    (Some "Snow"%string) (fun _ => Some (0 # 1)%Q) (Some true) (Some false).

Definition two_plants_weather : list SolarWeatherTable :=
  two_anchor_weather ++ [snow_of_plant_2].

(** The power of plant 1 at 2020-12-31T23:50, reported by the aggregate and
    by the inverter 0. *)
Definition power_at_2350 (inv : Z) : SolarPowerTable :=
  mkPowerRecord 1 inv (t_2021_01_01 - 10 * minute)
    (Some 100) (Some 110) (Some 8) (Some 50) (Some 300) (Some 1200)
    (Some false) (Some false).

Definition two_inverters_power : list SolarPowerTable :=
  [power_at_2350 (-1); power_at_2350 0].

Definition empty_data : SolarDBData := mkSolarDBData [] [] [].

(** Frames of plant 1, indexed by [(pp_id, inv_id, dt)], with the one column
    ["power"]. *)
Definition power_frame_row (t : datetime) (power : cell) : string -> cell :=
  fun k =>
    if String.eqb k "pp_id" then CInt 1
    else if String.eqb k "inv_id" then CInt (-1)
    else if String.eqb k "dt" then CTime t
    else if String.eqb k "power" then power
    else CNaN.

Definition indexed_power_frame (rs : list (datetime * cell)) : DataFrame :=
  mkDataFrame [Some "pp_id"; Some "inv_id"; Some "dt"]%string ["power"%string]
    (map (fun r => power_frame_row (fst r) (snd r)) rs).

(** A prediction for 00:00 and 00:05 whose second power is missing. *)
Definition prediction_with_gap : DataFrame :=
  indexed_power_frame [(t_2021_01_01, CNum (100 # 1)); (t_2021_01_01 + 5 * minute, CNaN)].

(** A prediction of plant 1 indexed by [(pp_id, inv_id)] only, whose one
    power is missing. *)
Definition prediction_without_dt : DataFrame :=
  mkDataFrame [Some "pp_id"; Some "inv_id"]%string ["power"%string]
    [fun k => if String.eqb k "pp_id" then CInt 1
              else if String.eqb k "inv_id" then CInt (-1)
              else CNaN].

(** A complete prediction for 00:00 and 00:05, a history of the three
    instants 23:45, 23:50 and 23:55 before, and a weather frame of three
    rows. *)
Definition prediction_complete : DataFrame :=
  indexed_power_frame [(t_2021_01_01, CNum (100 # 1));
                       (t_2021_01_01 + 5 * minute, CNum (120 # 1))].

Definition history_of_three_rows : DataFrame :=
  indexed_power_frame [(t_2021_01_01 - 15 * minute, CNum (80 # 1));
                       (t_2021_01_01 - 10 * minute, CNum (90 # 1));
                       (t_2021_01_01 - 5 * minute, CNum (95 # 1))].

Definition weather_of_three_rows : DataFrame :=
  mkDataFrame [Some "pp_id"; Some "dt"]%string ["temp"%string]
    (map (fun k => fun c => if String.eqb c "pp_id" then CInt 1
                            else if String.eqb c "dt"
                                 then CTime (t_2021_01_01 + Z.of_nat k * P_FREQUENCY_D)
                                 else CNum (10 # 1))
         (seq 0 3)).

(** Stand-ins for the statistics of the evaluator. *)
Definition unit_power (_ : PowerPlantID) (_ : DataFrame) (_ _ : option datetime)
    (_ : string) (_ : bool) : result unit := ret tt.

Definition unit_weather (_ : PowerPlantID) (_ : DataFrame) (_ _ : option datetime)
    : result unit := ret tt.

(** ** Further operations of [SolarDBData] (data.py) *)

(** One record of [SolarMetaTable], keyed by [(pp_id, inv_id)]. *)
Record SolarMetaTable : Type := mkMetaRecord {
  mt_pp_id : Z;
  mt_inv_id : Z;
  mt_freq : option Z;
  mt_capacity : option Q;
  mt_inverters : option Q;
  mt_interval : option datetime;
  mt_location : option string;
  mt_pos_lat : option Q;
  mt_pos_long : option Q
}.

(** The optional identity argument of the operations, resolved. *)
Definition resolve_opt (pp : option PowerPlantIDT) : result (option PowerPlantID) :=
  match pp with
  | None => ret None
  | Some i => p <- get_pp_id i ;; ret (Some p)
  end.

(** [id_list.sort()]: the stable sort of Python, which compares two items
    with [__lt__] only; an item stays before the ones that are not less
    than it. *)
Definition sort_ids (l : list PowerPlantID) : list PowerPlantID :=
  order_by (fun a b => negb (PowerPlantID_lt b a)) l.

Definition list_pp_inverters (meta : list SolarMetaTable) (pp : option PowerPlantIDT)
    : result (list PowerPlantID) :=
  pp <- resolve_opt pp ;;
  let id_list := filter (fun r => when_set pp (fun p => mt_pp_id r =? pp_id p)) meta in
  ret (sort_ids (map (fun r => mkPowerPlantID (mt_pp_id r) (Some (mt_inv_id r))) id_list)).

(** [get_pp_info]: the meta records of all plants, of one plant, or of one
    inverter of it.  The query has no ORDER BY: the rows come in the order
    of the listing. *)
Definition get_pp_info (meta : list SolarMetaTable) (pp : option PowerPlantIDT)
    : result (list SolarMetaTable) :=
  pp <- resolve_opt pp ;;
  ret (filter (fun r => when_set pp (fun p =>
                 (mt_pp_id r =? pp_id p) &&
                 when_set (inv_id p) (fun i => mt_inv_id r =? i))) meta).

(** [pp_exists]: the query selects [SolarMetaTable.pp_id] and filters on
    [SolarPowerTable], so it runs over the product of the two tables; a
    first row exists when the product has a pair that passes the filter. *)
Definition pp_exists (meta : list SolarMetaTable) (power : list SolarPowerTable)
    (pp : PowerPlantIDT) : result bool :=
  pp <- get_pp_id pp ;;
  let hits := filter (fun mp =>
                (pt_pp_id (snd mp) =? pp_id pp) &&
                when_set (inv_id pp) (fun i => pt_inv_id (snd mp) =? i))
                (list_prod meta power) in
  ret (match hits with
       | [] => false
       | _ :: _ => true
       end).

(** [SolarPowerTable.inv_id == pp_id.inv_id]: against [None] the comparison
    is [IS NULL], which no record satisfies. *)
Definition interval_where (p : PowerPlantID) (r : SolarPowerTable) : bool :=
  (pt_pp_id r =? pp_id p) &&
  match inv_id p with
  | Some i => pt_inv_id r =? i
  | None => false
  end.

(** [get_pp_interval] subscripts the first row of its two queries; without
    a row the subscript of [None] is a TypeError. *)
Definition get_pp_interval (power : list SolarPowerTable) (pp : PowerPlantIDT)
    : result (option (datetime * datetime)) :=
  match get_pp_id pp with
  | inl e => inl e
  | inr p =>
      let rows := filter (interval_where p) power in
      match order_by (fun a b => pt_dt a <=? pt_dt b) rows with
      | [] => inl (TypeError "'NoneType' object is not subscriptable")
      | first :: _ =>
          match order_by (fun a b => pt_dt b <=? pt_dt a) rows with
          | [] => inl (TypeError "'NoneType' object is not subscriptable")
          | last :: _ => inr (Some (pt_dt first, pt_dt last))
          end
      end
  end.

(** The four tables of a database. *)
Record database : Type := mkDatabase {
  db_power : list SolarPowerTable;
  db_weather : list SolarWeatherTable;
  db_exogenous : list SolarExogenousTable;
  db_meta : list SolarMetaTable
}.

(** The batched copy of one table in [dump_as_sqlite], for a positive
    [batch_size]: while [fetched] is below the number of records, the batch
    [LIMIT batch_size OFFSET fetched] is read and inserted.  The loop is run
    on fuel; [None] is a loop that has not finished. *)
Fixpoint dump_table {A} (fuel : nat) (table : list A) (batch_size fetched : Z)
    (copied : list A) : option (list A) :=
  if fetched <? Z.of_nat (List.length table) then
    match fuel with
    | O => None
    | S fuel' =>
        let data := firstn (Z.to_nat batch_size) (skipn (Z.to_nat fetched) table) in
        dump_table fuel' table batch_size (fetched + batch_size) (copied ++ data)
    end
  else Some copied.

(** [dump_as_sqlite]: refused when the file exists and may not be
    overwritten; otherwise the tables are created empty and filled. *)
Definition dump_as_sqlite (fuel : nat) (src : database) (is_file overwrite : bool)
    (batch_size : Z) : result (option database) :=
  if is_file && negb overwrite
  then raise (ValueError "Database already exists and overwrite is False!")
  else
    ret (match dump_table fuel (db_power src) batch_size 0 [],
               dump_table fuel (db_weather src) batch_size 0 [],
               dump_table fuel (db_exogenous src) batch_size 0 [],
               dump_table fuel (db_meta src) batch_size 0 [] with
         | Some p, Some w, Some e, Some m => Some (mkDatabase p w e m)
         | _, _, _, _ => None
         end).

(** ** [SolarDBAssembler.prepare_prediction] (assemble.py) *)

(** [pd.DataFrame(data=None, index=weather_df.index).assign(power=np.nan)]:
    the index of the feature frame, and the one column ["power"] of missing
    cells. *)
Definition template_row (r : feature_row) : string -> cell :=
  fun k =>
    if String.eqb k "pp_id" then match w_pp_id (f_weather r) with
                                 | Some p => CInt p
                                 | None => CNaN
                                 end
    else if String.eqb k "inv_id" then CInt (f_inv_id r)
    else if String.eqb k "dt" then CTime (f_dt r)
    else CNaN.

Definition prediction_template (weather_df : feature_frame) : DataFrame :=
  mkDataFrame (map Some (ff_index weather_df)) ["power"%string]
    (map template_row (ff_rows weather_df)).

Definition prepare_prediction (data : SolarDBData) (pp : PowerPlantIDT)
    (dt_start dt_end : date_or_datetime) (weather_scheme : string)
    (forecast_delta : option Z) (history_cnt : Z) (history_fallback : bool)
    : result (power_frame * feature_frame * DataFrame) :=
  history_df <- prepare_history data pp dt_start history_cnt history_fallback ;;
  weather_df <- prepare_weather data pp dt_start dt_end weather_scheme forecast_delta ;;
  ret (history_df, weather_df, prediction_template weather_df).

(** The columns of a power row that are not part of its index, and the
    same columns of a stored record, as stored and with the gaps filled the
    way [prepare_history] fills them. *)
Definition payload : Type :=
  (option Z * option Z * option Z * option Z * option Z * option Z
   * option bool * option bool)%type.

Definition power_payload (r : power_row) : payload :=
  (p_power_ac r, p_power_dc r, p_energy_hour r, p_energy_day r,
   p_energy_week r, p_energy_month r, p_ipolated r, p_epolated r).

Definition stored_payload (r : SolarPowerTable) : payload :=
  (pt_power_ac r, pt_power_dc r, pt_energy_hour r, pt_energy_day r,
   pt_energy_week r, pt_energy_month r, pt_ipolated r, pt_epolated r).

Definition filled_payload (r : SolarPowerTable) : payload :=
  (fill 0 (pt_power_ac r), fill 0 (pt_power_dc r), fill 0 (pt_energy_hour r),
   fill 0 (pt_energy_day r), fill 0 (pt_energy_week r), fill 0 (pt_energy_month r),
   fill false (pt_ipolated r), fill true (pt_epolated r)).

(** The integers of a stored record are doubles: none exceeds [2^53] in
    magnitude, so that a column typed float64 holds them unchanged. *)
Definition is_double (c : option Z) : Prop :=
  forall v, c = Some v -> Z.abs v <= 2 ^ 53.

Definition exact_as_doubles (r : SolarPowerTable) : Prop :=
  is_double (pt_power_ac r) /\ is_double (pt_power_dc r) /\
  is_double (pt_energy_hour r) /\ is_double (pt_energy_day r) /\
  is_double (pt_energy_week r) /\ is_double (pt_energy_month r).

(** The aggregate of plant 1 at 23:55 and at 23:50 of 2020-12-31, stored in
    this order. *)
Definition aggregate_power (t : datetime) (watts : Z) : SolarPowerTable :=
  mkPowerRecord 1 (-1) t
    (Some watts) (Some (watts + 10)) (Some 8) (Some 50) (Some 300) (Some 1200)
    (Some false) (Some false).

Definition late_evening_power : list SolarPowerTable :=
  [aggregate_power (18628 * day - 5 * minute) 120;
   aggregate_power (18628 * day - 10 * minute) 100].

(** The timestamps of a history of [n] rows before [start]. *)
Definition history_grid (start : datetime) (n : Z) : list datetime :=
  map (fun k => start - P_FREQUENCY_D * n + Z.of_nat k * P_FREQUENCY_D)
      (seq 0 (Z.to_nat n)).

(** An exception of the data, as opposed to one of the configuration. *)
Definition data_error (e : exn) : Prop :=
  match e with
  | RuntimeError _ => False
  | _ => True
  end.

(** Two histories of plant 1 that carry only the time in their index. *)
Definition time_indexed_history (rs : list (datetime * cell)) : DataFrame :=
  mkDataFrame [Some "dt"%string] ["power"%string]
    (map (fun r => fun k => if String.eqb k "dt" then CTime (fst r)
                            else if String.eqb k "power" then snd r
                            else CNaN) rs).

Definition history_a : DataFrame :=
  time_indexed_history [(t_2021_01_01 - 5 * minute, CNum (90 # 1))].

Definition history_b : DataFrame :=
  time_indexed_history [(t_2021_01_01 - 10 * minute, CNum (1 # 1));
                        (t_2021_01_01 - 5 * minute, CNum (2 # 1))].

(** A row keeps the sample of another row: its timestamp and every feature,
    summary and flag that the other row has. *)
Definition keeps_sample (x row : weather_row) : Prop :=
  w_dt row = w_dt x /\
  (forall c v, w_feature x c = Some v -> w_feature row c = Some v) /\
  (forall v, w_summary x = Some v -> w_summary row = Some v) /\
  (forall v, w_ipolated x = Some v -> w_ipolated row = Some v) /\
  (forall v, w_epolated x = Some v -> w_epolated row = Some v).

(** An order of identities that name an inverter: by plant, then by
    inverter. *)
Definition id_le (a b : PowerPlantID) : Prop :=
  pp_id a < pp_id b \/
  (pp_id a = pp_id b /\
   exists i j, inv_id a = Some i /\ inv_id b = Some j /\ i <= j).

(** The identity of a meta record. *)
Definition meta_id (r : SolarMetaTable) : PowerPlantID :=
  mkPowerPlantID (mt_pp_id r) (Some (mt_inv_id r)).

(** A power record of the identity, for [get_pp_interval]. *)
Definition interval_record (power : list SolarPowerTable) (p : PowerPlantID)
    (r : SolarPowerTable) : Prop :=
  In r power /\ interval_where p r = true.

(** Small tables for the operations above. *)
Definition meta_of (p i : Z) : SolarMetaTable :=
  mkMetaRecord p i (Some 5) (Some (10 # 1)%Q) (Some (2 # 1)%Q) (Some t_2021_01_01)
    (Some "Brno"%string) (Some (49 # 1)%Q) (Some (16 # 1)%Q).

Definition three_meta : list SolarMetaTable := [meta_of 2 0; meta_of 1 0; meta_of 1 (-1)].

Definition small_database : database :=
  mkDatabase two_inverters_power two_plants_weather five_minute_exogenous three_meta.

(** * Theorems *)

(** ** Identity *)

Lemma lt_plants (a b : PowerPlantID) :
  pp_id a < pp_id b -> PowerPlantID_lt a b = true /\ PowerPlantID_lt b a = false.
Proof.
  intros H. unfold PowerPlantID_lt.
  assert (H1 : (pp_id a <? pp_id b) = true) by (apply Z.ltb_lt; lia).
  assert (H2 : (pp_id b <? pp_id a) = false) by (apply Z.ltb_ge; lia).
  assert (H3 : (pp_id b =? pp_id a) = false) by (apply Z.eqb_neq; lia).
  rewrite H1, H2, H3. split; reflexivity.
Qed.

Lemma lt_whole_before_inverter (p i : Z) :
  PowerPlantID_lt (mkPowerPlantID p None) (mkPowerPlantID p (Some i)) = true /\
  PowerPlantID_lt (mkPowerPlantID p (Some i)) (mkPowerPlantID p None) = false.
Proof.
  unfold PowerPlantID_lt; simpl. rewrite Z.ltb_irrefl, Z.eqb_refl. split; reflexivity.
Qed.

Lemma lt_inverters (p i j : Z) :
  PowerPlantID_lt (mkPowerPlantID p (Some i)) (mkPowerPlantID p (Some j)) = (i <? j).
Proof.
  unfold PowerPlantID_lt; simpl. rewrite Z.ltb_irrefl, Z.eqb_refl. reflexivity.
Qed.

Lemma lt_irrefl_inverter (p i : Z) :
  PowerPlantID_lt (mkPowerPlantID p (Some i)) (mkPowerPlantID p (Some i)) = false.
Proof. rewrite lt_inverters. apply Z.ltb_irrefl. Qed.

(** C3. The order of [PowerPlantID] is not strict: the whole-plant identity
    of any plant compares less than itself, although it is equal to itself.
    [__lt__] accepts a whole-plant left operand without looking at the right
    one. *)
Theorem lt_whole_plant_not_irreflexive (p : Z) :
  PowerPlantID_lt (mkPowerPlantID p None) (mkPowerPlantID p None) = true /\
  PowerPlantID_eq (mkPowerPlantID p None) (mkPowerPlantID p None) = true.
Proof.
  unfold PowerPlantID_lt, PowerPlantID_eq; simpl.
  rewrite Z.eqb_refl, Z.ltb_irrefl. split; reflexivity.
Qed.

(** C5 fails as stated: the bare integer 1 resolves to an identity that is
    not a whole plant for [is_whole_power_plant] and differs from
    [PowerPlantID(1)]. *)
Lemma get_pp_id_int_not_whole :
  ~ (forall r, get_pp_id (IdInt 1) = inr r ->
               is_whole_power_plant r = true /\ PowerPlantID_eq r (whole_plant 1) = true).
Proof.
  intros H. destruct (H _ eq_refl) as [H1 _]. discriminate H1.
Qed.

(** C5, amended. A bare integer [p] and the one-element sequence [[p]]
    resolve to the identity of plant [p] with the inverter id [-1], the
    storage sentinel of the whole-plant aggregate; [is_whole_power_plant] is
    false for it and it is not equal to [PowerPlantID(p)].  A resolved
    identity is returned unchanged. *)
Theorem get_pp_id_resolves (p : Z) :
  get_pp_id (IdInt p) = inr (mkPowerPlantID p (Some (-1))) /\
  get_pp_id (IdSeq [p]) = inr (mkPowerPlantID p (Some (-1))) /\
  is_whole_power_plant (mkPowerPlantID p (Some (-1))) = false /\
  PowerPlantID_eq (mkPowerPlantID p (Some (-1))) (whole_plant p) = false /\
  (forall o, get_pp_id (IdObj o) = inr o).
Proof.
  repeat split. unfold PowerPlantID_eq; simpl. apply andb_false_r.
Qed.


(** ** Sorting and filtering *)

Lemma insert_by_perm {A} (le : A -> A -> bool) (x : A) (l : list A) :
  Permutation (insert_by le x l) (x :: l).
Proof.
  induction l as [|y l IH]; simpl.
  - apply Permutation_refl.
  - destruct (le x y).
    + apply Permutation_refl.
    + eapply perm_trans; [apply perm_skip, IH | apply perm_swap].
Qed.

Lemma order_by_perm {A} (le : A -> A -> bool) (l : list A) :
  Permutation (order_by le l) l.
Proof.
  induction l as [|x l IH]; simpl.
  - apply perm_nil.
  - eapply perm_trans; [apply insert_by_perm | apply perm_skip, IH].
Qed.

Lemma in_order_by {A} (le : A -> A -> bool) (l : list A) (x : A) :
  In x (order_by le l) <-> In x l.
Proof.
  split; apply Permutation_in;
    [apply order_by_perm | apply Permutation_sym, order_by_perm].
Qed.


(** ** Doubles *)

Lemma float64_exact (z : Z) : Z.abs z <= 2 ^ 53 -> float64 z = z.
Proof.
  intros H. unfold float64. destruct (Z.abs z <? 2 ^ 53) eqn:E; [reflexivity|].
  apply Z.ltb_ge in E.
  assert (Hz : z = 2 ^ 53 \/ z = - 2 ^ 53) by lia.
  destruct Hz as [-> | ->]; reflexivity.
Qed.

(** Beyond [2^53] an integer is rounded to the nearest double, ties to the
    even significand. *)
Lemma float64_rounds :
  float64 (2 ^ 53 + 1) = 2 ^ 53 /\
  float64 (2 ^ 53 + 3) = 2 ^ 53 + 4 /\
  float64 (- (2 ^ 53 + 1)) = - 2 ^ 53 /\
  float64 (2 ^ 62 + 1) = 2 ^ 62.
Proof. repeat split; vm_compute; reflexivity. Qed.

Lemma as_float64_none (col : list (option Z)) : as_float64 col None = None.
Proof. unfold as_float64. destruct (is_float64 col); reflexivity. Qed.

Lemma as_float64_is_some (col : list (option Z)) (c : option Z) :
  is_some (as_float64 col c) = is_some c.
Proof. unfold as_float64. destruct (is_float64 col), c; reflexivity. Qed.

Lemma as_float64_exact (col : list (option Z)) (c : option Z) :
  (forall v, c = Some v -> Z.abs v <= 2 ^ 53) -> as_float64 col c = c.
Proof.
  intros H. unfold as_float64. destruct (is_float64 col); [|reflexivity].
  destruct c as [v|]; [|reflexivity]. simpl. rewrite float64_exact; auto.
Qed.


Lemma upcast_power_dt (df : list power_row) : map p_dt (upcast_power df) = map p_dt df.
Proof. unfold upcast_power. rewrite map_map. reflexivity. Qed.

Lemma upcast_power_pp_id (df : list power_row) :
  map p_pp_id (upcast_power df) = map p_pp_id df.
Proof. unfold upcast_power. rewrite map_map. reflexivity. Qed.

Lemma upcast_power_inv_id (df : list power_row) :
  map p_inv_id (upcast_power df) = map p_inv_id df.
Proof. unfold upcast_power. rewrite map_map. reflexivity. Qed.

Lemma upcast_exogenous_keys (df : list exogenous_row) :
  map (fun e => (e_pp_id e, e_dt e)) (upcast_exogenous df)
  = map (fun e => (e_pp_id e, e_dt e)) df.
Proof. unfold upcast_exogenous. rewrite map_map. reflexivity. Qed.

(** ** Date bounds of the fetch operations *)

Lemma get_pp_power_end_date (table : list SolarPowerTable) pp dt_start (d : Z)
    all_indices (f : power_frame) (r : power_row) :
  get_pp_power table pp dt_start (Some (Date d)) all_indices = inr f ->
  In r (pf_rows f) ->
  p_dt r <= date_earliest_date_time d.
Proof.
  unfold get_pp_power, bind, ret, raise. intros H Hin.
  apply (in_map p_dt) in Hin.
  break_match H; injection H as <-; cbn [pf_rows] in Hin;
    rewrite upcast_power_dt, map_map in Hin;
    apply in_map_iff in Hin; destruct Hin as [x [<- Hx]];
    apply in_order_by, filter_In in Hx; destruct Hx as [_ Hx];
    unfold power_where in Hx; simpl in Hx;
    apply andb_prop in Hx; destruct Hx as [_ Hx];
    apply Z.leb_le in Hx; exact Hx.
Qed.

(** Whatever instant a date is normalised to, the same instant bounds the
    query from both sides when the start date is the end date. *)
Lemma get_pp_power_single_date (table : list SolarPowerTable) pp (d : Z)
    all_indices (f : power_frame) (r : power_row) :
  get_pp_power table pp (Some (Date d)) (Some (Date d)) all_indices = inr f ->
  In r (pf_rows f) ->
  p_dt r = date_earliest_date_time d.
Proof.
  unfold get_pp_power, bind, ret, raise. intros H Hin.
  apply (in_map p_dt) in Hin.
  break_match H; injection H as <-; cbn [pf_rows] in Hin;
    rewrite upcast_power_dt, map_map in Hin;
    apply in_map_iff in Hin; destruct Hin as [x [<- Hx]];
    apply in_order_by, filter_In in Hx; destruct Hx as [_ Hx];
    unfold power_where in Hx; simpl in Hx;
    apply andb_prop in Hx; destruct Hx as [Hx Hx2];
    apply andb_prop in Hx; destruct Hx as [_ Hx1];
    apply Z.leb_le in Hx1, Hx2; simpl; lia.
Qed.

(** C4. A bare end date is normalised with [date_earliest_date_time], to the
    start of that day, in all three fetch operations: the record stamped
    2021-01-01T12:00 is left out of the query from the date 2021-01-01 to
    the date 2021-01-01. *)
Theorem end_date_drops_records_of_the_day :
  get_pp_power [noon_power] (Some (IdInt 1))
    (Some (Date d_2021_01_01)) (Some (Date d_2021_01_01)) true
  = inr (mkPowerFrame ["pp_id"; "inv_id"; "dt"]%string []) /\
  get_pp_weather [noon_weather] (Some (IdInt 1))
    (Some (Date d_2021_01_01)) (Some (Date d_2021_01_01)) true (Some 0) None false
  = inr (mkWeatherFrame ["pp_id"; "dt"]%string []) /\
  get_pp_exogenous [noon_exogenous] (Some (IdInt 1))
    (Some (Date d_2021_01_01)) (Some (Date d_2021_01_01)) true
  = inr (mkExogenousFrame ["pp_id"; "dt"]%string []).
Proof. repeat split. Qed.

(** ** Lists without duplicates, group keys *)

Lemma existsb_eqb_In (x : Z) (l : list Z) : existsb (Z.eqb x) l = true <-> In x l.
Proof.
  rewrite existsb_exists. split.
  - intros [y [Hy He]]. apply Z.eqb_eq in He. subst. exact Hy.
  - intros H. exists x. split; [exact H | apply Z.eqb_refl].
Qed.

Lemma has_dup_false_NoDup (l : list Z) : has_dup l = false <-> NoDup l.
Proof.
  induction l as [|x l IH]; simpl.
  - split; [constructor | reflexivity].
  - rewrite orb_false_iff, IH. split.
    + intros [Hx Hl]. constructor; [|exact Hl].
      intros Hin. apply existsb_eqb_In in Hin. congruence.
    + intros H. inversion H as [|? ? Hx Hl]; subst. split; [|exact Hl].
      destruct (existsb (Z.eqb x) l) eqn:E; [|reflexivity].
      apply existsb_eqb_In in E. contradiction.
Qed.

Lemma has_dup_true_not_NoDup (l : list Z) : has_dup l = true -> ~ NoDup l.
Proof.
  intros H Hn. apply has_dup_false_NoDup in Hn. congruence.
Qed.

Lemma in_insert_uniq (x y : Z) (l : list Z) :
  In y (insert_uniq x l) <-> y = x \/ In y l.
Proof.
  induction l as [|z l IH]; simpl.
  - intuition.
  - destruct (x <? z) eqn:E1; [simpl; intuition|].
    destruct (x =? z) eqn:E2.
    + apply Z.eqb_eq in E2. subst. simpl. intuition.
    + simpl. rewrite IH. intuition.
Qed.

Lemma in_group_keys (y : Z) (l : list Z) : In y (group_keys l) <-> In y l.
Proof.
  induction l as [|x l IH]; simpl.
  - reflexivity.
  - rewrite in_insert_uniq, IH. intuition.
Qed.

Lemma insert_uniq_ascending (x : Z) (l : list Z) :
  ascending l -> ascending (insert_uniq x l).
Proof.
  induction 1 as [|y|y z l Hyz Hl IH]; simpl.
  - auto.
  - destruct (x <? y) eqn:E1.
    + apply Z.ltb_lt in E1. auto.
    + destruct (x =? y) eqn:E2; [auto|].
      apply Z.ltb_ge in E1. apply Z.eqb_neq in E2.
      constructor; [lia | auto].
  - destruct (x <? y) eqn:E1.
    + apply Z.ltb_lt in E1. auto.
    + destruct (x =? y) eqn:E2; [auto|].
      apply Z.ltb_ge in E1. apply Z.eqb_neq in E2.
      simpl in IH.
      destruct (x <? z) eqn:E3.
      * apply Z.ltb_lt in E3. constructor; [lia|]. auto.
      * destruct (x =? z) eqn:E4; [auto|].
        constructor; [lia | exact IH].
Qed.

Lemma group_keys_ascending (l : list Z) : ascending (group_keys l).
Proof.
  induction l as [|x l IH]; simpl; [auto | apply insert_uniq_ascending, IH].
Qed.

Lemma ascending_lower (x : Z) (l : list Z) :
  ascending (x :: l) -> forall y, In y l -> x < y.
Proof.
  revert x. induction l as [|z l IH]; intros x H y Hy; [contradiction|].
  inversion H as [| |? ? ? Hxz Hzl]; subst.
  destruct Hy as [<-|Hy]; [exact Hxz|].
  specialize (IH z Hzl y Hy). lia.
Qed.

Lemma ascending_tail (x : Z) (l : list Z) : ascending (x :: l) -> ascending l.
Proof. inversion 1; subst; auto. Qed.

Lemma ascending_NoDup (l : list Z) : ascending l -> NoDup l.
Proof.
  induction l as [|x l IH]; intros H; constructor.
  - intros Hin. pose proof (ascending_lower x l H x Hin). lia.
  - apply IH. eapply ascending_tail, H.
Qed.

Lemma group_keys_NoDup (l : list Z) : NoDup (group_keys l).
Proof. apply ascending_NoDup, group_keys_ascending. Qed.

Lemma group_keys_constant (c : Z) (l : list Z) :
  l <> [] -> (forall x, In x l -> x = c) -> group_keys l = [c].
Proof.
  intros Hne Hall.
  pose proof (group_keys_NoDup l) as Hnd.
  assert (Hin : forall y, In y (group_keys l) -> y = c)
    by (intros y Hy; apply Hall, in_group_keys, Hy).
  assert (Hc : In c (group_keys l)).
  { apply in_group_keys. destruct l as [|x l]; [congruence|].
    left. apply Hall. left. reflexivity. }
  destruct (group_keys l) as [|a [|b k]].
  - contradiction.
  - f_equal. apply Hin. left. reflexivity.
  - exfalso. inversion Hnd as [|? ? Ha _]; subst. apply Ha.
    left. rewrite (Hin a), (Hin b); simpl; auto.
Qed.

(** ** Shape of the column operations *)

Lemma zip_with_map_fst {A B C D} (f : A -> B -> C) (g : C -> D) (h : A -> D)
    (l : list A) (l' : list B) :
  (forall a b, g (f a b) = h a) ->
  List.length l' = List.length l ->
  map g (zip_with f l l') = map h l.
Proof.
  intros Hg. revert l'. induction l as [|a l IH]; intros [|b l'] Hlen;
    simpl in *; try discriminate; [reflexivity|].
  rewrite Hg. f_equal. apply IH. lia.
Qed.

Lemma zip_with_length {A B C} (f : A -> B -> C) (l : list A) (l' : list B) :
  List.length l' = List.length l ->
  List.length (zip_with f l l') = List.length l.
Proof.
  revert l'. induction l as [|a l IH]; intros [|b l'] Hlen;
    simpl in *; try discriminate; [reflexivity|].
  f_equal. apply IH. lia.
Qed.

Lemma ffill_from_length {A} (prev : option A) (l : list (option A)) :
  List.length (ffill_from prev l) = List.length l.
Proof.
  revert prev. induction l as [|[v|] l IH]; intros prev; simpl; auto.
Qed.

Lemma interp_from_length (prev : option (Z * Q)) (l : list (Z * option Q)) :
  List.length (interp_from prev l) = List.length l.
Proof.
  revert prev. induction l as [|[x [y|]] l IH]; intros prev; simpl; auto.
Qed.

Lemma interpolate_column_length (xs : list Z) (ys : list (option Q)) :
  List.length ys = List.length xs ->
  List.length (interpolate_column xs ys) = List.length xs.
Proof.
  intros H. unfold interpolate_column.
  rewrite interp_from_length, length_combine, H. apply Nat.min_id.
Qed.

Lemma interpolate_blocks_dt (df : list weather_row) :
  map w_dt (interpolate_blocks df) = map w_dt df.
Proof.
  unfold interpolate_blocks. apply zip_with_map_fst.
  - reflexivity.
  - apply length_seq.
Qed.

Lemma fix_src_dt_dt (df : list weather_row) : map w_dt (fix_src_dt df) = map w_dt df.
Proof.
  unfold fix_src_dt. rewrite map_map. reflexivity.
Qed.

Lemma fix_summary_dt (df : list weather_row) : map w_dt (fix_summary df) = map w_dt df.
Proof.
  unfold fix_summary, ffill. apply zip_with_map_fst; [reflexivity|].
  rewrite ffill_from_length, length_map. reflexivity.
Qed.

Lemma fix_ipolated_dt (df : list weather_row) : map w_dt (fix_ipolated df) = map w_dt df.
Proof.
  unfold fix_ipolated, ffill. apply zip_with_map_fst; [reflexivity|].
  rewrite ffill_from_length, length_map. reflexivity.
Qed.

Lemma fix_epolated_dt (df : list weather_row) : map w_dt (fix_epolated df) = map w_dt df.
Proof.
  unfold fix_epolated, ffill. apply zip_with_map_fst; [reflexivity|].
  rewrite ffill_from_length, length_map. reflexivity.
Qed.

Lemma reindex_by_dt {R} (key : R -> datetime) (nan : datetime -> R)
    (df : list R) (grid : list datetime) :
  (forall t, key (nan t) = t) ->
  NoDup (map key df) ->
  exists out, reindex_by key nan df grid = inr out /\ map key out = grid.
Proof.
  intros Hnan Hnd. unfold reindex_by.
  destruct grid as [|t grid]; [exists []; split; reflexivity|].
  apply has_dup_false_NoDup in Hnd. rewrite Hnd.
  eexists. split; [reflexivity|].
  rewrite map_map. rewrite <- (map_id (t :: grid)) at 2.
  apply map_ext. intros u.
  destruct (find (fun r => key r =? u) df) eqn:E.
  - apply find_some in E. destruct E as [_ E]. apply Z.eqb_eq in E. exact E.
  - apply Hnan.
Qed.

Lemma holds_numbers_typed (whole idf : list weather_row) (grid : list datetime) :
  holds_numbers whole = true -> object_only whole idf grid = false.
Proof.
  unfold holds_numbers, object_only. intros H.
  destruct (datetime64_column whole); [reflexivity|]. cbn [orb] in H. cbn [negb andb].
  assert (E : forallb (fun f => negb (float64_column f whole)) features = false).
  { apply Bool.not_true_is_false. intros Hall.
    apply existsb_exists in H. destruct H as [f [Hf Hv]].
    rewrite forallb_forall in Hall. specialize (Hall f Hf).
    rewrite Hv in Hall. discriminate. }
  rewrite E. reflexivity.
Qed.

Lemma interpolate_time_typed (df : list weather_row) :
  interpolate_time false df = inr (interpolate_blocks df).
Proof. destruct df; reflexivity. Qed.

Lemma resample_df_dt (whole : list weather_row) (a b : datetime)
    (idf : list weather_row) :
  holds_numbers whole = true ->
  NoDup (map w_dt idf) ->
  exists out, resample_df whole a b idf = inr out /\
              map w_dt out = date_range a (b + P_FREQUENCY_D) P_FREQUENCY_D.
Proof.
  intros Hty Hnd. unfold resample_df, reindex.
  destruct (reindex_by_dt w_dt nan_row (map (with_pp_id None) idf)
              (date_range a (b + P_FREQUENCY_D) P_FREQUENCY_D)) as [out [E Hout]].
  - reflexivity.
  - rewrite map_map. exact Hnd.
  - rewrite E. cbn [bind]. rewrite (holds_numbers_typed _ _ _ Hty), interpolate_time_typed.
    eexists. split; [reflexivity|].
    rewrite interpolate_blocks_dt. exact Hout.
Qed.

Lemma NoDup_map_filter {A B} (k : A -> B) (f : A -> bool) (l : list A) :
  NoDup (map k l) -> NoDup (map k (filter f l)).
Proof.
  induction l as [|x l IH]; simpl; intros H; [constructor|].
  inversion H as [|? ? Hx Hl]; subst.
  destruct (f x); simpl; [constructor|]; auto.
  intros Hin. apply Hx. apply in_map_iff in Hin. destruct Hin as [y [Hy Hin]].
  apply filter_In in Hin. apply in_map_iff. exists y. tauto.
Qed.

Lemma removelast_map_seq {A} (g : nat -> A) (m : nat) :
  removelast (map g (seq 0 (S m))) = map g (seq 0 m).
Proof.
  rewrite seq_S, map_app. simpl. apply removelast_last.
Qed.

Lemma date_range_count_step (a b f : Z) :
  0 < f -> a <= b ->
  date_range_count a (b + f) f = S (date_range_count a b f).
Proof.
  intros Hf Hab. unfold date_range_count.
  replace (b + f - a + f - 1) with ((b - a + f - 1) + 1 * f) by lia.
  rewrite Z.div_add by lia.
  rewrite Z2Nat.inj_add; [|apply Z.div_pos; lia|lia].
  simpl. lia.
Qed.

Lemma removelast_date_range (a b f : Z) :
  0 < f -> a <= b ->
  removelast (date_range a (b + f) f) = date_range a b f.
Proof.
  intros Hf Hab. unfold date_range.
  rewrite date_range_count_step by assumption.
  apply removelast_map_seq.
Qed.

Lemma P_FREQUENCY_D_pos : 0 < P_FREQUENCY_D.
Proof. reflexivity. Qed.

(** The smoothing stage over a frame of one plant with both bounds given:
    the rows of the result are the grid points from the start up to, not
    including, the end. *)
Lemma smooth_bounded_dt (has_pp : bool) (a b : datetime) (p : Z)
    (df : list weather_row) :
  a <= b ->
  holds_numbers df = true ->
  NoDup (map w_dt df) ->
  (has_pp = true -> df <> [] /\ forall r, In r df -> w_pp_id r = Some p) ->
  exists out, smooth has_pp (Some a) (Some b) df = inr out /\
              map w_dt out = date_range a b P_FREQUENCY_D.
Proof.
  intros Hab Hty Hnd Hpp. unfold smooth. simpl.
  assert (Hres : exists out,
             (if has_pp
              then groupby_pp_id_apply (resample_df df a b) df
              else resample_df df a b df) = inr out /\
             map w_dt out = date_range a (b + P_FREQUENCY_D) P_FREQUENCY_D).
  { destruct has_pp.
    - destruct (Hpp eq_refl) as [Hne Hall].
      unfold groupby_pp_id_apply.
      destruct df as [|r0 df0] eqn:Edf; [congruence|]. rewrite <- Edf in *.
      rewrite (group_keys_constant p).
      + simpl.
        destruct (resample_df_dt df a b
                    (filter (fun r => opt_Z_eqb (w_pp_id r) (Some p)) df) Hty)
          as [out [E Hout]]; [apply NoDup_map_filter, Hnd|].
        rewrite E. simpl. eexists. split; [reflexivity|].
        rewrite app_nil_r, map_map. simpl. exact Hout.
      + rewrite Edf. simpl. rewrite (Hall r0) by (rewrite Edf; left; reflexivity).
        discriminate.
      + intros x Hx. apply in_flat_map in Hx. destruct Hx as [r [Hr Hx]].
        rewrite (Hall r Hr) in Hx. destruct Hx as [<-|[]]. reflexivity.
    - apply resample_df_dt; assumption. }
  destruct Hres as [out [E Hout]]. rewrite E. simpl.
  eexists. split; [reflexivity|].
  rewrite <- (removelast_date_range a b P_FREQUENCY_D P_FREQUENCY_D_pos Hab), <- Hout.
  rewrite <- (fix_src_dt_dt out), <- (fix_summary_dt (fix_src_dt out)),
    <- (fix_ipolated_dt (fix_summary (fix_src_dt out))),
    <- (fix_epolated_dt (fix_ipolated (fix_summary (fix_src_dt out)))).
  generalize (fix_epolated (fix_ipolated (fix_summary (fix_src_dt out)))).
  intros l. induction l as [|x [|y l] IH]; simpl in *; try reflexivity.
  f_equal. exact IH.
Qed.

(** ** The frame of a weather query *)

Lemma NoDup_map_filter_inj {A B C} (k : A -> B) (d : A -> C) (f : A -> bool)
    (l : list A) :
  NoDup (map k l) ->
  (forall x y, f x = true -> f y = true -> d x = d y -> k x = k y) ->
  NoDup (map d (filter f l)).
Proof.
  intros Hnd Hinj. induction l as [|x l IH]; simpl; [constructor|].
  inversion Hnd as [|? ? Hx Hl]; subst.
  destruct (f x) eqn:Ef; [|auto].
  simpl. constructor; [|auto].
  intros Hin. apply Hx. apply in_map_iff in Hin. destruct Hin as [y [Hy Hin]].
  apply filter_In in Hin. destruct Hin as [Hin Efy].
  apply in_map_iff. exists y. split; [|exact Hin].
  symmetry. apply Hinj; auto.
Qed.

Lemma weather_query_in table pp s e a m (r : SolarWeatherTable) :
  In r (weather_query table pp s e a m) <->
  In r table /\ weather_where pp s e a m r = true.
Proof.
  unfold weather_query. rewrite in_order_by. apply filter_In.
Qed.

Lemma weather_where_plant pid s e a m r :
  weather_where (Some pid) s e a m r = true -> wt_pp_id r = pp_id pid.
Proof.
  unfold weather_where. simpl. intros H.
  repeat (apply andb_prop in H; destruct H as [H _]).
  apply Z.eqb_eq, H.
Qed.

Lemma weather_where_age pp s e a m r :
  weather_where pp s e (Some a) m r = true -> wt_age r = a.
Proof.
  unfold weather_where. simpl. intros H.
  apply andb_prop in H; destruct H as [H _].
  apply andb_prop in H; destruct H as [_ H].
  apply Z.eqb_eq, H.
Qed.

Lemma weather_where_window pp s e a m r :
  weather_where pp None None a m r = true ->
  when_set s (fun t => t <=? wt_dt r) = true ->
  when_set e (fun t => wt_dt r <=? t) = true ->
  weather_where pp s e a m r = true.
Proof.
  unfold weather_where. intros H Hs He.
  apply andb_prop in H. destruct H as [H HC].
  apply andb_prop in H. destruct H as [H HB].
  apply andb_prop in H. destruct H as [H _].
  apply andb_prop in H. destruct H as [HA _].
  rewrite HA, HB, HC.
  destruct s, e; cbn [when_set] in *; rewrite ?Hs, ?He; reflexivity.
Qed.

Lemma weather_query_fixed_age_NoDup table pid s e a m :
  weather_keys_unique table ->
  NoDup (map wt_dt (weather_query table (Some pid) s e (Some a) m)).
Proof.
  intros Hk. unfold weather_query.
  eapply Permutation_NoDup.
  - apply Permutation_map, Permutation_sym, order_by_perm.
  - apply (NoDup_map_filter_inj weather_key); [exact Hk|].
    intros x y Hx Hy Hd. unfold weather_key.
    rewrite (weather_where_plant _ _ _ _ _ _ Hx), (weather_where_plant _ _ _ _ _ _ Hy),
      (weather_where_age _ _ _ _ _ _ Hx), (weather_where_age _ _ _ _ _ _ Hy), Hd.
    reflexivity.
Qed.

Lemma groupby_dt_first_dt (df : list weather_row) :
  map w_dt (groupby_dt_first df) = group_keys (map w_dt df).
Proof.
  unfold groupby_dt_first. rewrite map_map. simpl. apply map_id.
Qed.

Lemma first_valid_all {A B} (f : A -> option B) (v : B) (l : list A) :
  l <> [] -> (forall x, In x l -> f x = Some v) -> first_valid f l = Some v.
Proof.
  destruct l as [|x l]; [congruence|]. intros _ H. simpl.
  rewrite (H x) by (left; reflexivity). reflexivity.
Qed.

Lemma groupby_dt_first_plant (p : Z) (df : list weather_row) :
  (forall r, In r df -> w_pp_id r = Some p) ->
  forall r, In r (groupby_dt_first df) -> w_pp_id r = Some p.
Proof.
  intros Hall r Hr. unfold groupby_dt_first in Hr.
  apply in_map_iff in Hr. destruct Hr as [k [<- Hk]]. simpl.
  apply in_group_keys, in_map_iff in Hk. destruct Hk as [x [Hx Hin]].
  apply first_valid_all.
  - intros E. assert (Hf : In x (filter (fun r => w_dt r =? k) df))
      by (apply filter_In; split; [exact Hin | apply Z.eqb_eq, Hx]).
    rewrite E in Hf. contradiction.
  - intros y Hy. apply filter_In in Hy. apply Hall, Hy.
Qed.

Lemma groupby_dt_first_nonempty (df : list weather_row) :
  df <> [] -> groupby_dt_first df <> [].
Proof.
  intros Hne E. apply (f_equal (map w_dt)) in E.
  rewrite groupby_dt_first_dt in E. destruct df as [|x df]; [congruence|].
  assert (H : In (w_dt x) (group_keys (map w_dt (x :: df))))
    by (apply in_group_keys; left; reflexivity).
  rewrite E in H. contradiction.
Qed.

Lemma freq_floor_aligned (t f : Z) : 0 < f -> t mod f = 0 -> freq_floor t f = t.
Proof.
  intros Hf H. unfold freq_floor.
  pose proof (Z.div_mod t f). lia.
Qed.

Lemma freq_ceil_aligned (t f : Z) : 0 < f -> t mod f = 0 -> freq_ceil t f = t.
Proof.
  intros Hf H. unfold freq_ceil.
  assert (H' : (- t) mod f = 0) by (apply Z.mod_opp_l_z; [lia | exact H]).
  pose proof (Z.div_mod (- t) f). lia.
Qed.

Lemma weather_frame_shape table pid s e src_age src_dt_max has_age :
  weather_keys_unique table ->
  (src_age <> None \/ src_dt_max <> None) ->
  forall has_pp df,
  df = (let df0 := map (weather_row_of has_pp has_age)
                       (weather_query table (Some pid) s e src_age src_dt_max) in
        match src_dt_max with
        | Some _ => groupby_dt_first df0
        | None => df0
        end) ->
  NoDup (map w_dt df) /\
  (has_pp = true ->
   weather_query table (Some pid) s e src_age src_dt_max <> [] ->
   df <> [] /\ forall r, In r df -> w_pp_id r = Some (pp_id pid)).
Proof.
  intros Hk Hmode has_pp df ->. cbv zeta.
  set (q := weather_query table (Some pid) s e src_age src_dt_max).
  assert (Hpp : has_pp = true ->
                forall r, In r (map (weather_row_of has_pp has_age) q) ->
                          w_pp_id r = Some (pp_id pid)).
  { intros -> r Hr. apply in_map_iff in Hr. destruct Hr as [x [<- Hx]].
    simpl. f_equal. apply weather_query_in in Hx.
    eapply weather_where_plant, Hx. }
  assert (Hne : q <> [] -> map (weather_row_of has_pp has_age) q <> []).
  { destruct q; simpl; congruence. }
  destruct src_dt_max as [m|].
  - split.
    + rewrite groupby_dt_first_dt. apply group_keys_NoDup.
    + intros Hp Hq. split.
      * apply groupby_dt_first_nonempty, Hne, Hq.
      * apply groupby_dt_first_plant, Hpp, Hp.
  - destruct src_age as [a|]; [|destruct Hmode; congruence].
    split.
    + rewrite map_map. simpl. apply weather_query_fixed_age_NoDup, Hk.
    + intros Hp Hq. split; [apply Hne, Hq | apply Hpp, Hp].
Qed.

Lemma in_features (f : weather_feature) : In f features.
Proof. destruct f; simpl; tauto. Qed.

Lemma holds_numbers_iff (df : list weather_row) :
  holds_numbers df = true <->
  exists r, In r df /\
    (is_some (src_dt_of (w_src_dt r)) = true \/
     exists f, is_some (w_feature r f) = true).
Proof.
  unfold holds_numbers, datetime64_column, float64_column.
  rewrite orb_true_iff, !existsb_exists. split.
  - intros [[r [Hr H]]|[f [_ H]]].
    + exists r. auto.
    + apply existsb_exists in H. destruct H as [r [Hr H]]. exists r. eauto.
  - intros [r [Hr [H|[f H]]]].
    + left. eauto.
    + right. exists f. split; [apply in_features|]. apply existsb_exists. eauto.
Qed.

Lemma first_valid_some {A B} (f : A -> option B) (l : list A) (x : A) :
  In x l -> is_some (f x) = true -> is_some (first_valid f l) = true.
Proof.
  induction l as [|a l IH]; simpl; intros Hin Hx; [contradiction|].
  destruct (f a) eqn:E; [reflexivity|].
  destruct Hin as [->|Hin]; [rewrite E in Hx; discriminate | auto].
Qed.

Lemma groupby_dt_first_holds_numbers (df : list weather_row) :
  holds_numbers df = true -> holds_numbers (groupby_dt_first df) = true.
Proof.
  rewrite !holds_numbers_iff. intros [r [Hr H]].
  exists (first_of_group (w_dt r) (filter (fun x => w_dt x =? w_dt r) df)). split.
  - unfold groupby_dt_first. apply in_map_iff. exists (w_dt r).
    split; [reflexivity|]. apply in_group_keys, in_map, Hr.
  - assert (Hg : In r (filter (fun x => w_dt x =? w_dt r) df))
      by (apply filter_In; split; [exact Hr | apply Z.eqb_refl]).
    destruct H as [H|[f H]].
    + left. cbn [first_of_group w_src_dt src_dt_of].
      apply (first_valid_some _ _ r Hg H).
    + right. exists f. cbn [first_of_group w_feature].
      replace (tabulate (fun f0 => first_valid (fun r0 => w_feature r0 f0)
                                     (filter (fun x => w_dt x =? w_dt r) df)) f)
        with (first_valid (fun r0 => w_feature r0 f)
                (filter (fun x => w_dt x =? w_dt r) df))
        by (destruct f; reflexivity).
      apply (first_valid_some (fun x => w_feature x f) _ r Hg H).
Qed.

(** The frame of a query that selects a record with a source time or a
    feature value holds numbers. *)
Lemma weather_frame_holds_numbers table pp s e src_age src_dt_max has_pp has_age :
  (exists r, In r table /\
             weather_where pp s e src_age src_dt_max r = true /\
             (wt_src_dt r <> None \/ exists f, wt_feature r f <> None)) ->
  holds_numbers
    (let df0 := map (weather_row_of has_pp has_age)
                    (weather_query table pp s e src_age src_dt_max) in
     match src_dt_max with
     | Some _ => groupby_dt_first df0
     | None => df0
     end) = true.
Proof.
  intros [r [Hin [Hw Hv]]]. cbv zeta.
  assert (H0 : holds_numbers (map (weather_row_of has_pp has_age)
                                (weather_query table pp s e src_age src_dt_max)) = true).
  { apply holds_numbers_iff. exists (weather_row_of has_pp has_age r). split.
    - apply in_map, weather_query_in. auto.
    - cbn [weather_row_of w_src_dt src_dt_of w_feature]. destruct Hv as [Hv|[f Hv]].
      + left. destruct (wt_src_dt r); [reflexivity | congruence].
      + right. exists f. destruct (wt_feature r f); [reflexivity | congruence]. }
  destruct src_dt_max; [apply groupby_dt_first_holds_numbers|]; exact H0.
Qed.

Lemma hour_is_12_steps : hour = 12 * P_FREQUENCY_D.
Proof. reflexivity. Qed.

Lemma date_range_hours (t0 : datetime) (n : nat) :
  date_range t0 (t0 + Z.of_nat n * hour) P_FREQUENCY_D =
  map (fun k => t0 + Z.of_nat k * P_FREQUENCY_D) (seq 0 (12 * n)).
Proof.
  unfold date_range, date_range_count. f_equal. f_equal.
  rewrite hour_is_12_steps.
  replace (t0 + Z.of_nat n * (12 * P_FREQUENCY_D) - t0 + P_FREQUENCY_D - 1)
    with ((P_FREQUENCY_D - 1) + (12 * Z.of_nat n) * P_FREQUENCY_D) by lia.
  rewrite Z.div_add by (pose proof P_FREQUENCY_D_pos; lia).
  rewrite (Z.div_small (P_FREQUENCY_D - 1)) by (pose proof P_FREQUENCY_D_pos; lia).
  lia.
Qed.

(** C1 fails as stated.  Bounds off the hour are widened to the hour before
    the grid is built: the hourly series of 00:30 and 01:30 with these two
    instants as bounds gives the 24 rows from 00:00 to 01:55, not 12 rows. *)
Lemma resample_density_off_the_hour :
  exists f,
    get_pp_weather half_past_weather (Some (IdInt 1))
      (Some (DateTime (t_2021_01_01 + 30 * minute)))
      (Some (DateTime (t_2021_01_01 + 90 * minute))) true (Some 0) None true
    = inr f /\
    map w_dt (wf_rows f)
    = map (fun k => t_2021_01_01 + Z.of_nat k * P_FREQUENCY_D) (seq 0 24) /\
    List.length (wf_rows f)
    <> Z.to_nat (12 * ((t_2021_01_01 + 90 * minute) - (t_2021_01_01 + 30 * minute))
                 / hour).
Proof.
  eexists. split; [vm_compute; reflexivity|].
  split; [vm_compute; reflexivity|]. vm_compute. discriminate.
Qed.

(** A series on the hour whose records hold neither a source time nor a
    feature value gives no frame: every column of the reindexed frame is of
    dtype object, which [DataFrame.interpolate] refuses. *)
Lemma resample_without_numbers :
  get_pp_weather summary_only_weather (Some (IdInt 1))
    (Some (DateTime t_2021_01_01)) (Some (DateTime (t_2021_01_01 + hour)))
    true (Some 0) None true
  = inl (TypeError "Cannot interpolate with all object-dtype columns in the DataFrame. Try setting at least one column to a numeric dtype.").
Proof. vm_compute. reflexivity. Qed.

(** C1, amended. Over a table with unique keys in which the selected
    series of one plant has a record at each of the hourly instants
    [t0, t0+1h, ..., tn], with [t0] on the hour, and a selected record of
    the window that holds a source time or a feature value, the smoothing
    query with the bounds [t0] and [tn] returns exactly [12*(tn-t0)/1h]
    rows; their timestamps are [t0 + k*5min] for [k < 12*(tn-t0)/1h], each
    a multiple of 5 minutes within the half-open interval from [t0] to
    [tn]. *)
Theorem resample_density (table : list SolarWeatherTable) (p : PowerPlantIDT)
    (pid : PowerPlantID) (t0 : datetime) (n : nat) (all_indices : bool)
    (src_age : option Z) (src_dt_max : option datetime) :
  get_pp_id p = inr pid ->
  weather_keys_unique table ->
  (src_age <> None \/ src_dt_max <> None) ->
  t0 mod hour = 0 ->
  (forall k, (k <= n)%nat ->
     exists r, In r table /\ wt_dt r = t0 + Z.of_nat k * hour /\
               weather_where (Some pid) None None src_age src_dt_max r = true) ->
  (exists r, In r table /\ t0 <= wt_dt r <= t0 + Z.of_nat n * hour /\
             weather_where (Some pid) None None src_age src_dt_max r = true /\
             (wt_src_dt r <> None \/ exists f, wt_feature r f <> None)) ->
  exists f,
    get_pp_weather table (Some p) (Some (DateTime t0))
      (Some (DateTime (t0 + Z.of_nat n * hour))) all_indices src_age src_dt_max true
    = inr f /\
    List.length (wf_rows f) = (12 * n)%nat /\
    map w_dt (wf_rows f) = map (fun k => t0 + Z.of_nat k * P_FREQUENCY_D) (seq 0 (12 * n)) /\
    (forall r, In r (wf_rows f) ->
       w_dt r mod P_FREQUENCY_D = 0 /\ t0 <= w_dt r < t0 + Z.of_nat n * hour).
Proof.
  intros Hid Hk Hmode Ht0 Hseries Hval.
  assert (Hhour : 0 < hour) by reflexivity.
  assert (Htn : (t0 + Z.of_nat n * hour) mod hour = 0)
    by (rewrite Z.mod_add by lia; exact Ht0).
  unfold get_pp_weather.
  assert (Hlim : match src_age, src_dt_max with
                 | None, None => true
                 | _, _ => false
                 end = false).
  { destruct src_age, src_dt_max; try reflexivity. destruct Hmode; congruence. }
  rewrite Hlim. cbn [andb]. rewrite Hid.
  cbn [bind ret option_map earliest_of].
  rewrite (freq_floor_aligned t0 S_FREQUENCY_D Hhour Ht0),
    (freq_ceil_aligned _ S_FREQUENCY_D Hhour Htn).
  set (tn := t0 + Z.of_nat n * hour).
  set (q := weather_query table (Some pid) (Some t0) (Some tn) src_age src_dt_max).
  set (df := match src_dt_max with
             | Some _ => groupby_dt_first (map (weather_row_of all_indices false) q)
             | None => map (weather_row_of all_indices false) q
             end).
  destruct (weather_frame_shape table pid (Some t0) (Some tn) src_age src_dt_max false
              Hk Hmode all_indices df eq_refl) as [Hnd Hpp].
  assert (Hty : holds_numbers df = true).
  { apply (weather_frame_holds_numbers table (Some pid) (Some t0) (Some tn)
             src_age src_dt_max all_indices false).
    destruct Hval as [r [Hin [Hdt [Hw Hv]]]]. exists r. split; [exact Hin|].
    split; [|exact Hv].
    apply weather_where_window; [exact Hw | |]; simpl; apply Z.leb_le; unfold tn; lia. }
  assert (Hq : q <> []).
  { destruct (Hseries 0%nat (Nat.le_0_l n)) as [r [Hin [Hdt Hw]]].
    assert (Hr : In r q).
    { apply weather_query_in. split; [exact Hin|].
      apply weather_where_window; [exact Hw | |]; simpl; rewrite Hdt;
        apply Z.leb_le; unfold tn; lia. }
    intros E. rewrite E in Hr. contradiction. }
  destruct (smooth_bounded_dt all_indices t0 tn (pp_id pid) df) as [out [E Hout]].
  - unfold tn. lia.
  - exact Hty.
  - exact Hnd.
  - intros Hp. apply Hpp; assumption.
  - match goal with
    | |- exists f, bind ?m _ = _ /\ _ => assert (E' : m = inr out) by exact E; rewrite E'
    end.
    cbn [bind ret]. eexists. split; [reflexivity|]. cbn [wf_rows].
    unfold tn in Hout. rewrite date_range_hours in Hout.
    split; [|split; [exact Hout|]].
    + rewrite <- (length_map w_dt), Hout, length_map, length_seq. reflexivity.
    + intros r Hr. apply (in_map w_dt) in Hr. rewrite Hout in Hr.
      apply in_map_iff in Hr. destruct Hr as [k [<- Hk']].
      apply in_seq in Hk'. split.
      * rewrite Z.mod_add by (pose proof P_FREQUENCY_D_pos; lia).
        pose proof (Z.div_mod t0 hour ltac:(lia)) as Hd. rewrite Ht0 in Hd.
        set (d := t0 / hour) in Hd. rewrite hour_is_12_steps in Hd.
        replace t0 with ((12 * d) * P_FREQUENCY_D) by lia.
        apply Z.mod_mul. pose proof P_FREQUENCY_D_pos. lia.
      * unfold tn. rewrite hour_is_12_steps. pose proof P_FREQUENCY_D_pos. nia.
Qed.

Lemma two_anchor_weather_keys : weather_keys_unique two_anchor_weather.
Proof.
  unfold weather_keys_unique. simpl.
  constructor; [|constructor; [|constructor]]; simpl.
  - intros [H|[]]. discriminate H.
  - intros [].
Defined.

(** The premises of the amended C1 hold, and its conclusion is obtained,
    over the two measured records of 2021-01-01T00:00 and 01:00. *)
Lemma resample_density_witness :
  exists f,
    get_pp_weather two_anchor_weather (Some (IdInt 1)) (Some (DateTime t_2021_01_01))
      (Some (DateTime (t_2021_01_01 + Z.of_nat 1 * hour))) true (Some 0) None true
    = inr f /\
    List.length (wf_rows f) = (12 * 1)%nat /\
    map w_dt (wf_rows f)
    = map (fun k => t_2021_01_01 + Z.of_nat k * P_FREQUENCY_D) (seq 0 (12 * 1)) /\
    (forall r, In r (wf_rows f) ->
       w_dt r mod P_FREQUENCY_D = 0 /\
       t_2021_01_01 <= w_dt r < t_2021_01_01 + Z.of_nat 1 * hour).
Proof.
  apply (resample_density two_anchor_weather (IdInt 1) (mkPowerPlantID 1 (Some (-1)))
           t_2021_01_01 1 true (Some 0) None).
  - reflexivity.
  - exact two_anchor_weather_keys.
  - left. discriminate.
  - reflexivity.
  - intros k Hk. destruct k as [|[|k]].
    + exists (measured_at t_2021_01_01 (10 # 1)%Q "Clear").
      split; [left; reflexivity | split; reflexivity].
    + exists (measured_at (t_2021_01_01 + hour) (12 # 1)%Q "Cloudy").
      split; [right; left; reflexivity | split; reflexivity].
    + exfalso. lia.
  - exists (measured_at t_2021_01_01 (10 # 1)%Q "Clear").
    split; [left; reflexivity|]. split; [split; discriminate|].
    split; [reflexivity|]. left. discriminate.
Defined.

(** ** The measured-weather scenario *)

Lemma two_anchor_weather_frame :
  exists rows,
    get_pp_weather two_anchor_weather (Some (IdObj (mkPowerPlantID 1 (Some (-1)))))
      (Some (DateTime t_2021_01_01)) (Some (DateTime (t_2021_01_01 + hour)))
      true (Some 0) None true
    = inr (mkWeatherFrame ["pp_id"; "dt"]%string rows) /\
    map w_dt rows = map (fun k => t_2021_01_01 + Z.of_nat k * P_FREQUENCY_D) (seq 0 12) /\
    Forall (fun w => w_pp_id w = Some 1) rows /\
    Forall (fun w => linear_from_10_to_12 t_2021_01_01 (w_dt w) (w_feature w temp)) rows /\
    (exists w v, nth_error rows 11 = Some w /\ w_feature w temp = Some v /\
                 (v == 71 # 6)%Q).
Proof.
  eexists. split; [vm_compute; reflexivity|].
  split; [vm_compute; reflexivity|].
  split; [repeat constructor|].
  split.
  - repeat (constructor;
      [eexists; split; [vm_compute; reflexivity|];
       split; [vm_compute; reflexivity|];
       split; [vm_compute; discriminate|];
       split; [vm_compute; reflexivity|];
       intros H; first [vm_compute in H; discriminate H | vm_compute; reflexivity]|]).
    constructor.
  - eexists. eexists. split; [reflexivity|].
    split; [vm_compute; reflexivity | vm_compute; reflexivity].
Qed.

Lemma filter_unique {A K} (key : A -> K) (f : A -> bool) (l : list A) (e : A) :
  NoDup (map key l) ->
  (forall x y, f x = true -> f y = true -> key x = key y) ->
  In e l -> f e = true -> filter f l = [e].
Proof.
  intros Hnd Hkey. induction l as [|x l IH]; simpl; intros Hin He; [contradiction|].
  inversion Hnd as [|? ? Hx Hl]; subst.
  assert (Hnone : f x = true -> filter f l = []).
  { intros Hfx. destruct (filter f l) as [|y k] eqn:E; [reflexivity|].
    exfalso. assert (Hy : In y (filter f l)) by (rewrite E; left; reflexivity).
    apply filter_In in Hy. destruct Hy as [Hy Hfy].
    apply Hx. rewrite (Hkey x y Hfx Hfy). apply in_map, Hy. }
  destruct Hin as [->|Hin].
  - rewrite He, (Hnone He). reflexivity.
  - destruct (f x) eqn:Hfx.
    + exfalso. apply Hx. rewrite (Hkey x e Hfx He). apply in_map, Hin.
    + apply IH; assumption.
Qed.

Lemma merge_all_matched (left : list weather_row) (right : list exogenous_row) :
  (forall w, In w left ->
     exists e, filter (fun e => opt_Z_eqb (w_pp_id w) (e_pp_id e) && (w_dt w =? e_dt e))
                      right = [e]) ->
  map fst (merge left right) = left.
Proof.
  unfold merge. induction left as [|w left IH]; intros H; simpl; [reflexivity|].
  destruct (H w (or_introl eq_refl)) as [e ->]. simpl.
  f_equal. apply IH. intros w' Hw'. apply H. right. exact Hw'.
Qed.

Lemma exogenous_query_in table pp s e (r : SolarExogenousTable) :
  In r (exogenous_query table pp s e) <->
  In r table /\ exogenous_where pp s e r = true.
Proof.
  unfold exogenous_query. rewrite in_order_by. apply filter_In.
Qed.

Lemma exogenous_query_keys table pp s e :
  exogenous_keys_unique table ->
  NoDup (map exogenous_key (exogenous_query table pp s e)).
Proof.
  intros Hk. unfold exogenous_query.
  eapply Permutation_NoDup.
  - apply Permutation_map, Permutation_sym, order_by_perm.
  - apply NoDup_map_filter, Hk.
Qed.

(** Every instant of a plant that the exogenous table holds within the
    window has exactly one row of the exogenous frame to merge with. *)
Lemma exogenous_frame_match (table : list SolarExogenousTable) (pid : PowerPlantID)
    (a b t : datetime) (w : weather_row) :
  exogenous_keys_unique table ->
  a <= t <= b ->
  w_pp_id w = Some (pp_id pid) -> w_dt w = t ->
  (exists r, In r table /\ et_pp_id r = pp_id pid /\ et_dt r = t) ->
  exists e,
    filter (fun e => opt_Z_eqb (w_pp_id w) (e_pp_id e) && (w_dt w =? e_dt e))
      (upcast_exogenous
         (map (exogenous_row_of true) (exogenous_query table (Some pid) (Some a) (Some b))))
    = [e].
Proof.
  intros Hk Hab Hpp Hdt [r [Hin [Hrp Hrt]]].
  set (q := exogenous_query table (Some pid) (Some a) (Some b)).
  assert (Hnd : NoDup (map (fun e => (e_pp_id e, e_dt e))
                         (upcast_exogenous (map (exogenous_row_of true) q)))).
  { rewrite upcast_exogenous_keys, map_map.
    assert (Hinj : NoDup (map (fun x => (Some (fst x), snd x)) (map exogenous_key q))).
    { apply Finite.Injective_map_NoDup; [|apply exogenous_query_keys, Hk].
      intros [x1 x2] [y1 y2] H. simpl in H. congruence. }
    rewrite map_map in Hinj. exact Hinj. }
  assert (Hr : In r q).
  { apply exogenous_query_in. split; [exact Hin|].
    unfold exogenous_where. simpl. rewrite Hrp, Hrt, Z.eqb_refl. simpl.
    apply andb_true_intro. split; apply Z.leb_le; lia. }
  unfold upcast_exogenous in *.
  match goal with
  | |- exists e, filter _ (map ?g _) = _ => exists (g (exogenous_row_of true r))
  end.
  apply (filter_unique (fun e => (e_pp_id e, e_dt e))).
  - exact Hnd.
  - intros x y Hx Hy.
    apply andb_prop in Hx. destruct Hx as [Hx1 Hx2].
    apply andb_prop in Hy. destruct Hy as [Hy1 Hy2].
    apply Z.eqb_eq in Hx2, Hy2. rewrite Hpp in Hx1, Hy1.
    destruct (e_pp_id x) as [px|], (e_pp_id y) as [py|]; simpl in *; try discriminate.
    apply Z.eqb_eq in Hx1, Hy1. congruence.
  - apply in_map_iff. eexists. split; [reflexivity|]. apply in_map, Hr.
  - simpl. rewrite Hpp, Hdt, Hrp, Hrt. simpl. rewrite !Z.eqb_refl. reflexivity.
Qed.

(** C2 fails as stated: with the two weather rows alone, and no exogenous
    record to merge with, [prepare_weather] returns a frame without rows,
    not one of 12 rows. *)
Lemma prepare_weather_needs_exogenous :
  ~ (exists f,
       prepare_weather (mkSolarDBData [] two_anchor_weather []) (IdInt 1)
         (DateTime t_2021_01_01) (DateTime (t_2021_01_01 + hour)) "measured" None
       = inr f /\
       List.length (ff_rows f) = 12%nat).
Proof.
  intros [f [H Hlen]]. vm_compute in H. injection H as <-. discriminate Hlen.
Qed.

(** C2, amended. For the two measured weather rows of 10 degrees at
    2021-01-01T00:00 and 12 degrees at 01:00, and an exogenous table with
    unique keys holding a record of the plant at each of the instants 00:00,
    00:05, ..., 00:55, [prepare_weather] with the scheme "measured" from
    00:00 to 01:00 returns exactly 12 rows, at 00:00, 00:05, ..., 00:55; the
    temperature of each row is exactly linear in the elapsed time from 10
    towards 12, the intermediate ones strictly between the anchors, and the
    last one is 71/6 = 11.8333... *)
Theorem prepare_weather_measured_scenario (power : list SolarPowerTable)
    (exo : list SolarExogenousTable) :
  exogenous_keys_unique exo ->
  (forall k, (k < 12)%nat ->
     exists e, In e exo /\ et_pp_id e = 1 /\
               et_dt e = t_2021_01_01 + Z.of_nat k * P_FREQUENCY_D) ->
  exists f,
    prepare_weather (mkSolarDBData power two_anchor_weather exo) (IdInt 1)
      (DateTime t_2021_01_01) (DateTime (t_2021_01_01 + hour)) "measured" None
    = inr f /\
    List.length (ff_rows f) = 12%nat /\
    map f_dt (ff_rows f)
    = map (fun k => t_2021_01_01 + Z.of_nat k * P_FREQUENCY_D) (seq 0 12) /\
    Forall (fun r => linear_from_10_to_12 t_2021_01_01 (f_dt r) (f_temp r)) (ff_rows f) /\
    (exists r v, nth_error (ff_rows f) 11 = Some r /\ f_temp r = Some v /\
                 (v == 71 # 6)%Q).
Proof.
  intros Hk Hexo.
  destruct two_anchor_weather_frame as [rows [HW [Hdt [Hpp [Hlin Hlast]]]]].
  unfold prepare_weather.
  cbn [get_pp_id bind ret _convert_date_time earliest_of weather_table exogenous_table].
  change (String.eqb "measured" "measured") with true. cbv iota.
  rewrite HW. cbn [bind ret wf_rows get_pp_exogenous get_pp_id option_map earliest_of ef_rows].
  set (ex := upcast_exogenous _).
  assert (Hm : map fst (merge rows ex) = rows).
  { apply merge_all_matched. intros w Hw.
    assert (Hwd : In (w_dt w) (map w_dt rows)) by (apply in_map, Hw).
    rewrite Hdt in Hwd. apply in_map_iff in Hwd. destruct Hwd as [k [Hkd Hks]].
    apply in_seq in Hks.
    apply (exogenous_frame_match exo (mkPowerPlantID 1 (Some (-1)))
             t_2021_01_01 (t_2021_01_01 + hour) (w_dt w) w Hk).
    - rewrite <- Hkd, hour_is_12_steps. pose proof P_FREQUENCY_D_pos. nia.
    - rewrite Forall_forall in Hpp. apply Hpp, Hw.
    - reflexivity.
    - destruct (Hexo k) as [e He]; [lia|]. exists e. rewrite <- Hkd. exact He. }
  eexists. split; [reflexivity|]. cbn [ff_rows].
  set (out := map (fun we => mkFeatureRow
                               (inv_id_or_aggregate (mkPowerPlantID 1 (Some (-1))))
                               (fst we) (snd we)) (merge rows ex)).
  assert (Hw : map f_weather out = rows).
  { unfold out. rewrite map_map. exact Hm. }
  assert (Hfdt : map f_dt out = map w_dt rows).
  { rewrite <- Hw. rewrite map_map. reflexivity. }
  split; [|split; [|split]].
  - rewrite <- (length_map f_dt), Hfdt, Hdt, length_map, length_seq. reflexivity.
  - rewrite Hfdt. exact Hdt.
  - rewrite <- Hw in Hlin. rewrite Forall_map in Hlin. exact Hlin.
  - destruct Hlast as [w [v [Hn [Hv Hq]]]].
    rewrite <- Hw in Hn. rewrite nth_error_map in Hn.
    destruct (nth_error out 11) as [r|] eqn:Er; [|discriminate].
    injection Hn as <-. exists r, v. auto.
Qed.

Lemma NoDup_keys_of_dt (table : list SolarExogenousTable) :
  NoDup (map et_dt table) -> exogenous_keys_unique table.
Proof.
  unfold exogenous_keys_unique. intros H.
  induction table as [|x l IH]; simpl in *; [constructor|].
  inversion H as [|? ? Hx Hl]; subst. constructor; [|auto].
  intros Hin. apply Hx. apply in_map_iff in Hin. destruct Hin as [y [Hy Hin]].
  apply in_map_iff. exists y. split; [|exact Hin].
  unfold exogenous_key in Hy. congruence.
Qed.

Lemma five_minute_exogenous_keys : exogenous_keys_unique five_minute_exogenous.
Proof.
  apply NoDup_keys_of_dt, has_dup_false_NoDup. vm_compute. reflexivity.
Qed.

(** The premises of the amended C2 hold over the five-minute exogenous
    records of the hour. *)
Lemma prepare_weather_measured_scenario_witness :
  exists f,
    prepare_weather (mkSolarDBData [] two_anchor_weather five_minute_exogenous) (IdInt 1)
      (DateTime t_2021_01_01) (DateTime (t_2021_01_01 + hour)) "measured" None
    = inr f /\
    List.length (ff_rows f) = 12%nat /\
    map f_dt (ff_rows f)
    = map (fun k => t_2021_01_01 + Z.of_nat k * P_FREQUENCY_D) (seq 0 12) /\
    Forall (fun r => linear_from_10_to_12 t_2021_01_01 (f_dt r) (f_temp r)) (ff_rows f) /\
    (exists r v, nth_error (ff_rows f) 11 = Some r /\ f_temp r = Some v /\
                 (v == 71 # 6)%Q).
Proof.
  apply (prepare_weather_measured_scenario [] five_minute_exogenous).
  - exact five_minute_exogenous_keys.
  - intros k Hk. exists (exogenous_at k). split; [|split; reflexivity].
    unfold five_minute_exogenous. apply in_map, in_seq. lia.
Defined.

(** ** Latest forecast before a cutoff *)

Lemma tabulate_eq (g : weather_feature -> option Q) (c : weather_feature) :
  tabulate g c = g c.
Proof. destruct c; reflexivity. Qed.

Section Ordering.

Context {A : Type} (le : A -> A -> bool).
Hypothesis le_total : forall a b, le a b = true \/ le b a = true.
Hypothesis le_trans : forall a b c, le a b = true -> le b c = true -> le a c = true.

Lemma insert_by_sorted (x : A) (l : list A) :
  StronglySorted (fun a b => le a b = true) l ->
  StronglySorted (fun a b => le a b = true) (insert_by le x l).
Proof.
  induction 1 as [|y l Hl IH Hy]; simpl.
  - constructor; constructor.
  - destruct (le x y) eqn:E.
    + constructor; [constructor; assumption|].
      constructor; [exact E|].
      rewrite Forall_forall in *. intros z Hz. eapply le_trans; eauto.
    + constructor; [exact IH|].
      rewrite Forall_forall in *. intros z Hz.
      apply (Permutation_in _ (insert_by_perm le x l)) in Hz.
      destruct Hz as [<-|Hz]; [|auto].
      destruct (le_total x y) as [H|H]; congruence.
Qed.

Lemma order_by_sorted (l : list A) :
  StronglySorted (fun a b => le a b = true) (order_by le l).
Proof.
  induction l as [|x l IH]; simpl; [constructor | apply insert_by_sorted, IH].
Qed.

End Ordering.

Lemma StronglySorted_filter {A} (R : A -> A -> Prop) (f : A -> bool) (l : list A) :
  StronglySorted R l -> StronglySorted R (filter f l).
Proof.
  induction 1 as [|x l Hl IH Hx]; simpl; [constructor|].
  destruct (f x); [|exact IH].
  constructor; [exact IH|].
  rewrite Forall_forall in *. intros y Hy. apply filter_In in Hy. apply Hx, Hy.
Qed.

Lemma StronglySorted_within {A} (R R' : A -> A -> Prop) (P : A -> Prop) (l : list A) :
  (forall a b, P a -> P b -> R a b -> R' a b) ->
  Forall P l -> StronglySorted R l -> StronglySorted R' l.
Proof.
  intros HR HP. induction 1 as [|x l Hl IH Hx]; [constructor|].
  inversion HP as [|? ? Px Pl]; subst.
  constructor; [apply IH, Pl|].
  rewrite Forall_forall in *. intros y Hy. apply HR; auto.
Qed.

Lemma weather_order_total (a b : SolarWeatherTable) :
  weather_order a b = true \/ weather_order b a = true.
Proof.
  unfold weather_order.
  destruct (Z.lt_trichotomy (wt_dt a) (wt_dt b)) as [H|[H|H]].
  - left. apply Z.ltb_lt in H. rewrite H. reflexivity.
  - rewrite H, Z.eqb_refl, Z.ltb_irrefl. simpl.
    destruct (Z.le_ge_cases (wt_age a) (wt_age b)) as [L|L];
      apply Z.leb_le in L; rewrite L; auto.
  - right. apply Z.ltb_lt in H. rewrite H. reflexivity.
Qed.

Lemma weather_order_spec (a b : SolarWeatherTable) :
  weather_order a b = true <->
  wt_dt a < wt_dt b \/ (wt_dt a = wt_dt b /\ wt_age a <= wt_age b).
Proof.
  unfold weather_order.
  rewrite orb_true_iff, andb_true_iff, Z.ltb_lt, Z.eqb_eq, Z.leb_le. reflexivity.
Qed.

Lemma weather_order_trans (a b c : SolarWeatherTable) :
  weather_order a b = true -> weather_order b c = true -> weather_order a c = true.
Proof.
  rewrite !weather_order_spec. lia.
Qed.

(** The records of one timestamp, in the order of the query, come in
    ascending age. *)
Lemma weather_query_group_sorted table pp s e a m (k : datetime) :
  StronglySorted (fun x y => wt_age x <= wt_age y)
    (filter (fun r => wt_dt r =? k) (weather_query table pp s e a m)).
Proof.
  apply (StronglySorted_within (fun x y => weather_order x y = true) _
           (fun r => wt_dt r = k)).
  - intros x y Hx Hy H. apply weather_order_spec in H. lia.
  - apply Forall_forall. intros r Hr. apply filter_In in Hr. apply Z.eqb_eq, Hr.
  - apply StronglySorted_filter. unfold weather_query.
    apply order_by_sorted; [apply weather_order_total | apply weather_order_trans].
Qed.

Lemma first_valid_first_known {B} (col : SolarWeatherTable -> option B)
    (l : list SolarWeatherTable) :
  StronglySorted (fun x y => wt_age x <= wt_age y) l ->
  first_known (fun r => In r l) col (first_valid col l).
Proof.
  induction 1 as [|x l Hl IH Hx]; simpl.
  - intros r [].
  - destruct (col x) as [v|] eqn:E.
    + exists x. split; [left; reflexivity|]. split; [exact E|].
      intros r' [<-|Hr'] Hlt; [lia|].
      rewrite Forall_forall in Hx. specialize (Hx r' Hr'). lia.
    + destruct (first_valid col l) as [v|]; simpl in *.
      * destruct IH as [r [Hr [Hc Hmin]]]. exists r.
        split; [right; exact Hr|]. split; [exact Hc|].
        intros r' [<-|Hr'] Hlt; [exact E | apply Hmin; assumption].
      * intros r [<-|Hr]; [exact E | apply IH, Hr].
Qed.

Lemma first_known_iff {B} (G G' : SolarWeatherTable -> Prop)
    (col : SolarWeatherTable -> option B) (c : option B) :
  (forall r, G r <-> G' r) -> first_known G col c -> first_known G' col c.
Proof.
  intros H. destruct c as [v|]; simpl.
  - intros [r [Hr [Hc Hmin]]]. exists r. split; [apply H, Hr|]. split; [exact Hc|].
    intros r' Hr'. apply Hmin, H, Hr'.
  - intros Hn r Hr. apply Hn, H, Hr.
Qed.

Lemma first_valid_map {A A' B} (g : A -> A') (col : A' -> option B) (l : list A) :
  first_valid col (map g l) = first_valid (fun x => col (g x)) l.
Proof.
  induction l as [|x l IH]; simpl; [reflexivity|].
  destruct (col (g x)); [reflexivity | exact IH].
Qed.

Lemma first_valid_ext {A B} (col col' : A -> option B) (l : list A) :
  (forall x, col x = col' x) -> first_valid col l = first_valid col' l.
Proof.
  intros H. induction l as [|x l IH]; simpl; [reflexivity|].
  rewrite H, IH. reflexivity.
Qed.

Lemma filter_map_swap {A A'} (g : A -> A') (f : A' -> bool) (l : list A) :
  filter f (map g l) = map g (filter (fun x => f (g x)) l).
Proof.
  induction l as [|x l IH]; simpl; [reflexivity|].
  destruct (f (g x)); simpl; rewrite IH; reflexivity.
Qed.

Lemma NoDup_map_eq {A K} (key : A -> K) (l : list A) (x y : A) :
  NoDup (map key l) -> In x l -> In y l -> key x = key y -> x = y.
Proof.
  induction l as [|z l IH]; simpl; intros Hnd Hx Hy Hk; [contradiction|].
  inversion Hnd as [|? ? Hz Hl]; subst.
  destruct Hx as [->|Hx], Hy as [->|Hy]; auto.
  - exfalso. apply Hz. rewrite Hk. apply in_map, Hy.
  - exfalso. apply Hz. rewrite <- Hk. apply in_map, Hx.
Qed.

(** With unique keys the first known value of a column is the value of the
    freshest record of the group whenever that record has one. *)
Lemma first_known_freshest {B} (table : list SolarWeatherTable) (p k : Z)
    (G : SolarWeatherTable -> Prop) (col : SolarWeatherTable -> option B)
    (c : option B) (r0 : SolarWeatherTable) (v : B) :
  weather_keys_unique table ->
  (forall r, G r -> In r table /\ wt_pp_id r = p /\ wt_dt r = k) ->
  first_known G col c -> freshest G r0 -> col r0 = Some v -> c = Some v.
Proof.
  intros Hk HG Hc [H0 Hmin] Hv. destruct c as [v'|]; simpl in Hc.
  - destruct Hc as [r [Hr [Hcr Hfresh]]].
    destruct (Z.eq_dec (wt_age r0) (wt_age r)) as [E|E].
    + assert (r0 = r).
      { destruct (HG _ H0) as [I0 [P0 D0]]. destruct (HG _ Hr) as [I1 [P1 D1]].
        apply (NoDup_map_eq weather_key table); auto.
        unfold weather_key. congruence. }
      subst. congruence.
    + specialize (Hmin r Hr). rewrite (Hfresh r0 H0) in Hv by lia. discriminate.
  - rewrite (Hc r0 H0) in Hv. discriminate.
Qed.

(** C6 fails as stated.  Of two forecasts for one instant, the fresher one
    without a temperature, the row the cutoff query returns has the
    temperature of the older forecast, so it is not the record of the
    smallest age. *)
Lemma cutoff_row_is_not_the_freshest_record :
  ~ (forall f row,
       get_pp_weather two_forecasts (Some (IdInt 1)) None None false None
         (Some (t_2021_01_01 + 12 * hour)) false = inr f ->
       In row (wf_rows f) ->
       forall r0, freshest (cutoff_group two_forecasts (mkPowerPlantID 1 (Some (-1)))
                              None None None (t_2021_01_01 + 12 * hour) (w_dt row)) r0 ->
                  w_feature row temp = wt_feature r0 temp).
Proof.
  intros H.
  assert (E : exists f, get_pp_weather two_forecasts (Some (IdInt 1)) None None false None
                          (Some (t_2021_01_01 + 12 * hour)) false = inr f /\
                        exists row, wf_rows f = [row] /\
                                    w_dt row = t_2021_01_01 + 12 * hour /\
                                    w_feature row temp = Some (5 # 1)%Q).
  { eexists. split; [vm_compute; reflexivity|].
    eexists. split; [reflexivity|]. split; reflexivity. }
  destruct E as [f [Hf [row [Hrows [Hdt Htemp]]]]].
  specialize (H f row Hf). rewrite Hrows in H. specialize (H (or_introl eq_refl)).
  specialize (H forecast_fresh). rewrite Htemp, Hdt in H.
  assert (Hfresh : freshest (cutoff_group two_forecasts (mkPowerPlantID 1 (Some (-1)))
                               None None None (t_2021_01_01 + 12 * hour)
                               (t_2021_01_01 + 12 * hour)) forecast_fresh).
  { split.
    - split; [right; left; reflexivity | split; reflexivity].
    - intros r [[<-|[<-|[]]] _]; simpl; lia. }
  specialize (H Hfresh). discriminate H.
Qed.

(** With smoothing the end of the interval is left out: from 11:00 to 12:00
    the frame of the two forecasts has the twelve rows of 11:00 to 11:55 and
    none for 12:00, the one instant that has records. *)
Lemma cutoff_smoothing_leaves_out_the_end :
  exists f,
    get_pp_weather two_forecasts (Some (IdInt 1))
      (Some (DateTime (t_2021_01_01 + 11 * hour)))
      (Some (DateTime (t_2021_01_01 + 12 * hour))) false None
      (Some (t_2021_01_01 + 12 * hour)) true = inr f /\
    List.length (wf_rows f) = 12%nat /\
    ~ In (t_2021_01_01 + 12 * hour) (map w_dt (wf_rows f)).
Proof.
  eexists. split; [vm_compute; reflexivity|]. split; [reflexivity|].
  vm_compute. intros H.
  repeat (destruct H as [H|H]; [discriminate H|]). exact H.
Qed.

Lemma weather_where_cutoff_src pp s e a m r :
  weather_where pp s e a (Some m) r = true -> exists sd, wt_src_dt r = Some sd.
Proof.
  unfold weather_where. intros H. apply andb_prop in H. destruct H as [_ H].
  simpl in H. destruct (wt_src_dt r) as [sd|]; [eauto | discriminate].
Qed.

(** The frame of a cutoff query limited to one plant, before any smoothing:
    one row for each timestamp that has a selected record, in ascending
    order, each cell the first known value of its column. *)
Lemma cutoff_frame_first_known (table : list SolarWeatherTable) (pid : PowerPlantID)
    (s e : option datetime) (src_age : option Z) (cutoff : datetime) (has_pp : bool) :
  weather_keys_unique table ->
  let df := groupby_dt_first
              (map (weather_row_of has_pp false)
                 (weather_query table (Some pid) s e src_age (Some cutoff))) in
  let G := cutoff_group table pid s e src_age cutoff in
  ascending (map w_dt df) /\
  (forall t, In t (map w_dt df) <-> exists r, G t r) /\
  (forall row, In row df ->
     cells_first_known (G (w_dt row)) row /\
     forall r0, freshest (G (w_dt row)) r0 -> carries row r0).
Proof.
  intros Hk. cbv zeta.
  set (q := weather_query table (Some pid) s e src_age (Some cutoff)).
  set (row_of := weather_row_of has_pp false).
  assert (HG : forall t r, In r (filter (fun r => wt_dt r =? t) q) <->
                           cutoff_group table pid s e src_age cutoff t r).
  { intros t r. rewrite filter_In. unfold q. rewrite weather_query_in, Z.eqb_eq.
    unfold cutoff_group. tauto. }
  assert (Hkeys : forall t, In t (group_keys (map w_dt (map row_of q))) <->
                            exists r, cutoff_group table pid s e src_age cutoff t r).
  { intros t. rewrite in_group_keys, map_map, in_map_iff. split.
    - intros [r [Hr Hin]]. exists r. apply HG, filter_In. split; [exact Hin|].
      apply Z.eqb_eq, Hr.
    - intros [r Hr]. apply HG, filter_In in Hr. exists r.
      destruct Hr as [Hin Hr]. apply Z.eqb_eq in Hr. auto. }
  split; [rewrite groupby_dt_first_dt; apply group_keys_ascending|].
  split; [intros t; rewrite groupby_dt_first_dt; apply Hkeys|].
  intros row Hrow. unfold groupby_dt_first in Hrow.
  apply in_map_iff in Hrow. destruct Hrow as [k [<- _]].
  cbn [w_dt first_of_group].
  assert (Hcol : forall B (col : SolarWeatherTable -> option B) (col' : weather_row -> option B),
             (forall r, col' (row_of r) = col r) ->
             first_known (cutoff_group table pid s e src_age cutoff k) col
               (first_valid col' (filter (fun r => w_dt r =? k) (map row_of q)))).
  { intros B col col' Hcc.
    rewrite filter_map_swap, first_valid_map.
    rewrite (first_valid_ext _ col) by (intros r; apply Hcc).
    eapply first_known_iff; [apply HG|].
    apply first_valid_first_known. unfold q. apply weather_query_group_sorted. }
  assert (Hcells : cells_first_known (cutoff_group table pid s e src_age cutoff k)
                     (first_of_group k (filter (fun r => w_dt r =? k) (map row_of q)))).
  { unfold cells_first_known, first_of_group. cbn.
    split; [eexists; split; [reflexivity|]; apply (Hcol _ wt_src_dt); reflexivity|].
    repeat split; try (apply Hcol; reflexivity).
    intros c. rewrite tabulate_eq. apply (Hcol _ (fun r => wt_feature r c)).
    reflexivity. }
  split; [exact Hcells|].
  intros r0 Hr0.
  assert (Hgrp : forall r, cutoff_group table pid s e src_age cutoff k r ->
                           In r table /\ wt_pp_id r = pp_id pid /\ wt_dt r = k).
  { intros r [Hin [Hw Hd]]. repeat split; auto. eapply weather_where_plant, Hw. }
  destruct Hcells as [Hsrc [Hsum [Hfeat [Hip Hep]]]].
  unfold carries. repeat split.
  - destruct Hr0 as [Hg0 Hmin].
    destruct (weather_where_cutoff_src _ _ _ _ _ _ (proj1 (proj2 Hg0))) as [sd Hsd].
    destruct Hsrc as [c [Ec Hc]]. rewrite Ec, Hsd. f_equal.
    eapply first_known_freshest; eauto. split; assumption.
  - intros v Hv. eapply first_known_freshest; eauto.
  - intros c v Hv. eapply (first_known_freshest table _ _ _ (fun r => wt_feature r c)); eauto.
  - intros v Hv. eapply first_known_freshest; eauto.
  - intros v Hv. eapply first_known_freshest; eauto.
Qed.

Lemma two_forecasts_keys : weather_keys_unique two_forecasts.
Proof.
  unfold weather_keys_unique. simpl.
  constructor; [|constructor; [|constructor]]; simpl.
  - intros [H|[]]. discriminate H.
  - intros [].
Qed.

(** ** Smoothing over several plants *)

(** C7. The forward fill of the summary and of the flags runs over the
    frame of all plants at once: plant 2, whose only record is the "Snow" of
    01:00, gets the summary "Cloudy" and the flag of the last row of plant 1
    on its rows from 00:00 on, while its interpolated columns stay missing
    there.  The trim of the final row also takes one row of the whole frame:
    plant 1 keeps its row of 01:00. *)
Theorem forward_fill_crosses_plants :
  exists f,
    get_pp_weather two_plants_weather None (Some (DateTime t_2021_01_01))
      (Some (DateTime (t_2021_01_01 + hour))) false (Some 0) None true
    = inr f /\
    map w_pp_id (wf_rows f) = repeat (Some 1) 13 ++ repeat (Some 2) 12 /\
    (forall row, In row (wf_rows f) -> w_pp_id row = Some 2 ->
       w_summary row = Some "Cloudy"%string /\
       w_ipolated row = Some false /\
       w_feature row temp = None) /\
    (forall r, In r two_plants_weather -> wt_pp_id r = 2 ->
       wt_summary r = Some "Snow"%string /\ wt_ipolated r = Some true).
Proof.
  eexists. split; [vm_compute; reflexivity|].
  split; [reflexivity|]. split.
  - intros row Hrow Hpp. simpl in Hrow.
    repeat (destruct Hrow as [<-|Hrow]; [try discriminate Hpp; repeat split|]).
    contradiction.
  - intros r Hr Hpp. simpl in Hr.
    repeat (destruct Hr as [<-|Hr]; [try discriminate Hpp; repeat split|]).
    contradiction.
Qed.

(** ** History frames *)

Lemma power_query_in table pp s e (r : SolarPowerTable) :
  In r (power_query table pp s e) <-> In r table /\ power_where pp s e r = true.
Proof.
  unfold power_query. rewrite in_order_by. apply filter_In.
Qed.

Lemma power_where_unbounded pp s e r :
  power_where pp s e r = true -> power_where pp None None r = true.
Proof.
  unfold power_where. intros H.
  apply andb_prop in H. destruct H as [H _].
  apply andb_prop in H. destruct H as [H _].
  rewrite H. reflexivity.
Qed.

Lemma power_where_inverter p i s e r :
  power_where (Some (mkPowerPlantID p (Some i))) s e r = true ->
  pt_pp_id r = p /\ pt_inv_id r = i.
Proof.
  unfold power_where. simpl. intros H.
  apply andb_prop in H. destruct H as [H _].
  apply andb_prop in H. destruct H as [H _].
  apply andb_prop in H. destruct H as [H1 H2].
  split; apply Z.eqb_eq; assumption.
Qed.

Lemma power_query_inverter_NoDup table p i s e :
  power_keys_unique table ->
  NoDup (map pt_dt (power_query table (Some (mkPowerPlantID p (Some i))) s e)).
Proof.
  intros Hk. unfold power_query.
  eapply Permutation_NoDup.
  - apply Permutation_map, Permutation_sym, order_by_perm.
  - apply (NoDup_map_filter_inj power_key); [exact Hk|].
    intros x y Hx Hy Hd. unfold power_key.
    destruct (power_where_inverter _ _ _ _ _ Hx) as [-> ->].
    destruct (power_where_inverter _ _ _ _ _ Hy) as [-> ->].
    rewrite Hd. reflexivity.
Qed.

Lemma NoDup_firstn {A} (n : nat) (l : list A) : NoDup l -> NoDup (firstn n l).
Proof.
  revert n. induction l as [|x l IH]; intros [|n] H; simpl; try constructor.
  - inversion H as [|? ? Hx Hl]; subst. intros Hin. apply Hx.
    rewrite <- (firstn_skipn n l). apply in_or_app. left. exact Hin.
  - inversion H; subst. apply IH. assumption.
Qed.

Lemma in_firstn {A} (n : nat) (l : list A) (x : A) : In x (firstn n l) -> In x l.
Proof.
  intros H. rewrite <- (firstn_skipn n l). apply in_or_app. left. exact H.
Qed.

Lemma date_range_back (start : datetime) (n : Z) :
  0 <= n ->
  date_range (start - P_FREQUENCY_D * n) start P_FREQUENCY_D =
  map (fun k => start - P_FREQUENCY_D * n + Z.of_nat k * P_FREQUENCY_D)
      (seq 0 (Z.to_nat n)).
Proof.
  intros Hn. unfold date_range, date_range_count. do 3 f_equal.
  replace (start - (start - P_FREQUENCY_D * n) + P_FREQUENCY_D - 1)
    with ((P_FREQUENCY_D - 1) + n * P_FREQUENCY_D) by lia.
  rewrite Z.div_add by (pose proof P_FREQUENCY_D_pos; lia).
  rewrite Z.div_small by (pose proof P_FREQUENCY_D_pos; lia).
  reflexivity.
Qed.

(** The frame a history window of distinct timestamps is reindexed to. *)
Lemma reindex_by_rows {R} (key : R -> datetime) (nan : datetime -> R)
    (df : list R) (grid : list datetime) :
  NoDup (map key df) ->
  reindex_by key nan df grid
  = inr (map (fun t => match find (fun r => key r =? t) df with
                       | Some r => r
                       | None => nan t
                       end) grid).
Proof.
  intros Hnd. unfold reindex_by. destruct grid as [|t grid]; [reflexivity|].
  apply has_dup_false_NoDup in Hnd. rewrite Hnd. reflexivity.
Qed.

(** The history without the fallback, over a window of distinct
    timestamps: the typed rows of the window are looked up on the grid, the
    frame is typed again, filled and labelled. *)
Lemma prepare_history_reindexed (data : SolarDBData) (id : PowerPlantIDT)
    (pid : PowerPlantID) (dt_start : date_or_datetime) (n : Z) :
  get_pp_id id = inr pid ->
  0 <= n ->
  let start := earliest_of dt_start in
  let q := power_query (power_table data) (Some pid)
             (Some (start - P_FREQUENCY_D * n)) (Some start) in
  NoDup (map pt_dt q) ->
  prepare_history data id dt_start n false
  = inr (mkPowerFrame full_index
           (map (assign_power_id (pp_id pid) (inv_id_or_aggregate pid))
              (map fill_history
                 (upcast_power
                    (map (fun t =>
                            match find (fun r => p_dt r =? t)
                                    (map (upcast_power_row (map (power_row_of true true) q))
                                       (map (power_row_of true true)
                                          (firstn (Z.to_nat n) q))) with
                            | Some r => r
                            | None => nan_power_row t
                            end)
                       (map (fun k => start - P_FREQUENCY_D * n
                                      + Z.of_nat k * P_FREQUENCY_D)
                          (seq 0 (Z.to_nat n)))))))).
Proof.
  intros Hid Hn. cbv zeta. intros Hnd. unfold prepare_history. rewrite Hid.
  cbn [bind ret get_pp_power get_pp_id option_map earliest_of pf_rows].
  unfold _convert_date_time.
  set (start := earliest_of dt_start) in *.
  set (q := power_query _ _ _ _) in *.
  assert (Hhead : iloc_head n (upcast_power (map (power_row_of true true) q))
                  = map (upcast_power_row (map (power_row_of true true) q))
                      (map (power_row_of true true) (firstn (Z.to_nat n) q))).
  { unfold iloc_head. destruct (n <? 0) eqn:E; [apply Z.ltb_lt in E; lia|].
    unfold upcast_power. rewrite <- !firstn_map. reflexivity. }
  rewrite Hhead, reindex_by_rows.
  2:{ rewrite !map_map. cbn [upcast_power_row power_row_of p_dt].
      rewrite <- firstn_map. apply NoDup_firstn, Hnd. }
  cbn [bind ret]. unfold _prepare_frame_index.
  rewrite date_range_back by exact Hn. reflexivity.
Qed.

Lemma prepare_history_grid (data : SolarDBData) (id : PowerPlantIDT)
    (pid : PowerPlantID) (dt_start : date_or_datetime) (n : Z) :
  get_pp_id id = inr pid ->
  0 <= n ->
  NoDup (map pt_dt
           (power_query (power_table data) (Some pid)
              (Some (earliest_of dt_start - P_FREQUENCY_D * n))
              (Some (earliest_of dt_start)))) ->
  exists f,
    prepare_history data id dt_start n false = inr f /\
    map p_dt (pf_rows f)
    = map (fun k => earliest_of dt_start - P_FREQUENCY_D * n + Z.of_nat k * P_FREQUENCY_D)
          (seq 0 (Z.to_nat n)) /\
    (forall row, In row (pf_rows f) ->
       p_pp_id row = Some (pp_id pid) /\
       p_inv_id row = Some (inv_id_or_aggregate pid) /\
       (~ stored_at (power_table data) pid (p_dt row) -> zero_filled row)).
Proof.
  intros Hid Hn Hnd.
  rewrite (prepare_history_reindexed data id pid dt_start n Hid Hn Hnd).
  eexists. split; [reflexivity|]. cbn [pf_rows].
  set (start := earliest_of dt_start) in *.
  set (q := power_query _ _ _ _) in *.
  unfold upcast_power.
  split.
  - rewrite !map_map. apply map_ext. intros k.
    cbn [assign_power_id p_dt fill_history upcast_power_row].
    destruct (find _ _) as [r|] eqn:E; [|reflexivity].
    apply find_some in E. destruct E as [_ E]. apply Z.eqb_eq in E. exact E.
  - intros row Hrow. rewrite !map_map in Hrow. apply in_map_iff in Hrow.
    destruct Hrow as [k [<- _]].
    cbn [assign_power_id p_pp_id p_inv_id p_dt fill_history upcast_power_row].
    split; [reflexivity|]. split; [reflexivity|].
    intros Hmiss.
    destruct (find _ _) as [r|] eqn:E.
    + exfalso. apply find_some in E. destruct E as [Hin E]. apply Z.eqb_eq in E.
      apply in_map_iff in Hin. destruct Hin as [x [<- Hx]].
      apply in_firstn, power_query_in in Hx. destruct Hx as [Hx Hw].
      apply Hmiss. exists x. split; [exact Hx|].
      split; [eapply power_where_unbounded, Hw | reflexivity].
    + unfold zero_filled, nan_power_row.
      cbn [p_power_ac p_power_dc p_energy_hour p_energy_day p_energy_week
           p_energy_month p_ipolated p_epolated
           assign_power_id fill_history upcast_power_row].
      rewrite !as_float64_none. repeat split.
Qed.

(** C8. The claim fails on the code for a whole-plant identity: for
    [PowerPlantID(1)] the rows of every inverter of the plant are fetched,
    and over a table in which the aggregate and the inverter 0 both report
    2020-12-31T23:50, in either order, the call with the start
    2021-01-01T00:00 and the count 2 raises the ValueError of a reindex over
    duplicate labels instead of returning 2 rows. *)
Theorem prepare_history_whole_plant_raises :
  prepare_history (mkSolarDBData two_inverters_power [] []) (IdObj (whole_plant 1))
    (DateTime t_2021_01_01) 2 false
  = inl (ValueError "cannot reindex from a duplicate axis") /\
  prepare_history (mkSolarDBData (rev two_inverters_power) [] []) (IdObj (whole_plant 1))
    (DateTime t_2021_01_01) 2 false
  = inl (ValueError "cannot reindex from a duplicate axis").
Proof.
  split; vm_compute; reflexivity.
Qed.

(** Where the history is zero-filled as documented.  For an identity that
    names an inverter (a bare integer resolves to the aggregate [-1]) over a
    power table with unique keys, or for any identity over an empty power
    table, a start instant and a count [n >= 0], [prepare_history] without
    fallback returns exactly [n] rows at
    the timestamps [start - n*5min, ..., start - 5min], each with the plant
    and inverter of the identity; at every timestamp of the grid without a
    stored record of the identity the numeric columns are 0, [ipolated] is
    false and [epolated] is true. *)
Theorem prepare_history_zero_fill (data : SolarDBData) (id : PowerPlantIDT)
    (pid : PowerPlantID) (dt_start : date_or_datetime) (n : Z) :
  get_pp_id id = inr pid ->
  0 <= n ->
  (inv_id pid <> None /\ power_keys_unique (power_table data)) \/ power_table data = [] ->
  exists f,
    prepare_history data id dt_start n false = inr f /\
    List.length (pf_rows f) = Z.to_nat n /\
    map p_dt (pf_rows f)
    = map (fun k => earliest_of dt_start - P_FREQUENCY_D * n + Z.of_nat k * P_FREQUENCY_D)
          (seq 0 (Z.to_nat n)) /\
    (forall row, In row (pf_rows f) ->
       p_pp_id row = Some (pp_id pid) /\
       p_inv_id row = Some (inv_id_or_aggregate pid) /\
       (~ stored_at (power_table data) pid (p_dt row) -> zero_filled row)).
Proof.
  intros Hid Hn Hcase.
  destruct (prepare_history_grid data id pid dt_start n Hid Hn) as [f [Hf [Hdt Hrows]]].
  - destruct Hcase as [[Hinv Hk]|Hempty].
    + destruct pid as [p [i|]]; [|exfalso; apply Hinv; reflexivity].
      apply power_query_inverter_NoDup, Hk.
    + rewrite Hempty. constructor.
  - exists f. split; [exact Hf|]. split; [|split; assumption].
    rewrite <- (length_map p_dt), Hdt, length_map, length_seq. reflexivity.
Qed.

(** The premises of the zero fill hold for the bare plant 1 over the empty
    power table, with the start 2021-01-01T00:00 and the count 3. *)
Lemma prepare_history_zero_fill_witness :
  exists f,
    prepare_history empty_data (IdInt 1) (DateTime t_2021_01_01) 3 false = inr f /\
    List.length (pf_rows f) = Z.to_nat 3 /\
    map p_dt (pf_rows f)
    = map (fun k => earliest_of (DateTime t_2021_01_01) - P_FREQUENCY_D * 3
                    + Z.of_nat k * P_FREQUENCY_D)
          (seq 0 (Z.to_nat 3)) /\
    (forall row, In row (pf_rows f) ->
       p_pp_id row = Some (pp_id (mkPowerPlantID 1 (Some (-1)))) /\
       p_inv_id row = Some (inv_id_or_aggregate (mkPowerPlantID 1 (Some (-1)))) /\
       (~ stored_at (power_table empty_data) (mkPowerPlantID 1 (Some (-1))) (p_dt row) ->
        zero_filled row)).
Proof.
  apply (prepare_history_zero_fill empty_data (IdInt 1) (mkPowerPlantID 1 (Some (-1)))
           (DateTime t_2021_01_01) 3).
  - reflexivity.
  - lia.
  - right. reflexivity.
Defined.

(** The scenario of the empty power table evaluated: three rows at 23:45,
    23:50 and 23:55 of 2020-12-31, zero power, not interpolated,
    extrapolated. *)
Lemma prepare_history_empty_table :
  exists f,
    prepare_history empty_data (IdInt 1) (DateTime t_2021_01_01) 3 false = inr f /\
    map p_dt (pf_rows f)
    = [t_2021_01_01 - 15 * minute; t_2021_01_01 - 10 * minute; t_2021_01_01 - 5 * minute] /\
    Forall (fun row => p_power_ac row = Some 0 /\ p_ipolated row = Some false /\
                       p_epolated row = Some true) (pf_rows f).
Proof.
  eexists. split; [vm_compute; reflexivity|].
  split; [reflexivity|]. repeat constructor.
Qed.

(** ** The checks of the evaluator *)

Lemma level_labels_unnamed (names : list (option string)) (s : string) :
  In (None, s) (level_labels names) -> String.eqb "power" s = false.
Proof.
  assert (Hz : forall (l : list (option string)) (m : list nat),
             In (None, s)
                (zip_with (fun o i => (o, match o with
                                          | Some s => s
                                          | None => String.append "level_" (digit i)
                                          end)) l m) ->
             String.eqb "power" s = false).
  { induction l as [|o l IH]; intros [|i m] H; simpl in H; try contradiction.
    destruct H as [H|H]; [|eapply IH, H].
    destruct o; [discriminate|]. injection H as <-. reflexivity. }
  unfold level_labels. destruct names as [|[n|] [|o names]]; try apply Hz.
  intros [H|[]]. injection H as <-. reflexivity.
Qed.

Lemma reset_index_power (df d : DataFrame) :
  reset_index df = inr d -> power_cells d = power_cells df.
Proof.
  unfold reset_index. destruct (existsb _ _); [discriminate|].
  intros H. injection H as <-. unfold power_cells. cbn [rows].
  apply zip_with_map_fst; [|apply length_seq].
  intros r i.
  assert (Hl : forall labels : list (option string * string),
             (forall s, In (None, s) labels -> String.eqb "power" s = false) ->
             fold_right (fun l r' => match fst l with
                                     | None => upd r' (snd l) (CInt (Z.of_nat i))
                                     | Some _ => r'
                                     end) r labels "power"%string = r "power"%string).
  { induction labels as [|[o s] labels IH]; intros Hs; simpl; [reflexivity|].
    destruct o as [n|].
    - apply IH. intros s' Hs'. apply Hs. right. exact Hs'.
    - unfold upd at 1. rewrite (Hs s) by (left; reflexivity).
      apply IH. intros s' Hs'. apply Hs. right. exact Hs'. }
  apply Hl. intros s. apply level_labels_unnamed.
Qed.

Lemma attach_ids_power (pp : option PowerPlantIDT) (df d : DataFrame) :
  attach_ids pp df = inr d -> power_cells d = power_cells df.
Proof.
  unfold attach_ids, bind. destruct (reset_index df) as [e|d1] eqn:E1; [discriminate|].
  destruct (assigned_ids pp) as [e|ids]; [discriminate|].
  unfold set_index. destruct (filter _ full_index); [|discriminate].
  intros H. injection H as <-. rewrite <- (reset_index_power df d1 E1).
  unfold power_cells. cbn [rows assign]. rewrite !map_map. reflexivity.
Qed.

Lemma power_cells_len (df d : DataFrame) :
  power_cells d = power_cells df -> len d = len df.
Proof.
  unfold power_cells, len. intros H. apply (f_equal (@List.length cell)) in H.
  rewrite !length_map in H. exact H.
Qed.

Lemma filter_length_lt {A} (f : A -> bool) (l : list A) (x : A) :
  In x l -> f x = false -> (List.length (filter f l) < List.length l)%nat.
Proof.
  induction l as [|y l IH]; simpl; intros Hin Hf; [contradiction|].
  pose proof (filter_length_le f l).
  destruct Hin as [->|Hin].
  - rewrite Hf. lia.
  - specialize (IH Hin Hf). destruct (f y); simpl; lia.
Qed.

Lemma count_missing (df : DataFrame) :
  In CNaN (power_cells df) -> Nat.eqb (count "power" df) (len df) = false.
Proof.
  unfold power_cells, count, len. intros H.
  apply in_map_iff in H. destruct H as [r [Hr Hin]].
  apply Nat.eqb_neq. intros E.
  pose proof (filter_length_lt (fun r => negb (is_missing (r "power"%string)))
                (rows df) r Hin) as Hlt.
  assert (Hm : negb (is_missing (r "power"%string)) = false) by (rewrite Hr; reflexivity).
  specialize (Hlt Hm). lia.
Qed.

Lemma count_power_cells (df : DataFrame) :
  count "power" df
  = List.length (filter (fun c => negb (is_missing c)) (power_cells df)).
Proof.
  unfold count, power_cells. induction (rows df) as [|r l IH]; [reflexivity|].
  cbn [filter map]. destruct (negb (is_missing (r "power"%string))); cbn [List.length];
    rewrite IH; reflexivity.
Qed.

Lemma mem_app (n : string) (l k : list string) : mem n (l ++ k) = mem n l || mem n k.
Proof. apply existsb_app. Qed.

Lemma filter_not_keys (cols : list string) :
  mem "pp_id" cols = false -> mem "inv_id" cols = false -> mem "dt" cols = false ->
  filter (fun c => negb (mem c full_index)) cols = cols.
Proof.
  induction cols as [|c cols IH]; [reflexivity|]. cbn [mem existsb].
  intros H1 H2 H3.
  apply orb_false_iff in H1; destruct H1 as [E1 H1].
  apply orb_false_iff in H2; destruct H2 as [E2 H2].
  apply orb_false_iff in H3; destruct H3 as [E3 H3].
  cbn [filter]. unfold mem at 1, full_index. cbn [existsb].
  rewrite (String.eqb_sym c "pp_id"), (String.eqb_sym c "inv_id"),
    (String.eqb_sym c "dt"), E1, E2, E3.
  cbn [orb negb]. f_equal. apply IH; assumption.
Qed.

Lemma set_index_full (df : DataFrame) :
  mem "pp_id" (columns df) = true -> mem "inv_id" (columns df) = true ->
  mem "dt" (columns df) = true ->
  set_index full_index df
  = inr (mkDataFrame (map Some full_index)
           (filter (fun c => negb (mem c full_index)) (columns df)) (rows df)).
Proof.
  intros H1 H2 H3. unfold set_index, full_index. cbn [filter].
  rewrite H1, H2, H3. reflexivity.
Qed.

Lemma mem_assign (n name : string) (v : cell) (df : DataFrame) :
  mem n (columns (assign name v df)) = mem n (columns df) || String.eqb n name.
Proof.
  cbn [assign columns]. destruct (mem name (columns df)) eqn:E.
  - destruct (String.eqb n name) eqn:En; [|rewrite orb_false_r; reflexivity].
    apply String.eqb_eq in En. subst n. rewrite E. reflexivity.
  - rewrite mem_app. cbn [mem existsb]. rewrite orb_false_r. reflexivity.
Qed.

Lemma filter_keys_assign (name : string) (v : cell) (df : DataFrame) :
  mem name full_index = true ->
  filter (fun c => negb (mem c full_index)) (columns (assign name v df))
  = filter (fun c => negb (mem c full_index)) (columns df).
Proof.
  intros Hk. cbn [assign columns]. destruct (mem name (columns df)); [reflexivity|].
  rewrite filter_app. cbn [filter]. rewrite Hk. cbn [negb]. apply app_nil_r.
Qed.

Lemma filter_key_cons (k : string) (cols : list string) :
  mem k full_index = true ->
  filter (fun c => negb (mem c full_index)) (k :: cols)
  = filter (fun c => negb (mem c full_index)) cols.
Proof. intros Hk. cbn [filter]. rewrite Hk. reflexivity. Qed.

Lemma mem_head (k : string) (cols : list string) : mem k (k :: cols) = true.
Proof. unfold mem. cbn [existsb]. rewrite String.eqb_refl. reflexivity. Qed.

Lemma mem_tail (n k : string) (cols : list string) :
  mem n cols = true -> mem n (k :: cols) = true.
Proof. unfold mem. cbn [existsb]. intros ->. apply orb_true_r. Qed.

(** On a frame indexed as documented, with the identity left out or given
    as a [PowerPlantID], the identity levels are attached without an error
    and leave the columns as they are. *)
Lemma attach_ids_documented (pp : option PowerPlantIDT) (df : DataFrame) :
  indexed_as_documented df -> given_as_object pp ->
  exists d, attach_ids pp df = inr d /\
            index_names d = [Some "pp_id"; Some "inv_id"; Some "dt"]%string /\
            columns d = columns df.
Proof.
  intros [Hidx [H1 [H2 H3]]] Hpp.
  assert (Hids : exists ids, assigned_ids pp = inr ids).
  { destruct Hpp as [->|[o ->]]; eexists; reflexivity. }
  destruct Hids as [ids Hids].
  unfold attach_ids, reset_index, bind.
  destruct Hidx as [Hi|Hi]; rewrite Hi;
    cbn [level_labels zip_with seq List.length existsb snd fst map];
    rewrite ?H1, ?H2, ?H3; cbn [orb ret]; rewrite Hids;
    (rewrite set_index_full;
     [|rewrite !mem_assign; cbn [columns app];
       rewrite ?String.eqb_refl, ?orb_true_r;
       try reflexivity; repeat (apply mem_head || apply mem_tail)..]);
    (eexists; split; [reflexivity|]; split; [reflexivity|]; cbn [columns]);
    rewrite !filter_keys_assign by reflexivity; cbn [columns app];
    rewrite !filter_key_cons by reflexivity;
    apply (filter_not_keys _ H1 H2 H3).
Qed.

Lemma lacks_ids_full (d : DataFrame) :
  index_names d = [Some "pp_id"; Some "inv_id"; Some "dt"]%string -> lacks_ids d = false.
Proof. unfold lacks_ids, in_index_names. intros ->. reflexivity. Qed.

(** The first step of [evaluate_prediction] on a frame indexed as
    documented: the RuntimeError of the missing indices, or a frame with
    the identity in its index and the columns and power cells of the frame
    that was supplied. *)
Lemma prediction_stage_documented (pp : option PowerPlantIDT) (df : DataFrame) :
  indexed_as_documented df -> given_as_object pp ->
  let stage := if lacks_ids df
               then if is_none pp && negb (Nat.eqb (len df) 0)
                    then raise (RuntimeError "Prediction frame is missing indices!")
                    else attach_ids pp df
               else ret df in
  (stage = inl (RuntimeError "Prediction frame is missing indices!") /\
   pp = None /\ lacks_ids df = true) \/
  (exists d, stage = inr d /\ indexed_as_documented d /\ lacks_ids d = false /\
             columns d = columns df /\ power_cells d = power_cells df).
Proof.
  intros Hdoc Hpp. cbv zeta.
  destruct (lacks_ids df) eqn:L.
  - destruct (is_none pp && negb (Nat.eqb (len df) 0)) eqn:C.
    + left. split; [reflexivity|]. split; [|reflexivity].
      destruct pp; [discriminate C | reflexivity].
    + right. destruct (attach_ids_documented pp df Hdoc Hpp) as [d [E [Hi Hc]]].
      exists d. split; [exact E|].
      destruct Hdoc as [_ [H1 [H2 H3]]].
      split; [split; [left; exact Hi | rewrite Hc; auto]|].
      split; [apply lacks_ids_full, Hi|]. split; [exact Hc|].
      apply attach_ids_power in E. exact E.
  - right. exists df. repeat split; try reflexivity; try apply Hdoc. exact L.
Qed.

(** The second step: the RuntimeError of the missing indices of the
    history, or a history frame. *)
Lemma history_stage_documented (pp : option PowerPlantIDT) (c : bool)
    (pred history_df : DataFrame) :
  indexed_as_documented pred -> given_as_object pp ->
  let stage := if lacks_ids history_df
               then if is_none pp && c
                    then raise (RuntimeError "History frame is missing indices!")
                    else attach_ids pp pred
               else ret history_df in
  (stage = inl (RuntimeError "History frame is missing indices!") /\
   pp = None /\ lacks_ids history_df = true /\ c = true) \/
  (exists h, stage = inr h).
Proof.
  intros Hdoc Hpp. cbv zeta.
  destruct (lacks_ids history_df).
  - destruct (is_none pp && c) eqn:C.
    + left. apply andb_prop in C. destruct C as [C1 C2].
      repeat split; try reflexivity; [|exact C2].
      destruct pp; [discriminate C1 | reflexivity].
    + right. destruct (attach_ids_documented pp pred Hdoc Hpp) as [d [E _]].
      exists d. exact E.
  - right. eexists. reflexivity.
Qed.

Section EvaluatorChecks.

Context (dict : Type).
Context (ep : PowerPlantID -> DataFrame -> option datetime -> option datetime ->
              string -> bool -> result dict).
Context (ew : PowerPlantID -> DataFrame -> option datetime -> option datetime ->
              result dict).

(** The frame that the checks run on has the power cells, hence the length,
    of the frame that was supplied. *)
Lemma indexed_frame_power (pp : option PowerPlantIDT) (c : bool) (e : exn)
    (df d : DataFrame) :
  (if lacks_ids df then if c then raise e else attach_ids pp df else ret df) = inr d ->
  power_cells d = power_cells df.
Proof.
  destruct (lacks_ids df).
  - destruct c; [discriminate|]. apply attach_ids_power.
  - intros H. injection H as <-. reflexivity.
Qed.

(** Up to the check of the weather length, a call on a frame indexed as
    documented ends in a RuntimeError or reaches the check with a frame
    that has the columns and the power cells of the prediction frame. *)
Lemma checks_documented (prediction_df : DataFrame) (prediction_type : string)
    (history_df weather_df : DataFrame) (pp : option PowerPlantIDT) :
  indexed_as_documented prediction_df -> given_as_object pp ->
  let call := evaluate_prediction dict ep ew prediction_df prediction_type
                history_df weather_df pp in
  (call = inl (RuntimeError "Prediction frame is missing indices!") /\
   pp = None /\ lacks_ids prediction_df = true) \/
  (call = inl (RuntimeError "History frame is missing indices!") /\
   pp = None /\ lacks_ids history_df = true /\ len history_df <> 0%nat) \/
  (mem "power" (columns prediction_df) = false /\
   call = inl (RuntimeError "Provided prediction DataFrame does not contain power column!")) \/
  (mem "power" (columns prediction_df) = true /\
   count "power" prediction_df <> len prediction_df /\
   call = inl (RuntimeError
                 "Provided prediction DataFrame contains NaN or other invalid values!")) \/
  (mem "power" (columns prediction_df) = true /\
   count "power" prediction_df = len prediction_df /\
   (len weather_df <> 0%nat -> len weather_df <> len prediction_df ->
    call = inl (RuntimeError "Prediction and Weather DataFrames are not the same length!"))).
Proof.
  intros Hdoc Hpp. cbv zeta.
  unfold evaluate_prediction, bind.
  destruct (prediction_stage_documented pp prediction_df Hdoc Hpp)
    as [[E1 [Hnone L]]|[pred [E1 [Hdoc' [L' [Hc Hp]]]]]]; cbv zeta in E1; rewrite E1.
  { left. auto. }
  destruct (history_stage_documented pp (negb (Nat.eqb (len history_df) 0))
              pred history_df Hdoc' Hpp)
    as [[E2 [Hnone [L C]]]|[h E2]]; cbv zeta in E2; rewrite E2.
  { right. left. repeat split; auto.
    intros E. rewrite E in C. discriminate C. }
  right. right. rewrite Hc.
  assert (Hcount : count "power" pred = count "power" prediction_df).
  { rewrite !count_power_cells, Hp. reflexivity. }
  assert (Hlen : len pred = len prediction_df) by (apply power_cells_len, Hp).
  rewrite Hcount, Hlen.
  destruct (mem "power" (columns prediction_df)); cbn [negb]; [|left; auto].
  right.
  destruct (Nat.eqb (count "power" prediction_df) (len prediction_df)) eqn:C; cbn [negb].
  - right. apply Nat.eqb_eq in C. repeat split; auto.
    intros Hne Hneq. apply Nat.eqb_neq in Hne. apply Nat.eqb_neq in Hneq.
    rewrite Hne, Hneq. reflexivity.
  - left. apply Nat.eqb_neq in C. auto.
Qed.

(** C9, amended. Whenever the power column of the prediction frame holds a
    missing value, [evaluate_prediction] ends in an exception and returns
    no statistics.  When the frame is indexed as documented, by
    [(pp_id, inv_id, dt)] or by [dt] with no column of these names, and the
    identity is left out or given as a [PowerPlantID], the exception is a
    data-contract error, a RuntimeError, whatever history is given, the
    default empty one included: the RuntimeError of the check of the power
    column, unless the identity is left out and the prediction frame or a
    history frame that is not empty has no identity in its index, which is
    refused earlier with the RuntimeError of the missing indices. *)
Theorem evaluate_prediction_rejects_missing_power (prediction_df : DataFrame)
    (prediction_type : string) (history_df weather_df : DataFrame)
    (pp : option PowerPlantIDT) :
  mem "power" (columns prediction_df) = true ->
  (exists r, In r (rows prediction_df) /\ r "power"%string = CNaN) ->
  raises (evaluate_prediction dict ep ew prediction_df prediction_type
            history_df weather_df pp) /\
  (indexed_as_documented prediction_df -> given_as_object pp ->
   data_contract_error (evaluate_prediction dict ep ew prediction_df prediction_type
                          history_df weather_df pp) /\
   (pp <> None \/
    (lacks_ids prediction_df = false /\
     (lacks_ids history_df = false \/ len history_df = 0%nat)) ->
    evaluate_prediction dict ep ew prediction_df prediction_type history_df weather_df pp
    = inl (RuntimeError
             "Provided prediction DataFrame contains NaN or other invalid values!"))).
Proof.
  intros Hcol [r [Hin Hnan]].
  assert (Hcell : In CNaN (power_cells prediction_df)).
  { unfold power_cells. rewrite <- Hnan. apply (in_map (fun r => r "power"%string)), Hin. }
  pose proof (count_missing prediction_df Hcell) as Hcount.
  apply Nat.eqb_neq in Hcount.
  split.
  - unfold evaluate_prediction, bind.
    destruct (if lacks_ids prediction_df then _ else _) as [e|pred] eqn:E1;
      [eexists; reflexivity|].
    destruct (if lacks_ids history_df then _ else _) as [e|hist] eqn:E2;
      [eexists; reflexivity|].
    apply indexed_frame_power in E1.
    destruct (negb (mem "power" (columns pred))); [eexists; reflexivity|].
    rewrite count_missing by (rewrite E1; exact Hcell).
    eexists. reflexivity.
  - intros Hdoc Hpp.
    pose proof (checks_documented prediction_df prediction_type history_df weather_df pp
                  Hdoc Hpp) as Hchecks.
    cbv zeta in Hchecks.
    destruct Hchecks as [[E [Hn L]]|[[E [Hn [L Hh]]]|[[C _]|[[_ [_ E]]|[_ [C _]]]]]];
      try congruence.
    + split; [eexists; exact E|].
      intros [Hne|[L' _]]; congruence.
    + split; [eexists; exact E|].
      intros [Hne|[_ [L'|Hl]]]; congruence.
    + split; [eexists; exact E|]. intros _. exact E.
Qed.

End EvaluatorChecks.

(** The premises of the amended C9 hold for the prediction of two rows
    whose second power is missing, without an identity and with the default
    empty history. *)
Lemma evaluate_prediction_rejects_missing_power_witness :
  raises (evaluate_prediction unit unit_power unit_weather prediction_with_gap "power_ac"
            empty_frame empty_frame None) /\
  data_contract_error
    (evaluate_prediction unit unit_power unit_weather prediction_with_gap "power_ac"
       empty_frame empty_frame None) /\
  evaluate_prediction unit unit_power unit_weather prediction_with_gap "power_ac"
    empty_frame empty_frame None
  = inl (RuntimeError "Provided prediction DataFrame contains NaN or other invalid values!").
Proof.
  destruct (evaluate_prediction_rejects_missing_power unit unit_power unit_weather
              prediction_with_gap "power_ac" empty_frame empty_frame None)
    as [Hraises Hdoc].
  - reflexivity.
  - exists (power_frame_row (t_2021_01_01 + 5 * minute) CNaN).
    split; [right; left; reflexivity | reflexivity].
  - destruct Hdoc as [Herr Hmsg].
    + split; [left; reflexivity | repeat split; reflexivity].
    + left. reflexivity.
    + split; [exact Hraises|]. split; [exact Herr|].
      apply Hmsg. right. split; [reflexivity | right; reflexivity].
Defined.

(** C9 fails as stated: a prediction frame indexed by [(pp_id, inv_id)]
    only, whose power is missing, handed over with the default history and
    without an identity, ends in the KeyError of the missing ["dt"] and not
    in a data-contract error. *)
Lemma evaluate_prediction_missing_power_key_error :
  mem "power" (columns prediction_without_dt) = true /\
  (exists r, In r (rows prediction_without_dt) /\ r "power"%string = CNaN) /\
  evaluate_prediction unit unit_power unit_weather prediction_without_dt "power_ac"
    empty_frame empty_frame None
  = inl (KeyError "dt") /\
  ~ data_contract_error
      (evaluate_prediction unit unit_power unit_weather prediction_without_dt "power_ac"
         empty_frame empty_frame None).
Proof.
  split; [reflexivity|].
  split; [eexists; split; [left; reflexivity | reflexivity]|].
  split; [vm_compute; reflexivity|].
  intros [msg H]. vm_compute in H. discriminate H.
Qed.

(** The prediction with the missing power is refused with the RuntimeError
    of the check, also when no history is given. *)
Lemma prediction_with_gap_refused :
  evaluate_prediction unit unit_power unit_weather prediction_with_gap "power_ac"
    empty_frame empty_frame None
  = inl (RuntimeError "Provided prediction DataFrame contains NaN or other invalid values!").
Proof. vm_compute. reflexivity. Qed.

(** C10 fails as stated: a history frame of three rows from 23:45 to 23:55
    is accepted along with a prediction of two rows at 00:00 and 00:05, and
    the history statistics are computed on it. *)
Lemma evaluate_prediction_accepts_other_history :
  len history_of_three_rows <> len prediction_complete /\
  evaluate_prediction unit unit_power unit_weather prediction_complete "power_ac"
    history_of_three_rows empty_frame None
  = inr (mkStats unit tt None (Some tt)) /\
  ~ (forall dict ep ew,
       raises (evaluate_prediction dict ep ew prediction_complete "power_ac"
                 history_of_three_rows empty_frame None)).
Proof.
  split; [discriminate|].
  split; [vm_compute; reflexivity|].
  intros H. destruct (H unit unit_power unit_weather) as [e He].
  vm_compute in He. discriminate He.
Qed.

(** The time span of a weather frame is not compared either: its index is
    replaced by the index of the prediction frame before the spans are
    looked at, so a weather frame of the right length is accepted whatever
    instants it was indexed by. *)
Lemma weather_time_span_not_compared :
  evaluate_prediction unit unit_power unit_weather prediction_complete "power_ac"
    empty_frame
    (mkDataFrame [Some "pp_id"; Some "dt"]%string ["temp"%string]
       (map (fun k => fun c => if String.eqb c "pp_id" then CInt 1
                               else if String.eqb c "dt"
                                    then CTime (t_2021_01_01 + 7 * day + Z.of_nat k * hour)
                                    else CNum (10 # 1))
            (seq 0 2)))
    None
  = inr (mkStats unit tt (Some tt) None).
Proof. vm_compute. reflexivity. Qed.

Section EvaluatorLengths.

Context (dict : Type).
Context (ep : PowerPlantID -> DataFrame -> option datetime -> option datetime ->
              string -> bool -> result dict).
Context (ew : PowerPlantID -> DataFrame -> option datetime -> option datetime ->
              result dict).

(** C10, amended. [evaluate_prediction] ends in an exception, and computes
    no statistics, whenever a supplied weather frame that is not empty
    differs from the prediction frame in its number of rows; when the
    prediction frame is indexed as documented and the identity is left out
    or given as a [PowerPlantID], the exception is a data-contract error, a
    RuntimeError, whatever history is given: the RuntimeError of the length
    check when the power column is there and complete, unless the identity
    is left out and a frame has no identity in its index.  A history frame
    is not compared with the prediction frame: when the call without a
    history returns statistics, the call with any history frame that is not
    empty and has the identity in its index returns the same power and
    weather statistics, with the statistics of the history over its own
    time span, or ends in the exception of the history alone: its missing
    power column or its evaluation. *)
Theorem evaluate_prediction_rejects_weather_length (prediction_df : DataFrame)
    (prediction_type : string) (pp : option PowerPlantIDT) :
  (forall history_df weather_df : DataFrame,
     len weather_df <> 0%nat ->
     len weather_df <> len prediction_df ->
     raises (evaluate_prediction dict ep ew prediction_df prediction_type
               history_df weather_df pp) /\
     (indexed_as_documented prediction_df -> given_as_object pp ->
      data_contract_error (evaluate_prediction dict ep ew prediction_df prediction_type
                             history_df weather_df pp) /\
      (mem "power" (columns prediction_df) = true ->
       count "power" prediction_df = len prediction_df ->
       pp <> None \/
       (lacks_ids prediction_df = false /\
        (lacks_ids history_df = false \/ len history_df = 0%nat)) ->
       evaluate_prediction dict ep ew prediction_df prediction_type
         history_df weather_df pp
       = inl (RuntimeError "Prediction and Weather DataFrames are not the same length!")))) /\
  (forall (weather_df : DataFrame) (s : stats dict),
     evaluate_prediction dict ep ew prediction_df prediction_type
       empty_frame weather_df pp = inr s ->
     exists p : PowerPlantID,
       forall history_df : DataFrame,
         lacks_ids history_df = false ->
         len history_df <> 0%nat ->
         evaluate_prediction dict ep ew prediction_df prediction_type
           history_df weather_df pp
         = let h := if mem prediction_type (columns history_df)
                       && negb (mem "power" (columns history_df))
                    then rename_column prediction_type "power" history_df
                    else history_df in
           if negb (mem "power" (columns h))
           then inl (RuntimeError "Provided history DataFrame does not contain power column!")
           else d <- _evaluate_history dict ep p h None None prediction_type ;;
                ret (mkStats dict (stats_power dict s) (stats_weather dict s) (Some d))).
Proof.
  split.
  - intros history_df weather_df Hne Hlen. split.
    + apply Nat.eqb_neq in Hne. apply Nat.eqb_neq in Hlen.
      unfold evaluate_prediction, bind.
      destruct (if lacks_ids prediction_df then _ else _) as [e|pred] eqn:E1;
        [eexists; reflexivity|].
      destruct (if lacks_ids history_df then _ else _) as [e|hist] eqn:E2;
        [eexists; reflexivity|].
      apply indexed_frame_power, power_cells_len in E1.
      destruct (negb (mem "power" (columns pred))); [eexists; reflexivity|].
      destruct (negb (Nat.eqb (count "power" pred) (len pred))); [eexists; reflexivity|].
      rewrite Hne, E1, Hlen. eexists. reflexivity.
    + intros Hdoc Hpp.
      pose proof (checks_documented dict ep ew prediction_df prediction_type history_df
                    weather_df pp Hdoc Hpp) as Hchecks.
      cbv zeta in Hchecks.
      destruct Hchecks
        as [[E [Hn L]]|[[E [Hn [L Hh]]]|[[C E]|[[C [Hc E]]|[C [Hc E]]]]]].
      * split; [eexists; exact E|]. intros _ _ [H|[H _]]; congruence.
      * split; [eexists; exact E|]. intros _ _ [H|[_ [H|H]]]; congruence.
      * split; [eexists; exact E|]. congruence.
      * split; [eexists; exact E|]. congruence.
      * specialize (E Hne Hlen). split; [eexists; exact E|]. intros _ _ _. exact E.
  - intros weather_df s H.
    unfold evaluate_prediction, bind in H. cbv zeta in H.
    change (lacks_ids empty_frame) with true in H.
    change (Nat.eqb (len empty_frame) 0) with true in H.
    cbn [negb] in H. rewrite andb_false_r in H.
    destruct (if lacks_ids prediction_df then _ else _) as [e|pred] eqn:E1;
      [discriminate|].
    destruct (attach_ids pp pred) as [e|hist] eqn:E2; [discriminate|].
    destruct (negb (mem "power" (columns pred))) eqn:C1; [discriminate|].
    destruct (negb (Nat.eqb (count "power" pred) (len pred))) eqn:C2; [discriminate|].
    destruct (if negb (Nat.eqb (len weather_df) 0) then _ else _) as [e|w] eqn:E3;
      [discriminate|].
    cbn [ret] in H.
    destruct (get_level_values "pp_id" pred) as [e|ppl] eqn:E4; [discriminate|].
    destruct (get_level_values "inv_id" pred) as [e|invl] eqn:E5; [discriminate|].
    destruct (unique ppl) as [|p0 [|? ?]] eqn:U1; try discriminate.
    destruct (unique invl) as [|i0 [|? ?]] eqn:U2; try discriminate.
    destruct (int_of_cell p0) as [e|pz] eqn:E6; [discriminate|].
    destruct (int_of_cell i0) as [e|iz] eqn:E7; [discriminate|].
    destruct (get_level_values "dt" pred) as [e|dts] eqn:E8; [discriminate|].
    destruct (if negb (Nat.eqb (len weather_df) 0) then _
              else ret (level_min dts, level_max dts))
      as [e|[ws we]] eqn:E9; [discriminate|].
    destruct (negb (Nat.eqb (len weather_df) 0) && _) eqn:C3; [discriminate|].
    destruct (ep _ pred _ _ _ false) as [e|sp] eqn:E10; [discriminate|].
    destruct (if negb (Nat.eqb (len weather_df) 0) then _ else ret None)
      as [e|sw] eqn:E11; [discriminate|].
    injection H as <-.
    exists (mkPowerPlantID pz (Some iz)). intros history_df L Hlen.
    apply Nat.eqb_neq in Hlen.
    unfold evaluate_prediction, bind. cbv zeta.
    rewrite E1, L, C1, C2, E3, Hlen. cbn [negb ret].
    destruct (mem prediction_type (columns history_df)
              && negb (mem "power" (columns history_df)));
      [destruct (negb (mem "power"
                         (columns (rename_column prediction_type "power" history_df))))
      |destruct (negb (mem "power" (columns history_df)))];
      try reflexivity;
      rewrite E4, E5, U1, U2, E6, E7, E8, E9, C3, E10, E11;
      unfold _evaluate_history, bind, ret; cbv beta iota;
      match goal with
      | |- context [get_level_values "dt" ?h] =>
          destruct (get_level_values "dt" h); [reflexivity|]
      end;
      match goal with
      | |- context [ep ?a ?b ?c ?d ?t true] => destruct (ep a b c d t true)
      end;
      reflexivity.
Qed.

End EvaluatorLengths.

(** The premises of the amended C10 hold for the prediction of two rows:
    with the weather frame of three rows and the default empty history, and
    with the history of three rows from 23:45 to 23:55. *)
Lemma evaluate_prediction_rejects_weather_length_witness :
  (raises (evaluate_prediction unit unit_power unit_weather prediction_complete "power_ac"
             empty_frame weather_of_three_rows None) /\
   data_contract_error
     (evaluate_prediction unit unit_power unit_weather prediction_complete "power_ac"
        empty_frame weather_of_three_rows None) /\
   evaluate_prediction unit unit_power unit_weather prediction_complete "power_ac"
     empty_frame weather_of_three_rows None
   = inl (RuntimeError "Prediction and Weather DataFrames are not the same length!")) /\
  (exists p : PowerPlantID,
     evaluate_prediction unit unit_power unit_weather prediction_complete "power_ac"
       history_of_three_rows empty_frame None
     = (d <- _evaluate_history unit unit_power p history_of_three_rows None None
               "power_ac" ;;
        ret (mkStats unit tt None (Some d)))).
Proof.
  destruct (evaluate_prediction_rejects_weather_length unit unit_power unit_weather
              prediction_complete "power_ac" None) as [HA HB].
  split.
  - destruct (HA empty_frame weather_of_three_rows) as [Hraises Hdoc];
      [discriminate | discriminate |].
    destruct Hdoc as [Herr Hmsg].
    + split; [left; reflexivity | repeat split; reflexivity].
    + left. reflexivity.
    + split; [exact Hraises|]. split; [exact Herr|].
      apply Hmsg; [reflexivity | reflexivity |].
      right. split; [reflexivity | right; reflexivity].
  - destruct (HB empty_frame (mkStats unit tt None None) eq_refl) as [p Hp].
    exists p. apply (Hp history_of_three_rows); [reflexivity | discriminate].
Defined.

(** * Further properties of the data source *)

(** ** The batched dump *)

Lemma firstn_plus {A} (n m : nat) (l : list A) :
  firstn (n + m) l = firstn n l ++ firstn m (skipn n l).
Proof.
  revert l. induction n as [|n IH]; intros [|x l]; simpl; try reflexivity.
  - rewrite firstn_nil. reflexivity.
  - f_equal. apply IH.
Qed.

Lemma dump_table_from {A} (fuel : nat) (table : list A) (batch_size fetched : Z) :
  0 < batch_size -> 0 <= fetched ->
  Z.of_nat (List.length table) - fetched <= Z.of_nat fuel ->
  dump_table fuel table batch_size fetched (firstn (Z.to_nat fetched) table) = Some table.
Proof.
  intros Hb. revert fetched. induction fuel as [|fuel IH]; intros k Hk Hfuel.
  - simpl. destruct (k <? Z.of_nat (List.length table)) eqn:E.
    + apply Z.ltb_lt in E. lia.
    + apply Z.ltb_ge in E. rewrite firstn_all2 by lia. reflexivity.
  - cbn [dump_table]. destruct (k <? Z.of_nat (List.length table)) eqn:E.
    + rewrite <- firstn_plus, <- Z2Nat.inj_add by lia.
      apply IH; lia.
    + apply Z.ltb_ge in E. rewrite firstn_all2 by lia. reflexivity.
Qed.

Lemma dump_table_all {A} (fuel : nat) (table : list A) (batch_size : Z) :
  0 < batch_size -> (List.length table <= fuel)%nat ->
  dump_table fuel table batch_size 0 [] = Some table.
Proof.
  intros Hb Hf. apply (dump_table_from fuel table batch_size 0); lia.
Qed.

(** X1. With a positive batch size and enough fuel for the longest table,
    [dump_as_sqlite] is refused with a ValueError when the file exists and
    may not be overwritten, and otherwise copies the four tables exactly:
    every record once, in the order of the source, whatever the batch
    size. *)
Theorem dump_as_sqlite_copies (fuel : nat) (src : database) (is_file overwrite : bool)
    (batch_size : Z) :
  0 < batch_size ->
  (List.length (db_power src) <= fuel)%nat ->
  (List.length (db_weather src) <= fuel)%nat ->
  (List.length (db_exogenous src) <= fuel)%nat ->
  (List.length (db_meta src) <= fuel)%nat ->
  dump_as_sqlite fuel src is_file overwrite batch_size
  = if is_file && negb overwrite
    then inl (ValueError "Database already exists and overwrite is False!")
    else inr (Some src).
Proof.
  intros Hb Hp Hw He Hm. unfold dump_as_sqlite.
  destruct (is_file && negb overwrite); [reflexivity|].
  rewrite !dump_table_all by assumption.
  destruct src; reflexivity.
Qed.

(** The premises of X1 hold for the small database, batches of 2 and fuel
    for 13 rounds. *)
Lemma dump_as_sqlite_copies_witness :
  dump_as_sqlite 13 small_database true true 2
  = if true && negb true
    then inl (ValueError "Database already exists and overwrite is False!")
    else inr (Some small_database).
Proof.
  apply (dump_as_sqlite_copies 13 small_database true true 2).
  - lia.
  - simpl. lia.
  - simpl. lia.
  - simpl. lia.
  - simpl. lia.
Defined.

(** ** Enumerating the inverters *)

Lemma insert_by_sorted_on {A} (le : A -> A -> bool) (R : A -> A -> Prop)
    (P : A -> Prop) (x : A) (l : list A) :
  (forall a b, P a -> P b -> le a b = true -> R a b) ->
  (forall a b, P a -> P b -> le a b = false -> R b a) ->
  (forall a b c, P a -> P b -> P c -> R a b -> R b c -> R a c) ->
  P x -> Forall P l -> StronglySorted R l -> StronglySorted R (insert_by le x l).
Proof.
  intros Hle Hgt Htr Px Pl Hs. induction Hs as [|y l Hl IH Hy]; simpl.
  - constructor; constructor.
  - inversion Pl as [|? ? Py Pl']; subst.
    rewrite Forall_forall in Hy, Pl'.
    destruct (le x y) eqn:E.
    + constructor; [constructor; [assumption | apply Forall_forall; assumption]|].
      constructor; [apply Hle; assumption|].
      apply Forall_forall. intros z Hz. apply (Htr x y z); auto.
    + constructor; [apply IH; apply Forall_forall; assumption|].
      apply Forall_forall. intros z Hz.
      apply (Permutation_in _ (insert_by_perm le x l)) in Hz.
      destruct Hz as [<-|Hz]; [apply Hgt; assumption | auto].
Qed.

Lemma order_by_sorted_on {A} (le : A -> A -> bool) (R : A -> A -> Prop)
    (P : A -> Prop) (l : list A) :
  (forall a b, P a -> P b -> le a b = true -> R a b) ->
  (forall a b, P a -> P b -> le a b = false -> R b a) ->
  (forall a b c, P a -> P b -> P c -> R a b -> R b c -> R a c) ->
  Forall P l -> StronglySorted R (order_by le l).
Proof.
  intros Hle Hgt Htr Pl. induction Pl as [|x l Px Pl IH]; simpl; [constructor|].
  apply (insert_by_sorted_on le R P); auto.
  apply Forall_forall. intros y Hy. apply in_order_by in Hy.
  rewrite Forall_forall in Pl. auto.
Qed.

Lemma lt_false_id_le (a b : PowerPlantID) (i j : Z) :
  inv_id a = Some i -> inv_id b = Some j ->
  PowerPlantID_lt b a = false -> id_le a b.
Proof.
  unfold PowerPlantID_lt, id_le. intros Ha Hb H. rewrite Ha, Hb in H.
  apply orb_false_iff in H. destruct H as [H1 H2].
  apply Z.ltb_ge in H1. apply andb_false_iff in H2.
  destruct H2 as [H2|H2].
  - apply Z.eqb_neq in H2. left. lia.
  - apply Z.ltb_ge in H2.
    destruct (Z.eq_dec (pp_id a) (pp_id b)) as [E|E]; [|left; lia].
    right. split; [exact E|]. exists i, j. auto.
Qed.

Lemma lt_true_id_le (a b : PowerPlantID) (i j : Z) :
  inv_id a = Some i -> inv_id b = Some j ->
  PowerPlantID_lt a b = true -> id_le a b.
Proof.
  unfold PowerPlantID_lt, id_le. intros Ha Hb H. rewrite Ha, Hb in H.
  apply orb_true_iff in H. destruct H as [H|H].
  - apply Z.ltb_lt in H. left. exact H.
  - apply andb_true_iff in H. destruct H as [H1 H2].
    apply Z.eqb_eq in H1. apply Z.ltb_lt in H2.
    right. split; [exact H1|]. exists i, j. repeat split; auto. lia.
Qed.

Lemma id_le_trans (a b c : PowerPlantID) : id_le a b -> id_le b c -> id_le a c.
Proof.
  unfold id_le. intros [H1|[H1 [i [j [Hi [Hj Hij]]]]]] [H2|[H2 [j' [k [Hj' [Hk Hjk]]]]]].
  - left. lia.
  - left. lia.
  - left. lia.
  - right. split; [lia|]. exists i, k. rewrite Hj in Hj'. injection Hj' as <-.
    repeat split; auto. lia.
Qed.

(** X2. [list_pp_inverters] returns the identities of the meta records, of
    all plants or of the given plant, each as often as the table holds it,
    sorted by plant and then by inverter; it fails only where the identity
    does not resolve. *)
Theorem list_pp_inverters_sorted (meta : list SolarMetaTable) (pp : option PowerPlantIDT) :
  match resolve_opt pp with
  | inl e => list_pp_inverters meta pp = inl e
  | inr p =>
      exists ids,
        list_pp_inverters meta pp = inr ids /\
        Permutation ids
          (map meta_id (filter (fun r => when_set p (fun o => mt_pp_id r =? pp_id o)) meta)) /\
        StronglySorted id_le ids
  end.
Proof.
  unfold list_pp_inverters, bind. destruct (resolve_opt pp) as [e|p]; [reflexivity|].
  eexists. split; [reflexivity|]. split; [apply order_by_perm|].
  unfold sort_ids.
  apply (order_by_sorted_on _ id_le (fun a => exists i, inv_id a = Some i)).
  - intros a b [i Hi] [j Hj] H. apply negb_true_iff in H.
    eapply lt_false_id_le; eauto.
  - intros a b [i Hi] [j Hj] H. apply negb_false_iff in H.
    eapply lt_true_id_le; eauto.
  - intros a b c _ _ _. apply id_le_trans.
  - apply Forall_forall. intros a Ha. apply in_map_iff in Ha.
    destruct Ha as [r [<- _]]. eexists. reflexivity.
Qed.

(** ** Existence and interval of a plant *)

(** X3. [pp_exists] answers true exactly when the identity has a power
    record and the meta table is not empty: the query selects from the
    product of the two tables, so over an empty meta table it answers false
    whatever the power table holds. *)
Theorem pp_exists_product (meta : list SolarMetaTable) (power : list SolarPowerTable)
    (pp : PowerPlantIDT) (p : PowerPlantID) :
  get_pp_id pp = inr p ->
  exists b,
    pp_exists meta power pp = inr b /\
    (b = true <->
     meta <> [] /\
     exists r, In r power /\ power_where (Some p) None None r = true).
Proof.
  intros Hid. unfold pp_exists, bind. rewrite Hid.
  set (f := fun mp : SolarMetaTable * SolarPowerTable => _).
  eexists. split; [reflexivity|].
  assert (Hf : forall m r, f (m, r) = power_where (Some p) None None r).
  { intros m r. unfold f, power_where. simpl. rewrite !andb_true_r. reflexivity. }
  split.
  - intros H. destruct (filter f (list_prod meta power)) as [|[m r] k] eqn:E;
      [discriminate|].
    assert (Hin : In (m, r) (filter f (list_prod meta power)))
      by (rewrite E; left; reflexivity).
    apply filter_In in Hin. destruct Hin as [Hin Hm].
    apply in_prod_iff in Hin. destruct Hin as [Hmeta Hpow]. split.
    + intros Hnil. rewrite Hnil in Hmeta. contradiction.
    + exists r. split; [exact Hpow|]. rewrite <- (Hf m). exact Hm.
  - intros [Hmeta [r [Hr Hw]]].
    destruct meta as [|m meta']; [congruence|].
    assert (Hin : In (m, r) (filter f (list_prod (m :: meta') power))).
    { apply filter_In. split.
      - apply in_prod_iff. split; [left; reflexivity | exact Hr].
      - rewrite Hf. exact Hw. }
    destruct (filter f (list_prod (m :: meta') power)); [contradiction | reflexivity].
Qed.

(** The premises of X3 hold for the bare plant 1 over the meta and power
    records of the small database. *)
Lemma pp_exists_product_witness :
  exists b,
    pp_exists three_meta two_inverters_power (IdInt 1) = inr b /\
    (b = true <->
     three_meta <> [] /\
     exists r, In r two_inverters_power /\
               power_where (Some (mkPowerPlantID 1 (Some (-1)))) None None r = true).
Proof.
  apply (pp_exists_product three_meta two_inverters_power (IdInt 1)
           (mkPowerPlantID 1 (Some (-1)))).
  reflexivity.
Defined.

Lemma order_by_head {A} (le : A -> A -> bool) (l : list A) (x : A) (k : list A) :
  (forall a b, le a b = true \/ le b a = true) ->
  (forall a b c, le a b = true -> le b c = true -> le a c = true) ->
  order_by le l = x :: k ->
  In x l /\ forall y, In y l -> le x y = true.
Proof.
  intros Htot Htr E.
  pose proof (order_by_sorted le Htot Htr l) as Hs.
  rewrite E in Hs. inversion Hs as [|? ? _ Hx]; subst.
  split.
  - apply (in_order_by le). rewrite E. left. reflexivity.
  - intros y Hy. apply (in_order_by le) in Hy.
    rewrite E in Hy. destruct Hy as [<-|Hy].
    + destruct (Htot x x); assumption.
    + rewrite Forall_forall in Hx. apply Hx, Hy.
Qed.

(** X4. For an identity that has power records [get_pp_interval] returns
    the earliest and the latest of their timestamps; for an identity
    without any, and for every whole-plant identity, whose missing inverter
    no record matches, it raises a TypeError.  It never returns [None]. *)
Theorem get_pp_interval_bounds (power : list SolarPowerTable) (pp : PowerPlantIDT)
    (p : PowerPlantID) :
  get_pp_id pp = inr p ->
  ((forall r, ~ interval_record power p r) ->
   get_pp_interval power pp = inl (TypeError "'NoneType' object is not subscriptable")) /\
  (inv_id p = None ->
   get_pp_interval power pp = inl (TypeError "'NoneType' object is not subscriptable")) /\
  ((exists r, interval_record power p r) ->
   exists lo hi,
     get_pp_interval power pp = inr (Some (lo, hi)) /\
     (exists r, interval_record power p r /\ pt_dt r = lo) /\
     (exists r, interval_record power p r /\ pt_dt r = hi) /\
     (forall r, interval_record power p r -> lo <= pt_dt r <= hi)) /\
  get_pp_interval power pp <> inr None.
Proof.
  intros Hid. unfold get_pp_interval. rewrite Hid.
  set (rows := filter (interval_where p) power).
  assert (Hrows : forall r, In r rows <-> interval_record power p r)
    by (intros r; apply filter_In).
  assert (Hnone : (forall r, ~ interval_record power p r) -> rows = []).
  { intros H. destruct rows as [|r k] eqn:E; [reflexivity|].
    exfalso. apply (H r), Hrows. left. reflexivity. }
  split; [|split; [|split]].
  - intros H. rewrite (Hnone H). reflexivity.
  - intros H. rewrite Hnone; [reflexivity|].
    intros r [_ Hr]. unfold interval_where in Hr. rewrite H in Hr.
    rewrite andb_false_r in Hr. discriminate.
  - intros [r Hr]. apply Hrows in Hr.
    destruct (order_by (fun a b => pt_dt a <=? pt_dt b) rows) as [|first k1] eqn:E1.
    { apply (in_order_by (fun a b => pt_dt a <=? pt_dt b)) in Hr. rewrite E1 in Hr.
      contradiction. }
    destruct (order_by (fun a b => pt_dt b <=? pt_dt a) rows) as [|last k2] eqn:E2.
    { apply (in_order_by (fun a b => pt_dt b <=? pt_dt a)) in Hr. rewrite E2 in Hr.
      contradiction. }
    apply order_by_head in E1.
    2:{ intros a b. destruct (Z.le_ge_cases (pt_dt a) (pt_dt b)) as [H|H];
          apply Z.leb_le in H; auto. }
    2:{ intros a b c H1 H2. apply Z.leb_le in H1, H2. apply Z.leb_le. lia. }
    apply order_by_head in E2.
    2:{ intros a b. destruct (Z.le_ge_cases (pt_dt a) (pt_dt b)) as [H|H];
          apply Z.leb_le in H; auto. }
    2:{ intros a b c H1 H2. apply Z.leb_le in H1, H2. apply Z.leb_le. lia. }
    destruct E1 as [Hf Hmin]. destruct E2 as [Hl Hmax].
    exists (pt_dt first), (pt_dt last).
    split; [reflexivity|].
    split; [exists first; split; [apply Hrows, Hf | reflexivity]|].
    split; [exists last; split; [apply Hrows, Hl | reflexivity]|].
    intros x Hx. apply Hrows in Hx.
    specialize (Hmin x Hx). specialize (Hmax x Hx).
    apply Z.leb_le in Hmin, Hmax. lia.
  - destruct (order_by (fun a b => pt_dt a <=? pt_dt b) rows); [discriminate|].
    destruct (order_by (fun a b => pt_dt b <=? pt_dt a) rows); discriminate.
Qed.

(** The premises of X4 hold for the bare plant 1 over the power records of
    23:50. *)
Lemma get_pp_interval_bounds_witness :
  exists lo hi,
    get_pp_interval two_inverters_power (IdInt 1) = inr (Some (lo, hi)) /\
    (exists r, interval_record two_inverters_power (mkPowerPlantID 1 (Some (-1))) r /\
               pt_dt r = lo) /\
    (exists r, interval_record two_inverters_power (mkPowerPlantID 1 (Some (-1))) r /\
               pt_dt r = hi) /\
    (forall r, interval_record two_inverters_power (mkPowerPlantID 1 (Some (-1))) r ->
               lo <= pt_dt r <= hi).
Proof.
  apply (get_pp_interval_bounds two_inverters_power (IdInt 1)
           (mkPowerPlantID 1 (Some (-1))) eq_refl).
  exists (power_at_2350 (-1)). split; [left; reflexivity | reflexivity].
Defined.

(** ** The range queries *)

Lemma power_where_spec (pp : option PowerPlantID) (a b : option datetime)
    (r : SolarPowerTable) :
  power_where pp a b r = true <->
  (forall o, pp = Some o ->
     pt_pp_id r = pp_id o /\ forall i, inv_id o = Some i -> pt_inv_id r = i) /\
  (forall x, a = Some x -> x <= pt_dt r) /\
  (forall x, b = Some x -> pt_dt r <= x).
Proof.
  unfold power_where. rewrite !andb_true_iff. split.
  - intros [[H1 H2] H3]. split; [intros o Ho; split|split].
    + subst pp. simpl in H1. apply andb_true_iff in H1.
      destruct H1 as [H1 H1']. apply Z.eqb_eq in H1. exact H1.
    + intros i Hi. subst pp. simpl in H1. apply andb_true_iff in H1.
      destruct H1 as [_ H1]. rewrite Hi in H1. apply Z.eqb_eq, H1.
    + intros x ->. apply Z.leb_le, H2.
    + intros x ->. apply Z.leb_le, H3.
  - intros [H1 [H2 H3]]. repeat split.
    + destruct pp as [o|]; [|reflexivity]. simpl.
      destruct (H1 o eq_refl) as [Hp Hi]. rewrite Hp, Z.eqb_refl. simpl.
      destruct (inv_id o) as [i|]; [|reflexivity]. simpl.
      rewrite (Hi i eq_refl). apply Z.eqb_refl.
    + destruct a as [x|]; [|reflexivity]. apply Z.leb_le, H2. reflexivity.
    + destruct b as [x|]; [|reflexivity]. apply Z.leb_le, H3. reflexivity.
Qed.

Lemma StronglySorted_map {A B} (R : B -> B -> Prop) (g : A -> B) (l : list A) :
  StronglySorted (fun x y => R (g x) (g y)) l -> StronglySorted R (map g l).
Proof.
  induction 1 as [|x l Hl IH Hx]; simpl; constructor; [exact IH|].
  rewrite Forall_forall in *. intros y Hy. apply in_map_iff in Hy.
  destruct Hy as [z [<- Hz]]. apply Hx, Hz.
Qed.

Lemma power_query_sorted table pp a b :
  StronglySorted (fun x y => pt_dt x <= pt_dt y) (power_query table pp a b).
Proof.
  apply (StronglySorted_within (fun x y => (pt_dt x <=? pt_dt y) = true) _ (fun _ => True)).
  - intros x y _ _ H. apply Z.leb_le, H.
  - apply Forall_forall. auto.
  - unfold power_query. apply order_by_sorted.
    + intros x y. destruct (Z.le_ge_cases (pt_dt x) (pt_dt y)) as [H|H];
        apply Z.leb_le in H; auto.
    + intros x y z H1 H2. apply Z.leb_le in H1, H2. apply Z.leb_le. lia.
Qed.


Lemma weather_query_sorted table pp a b age m :
  StronglySorted (fun x y => wt_dt x < wt_dt y \/ (wt_dt x = wt_dt y /\ wt_age x <= wt_age y))
    (weather_query table pp a b age m).
Proof.
  apply (StronglySorted_within (fun x y => weather_order x y = true) _ (fun _ => True)).
  - intros x y _ _ H. apply weather_order_spec, H.
  - apply Forall_forall. auto.
  - unfold weather_query.
    apply order_by_sorted; [apply weather_order_total | apply weather_order_trans].
Qed.

(** X6. Without smoothing and without a cutoff, [get_pp_weather] returns the
    selected records - those of the plant, within the inclusive bounds, of
    the given age if one is given - each once, in ascending order of the
    timestamp and, within a timestamp, of the age.  The age is part of the
    index exactly when no age is given. *)
Theorem get_pp_weather_plain (table : list SolarWeatherTable) (pp : option PowerPlantID)
    (a b : option datetime) (all_indices : bool) (src_age : option Z) :
  exists f data,
    get_pp_weather table (option_map IdObj pp) (option_map DateTime a)
      (option_map DateTime b) all_indices src_age None false = inr f /\
    wf_rows f = map (weather_row_of (match pp with
                                     | None => true
                                     | Some _ => all_indices
                                     end) (is_none src_age)) data /\
    Permutation data (filter (weather_where pp a b src_age None) table) /\
    StronglySorted
      (fun x y => wt_dt x < wt_dt y \/ (wt_dt x = wt_dt y /\ wt_age x <= wt_age y)) data /\
    (In "age"%string (wf_index f) <-> src_age = None).
Proof.
  assert (Ha : option_map (fun d => earliest_of d) (option_map DateTime a) = a)
    by (destruct a; reflexivity).
  assert (Hb : option_map (fun d => earliest_of d) (option_map DateTime b) = b)
    by (destruct b; reflexivity).
  exists (mkWeatherFrame
            ((if match pp with None => true | Some _ => all_indices end
              then ["pp_id"%string] else []) ++ ["dt"%string] ++
             (if is_none src_age then ["age"%string] else []))
            (map (weather_row_of (match pp with None => true | Some _ => all_indices end)
                    (is_none src_age))
                 (weather_query table pp a b src_age None))).
  exists (weather_query table pp a b src_age None).
  split.
  - unfold get_pp_weather. cbn [andb].
    destruct pp as [o|]; cbn [option_map get_pp_id bind ret];
      rewrite Ha, Hb; destruct src_age; reflexivity.
  - cbn [wf_rows wf_index]. split; [reflexivity|].
    split; [apply order_by_perm|].
    split; [apply weather_query_sorted|].
    destruct src_age, (match pp with None => true | Some _ => all_indices end);
      simpl; split; intros H; try discriminate; try reflexivity;
      repeat (destruct H as [H|H]; try discriminate H); try contradiction; auto.
Qed.

(** ** Identities that are not resolved, schemes that are not known *)

(** X7. [get_pp_power] asks a given identity whether it is a whole plant
    before resolving it: with a bare integer or a sequence, and without
    [all_indices], it raises an AttributeError whatever the table holds,
    while with [all_indices] it resolves the identity and answers, as
    [get_pp_exogenous] does in both cases. *)
Theorem get_pp_power_bare_identity (table : list SolarPowerTable)
    (exo : list SolarExogenousTable) (dt_start dt_end : option date_or_datetime)
    (p : Z) (l : list Z) :
  get_pp_power table (Some (IdInt p)) dt_start dt_end false
  = inl (AttributeError "is_whole_power_plant") /\
  get_pp_power table (Some (IdSeq l)) dt_start dt_end false
  = inl (AttributeError "is_whole_power_plant") /\
  (exists f, get_pp_power table (Some (IdInt p)) dt_start dt_end true = inr f /\
             pf_index f = full_index /\
             forall r, In r (pf_rows f) -> p_pp_id r = Some p /\ p_inv_id r = Some (-1)) /\
  (exists f, get_pp_exogenous exo (Some (IdInt p)) dt_start dt_end false = inr f /\
             ef_index f = ["dt"%string]).
Proof.
  split; [reflexivity|]. split; [reflexivity|]. split.
  - eexists. split; [reflexivity|]. split; [reflexivity|].
    intros r Hr. cbn [pf_rows] in Hr. unfold upcast_power in Hr.
    apply in_map_iff in Hr. destruct Hr as [x0 [<- Hx0]].
    apply in_map_iff in Hx0. destruct Hx0 as [x [<- Hx]].
    apply power_query_in in Hx. destruct Hx as [_ Hx].
    apply power_where_inverter in Hx. destruct Hx as [Hp Hi].
    simpl. rewrite Hp, Hi. split; reflexivity.
  - eexists. split; reflexivity.
Qed.

(** X8. [prepare_weather] refuses, before it reads any table, the scheme
    "forecast" without a forecast delta and every scheme other than
    "measured", "forecast" and "realistic", with a RuntimeError; an
    identity that does not resolve is refused first. *)
Theorem prepare_weather_scheme_errors (data : SolarDBData) (o : PowerPlantID)
    (dt_start dt_end : date_or_datetime) (scheme : string) (delta : option Z) :
  scheme <> "measured"%string -> scheme <> "forecast"%string ->
  scheme <> "realistic"%string ->
  prepare_weather data (IdObj o) dt_start dt_end "forecast" None
  = inl (RuntimeError "Weather sampling used, but forecast_delta is not set!") /\
  prepare_weather data (IdObj o) dt_start dt_end scheme delta
  = inl (RuntimeError "Unknown weather sampling scheme") /\
  prepare_weather data (IdSeq []) dt_start dt_end scheme delta = inl IndexError.
Proof.
  intros H1 H2 H3. split; [reflexivity|]. split; [|reflexivity].
  unfold prepare_weather. cbn [get_pp_id bind ret].
  apply String.eqb_neq in H1, H2, H3. rewrite H1, H2, H3. reflexivity.
Qed.

(** The premises of X8 hold for the scheme "nowcast". *)
Lemma prepare_weather_scheme_errors_witness :
  prepare_weather empty_data (IdObj (whole_plant 1)) (DateTime t_2021_01_01)
    (DateTime (t_2021_01_01 + hour)) "forecast" None
  = inl (RuntimeError "Weather sampling used, but forecast_delta is not set!") /\
  prepare_weather empty_data (IdObj (whole_plant 1)) (DateTime t_2021_01_01)
    (DateTime (t_2021_01_01 + hour)) "nowcast" (Some 3)
  = inl (RuntimeError "Unknown weather sampling scheme") /\
  prepare_weather empty_data (IdSeq []) (DateTime t_2021_01_01)
    (DateTime (t_2021_01_01 + hour)) "nowcast" (Some 3) = inl IndexError.
Proof.
  apply (prepare_weather_scheme_errors empty_data (whole_plant 1) (DateTime t_2021_01_01)
           (DateTime (t_2021_01_01 + hour)) "nowcast" (Some 3)); discriminate.
Defined.

Lemma reindex_by_data_error {R} (key : R -> datetime) (nan : datetime -> R)
    (df : list R) (grid : list datetime) (e : exn) :
  reindex_by key nan df grid = inl e -> data_error e.
Proof.
  unfold reindex_by. destruct grid; [discriminate|].
  destruct (has_dup (map key df)); [|discriminate].
  intros H. injection H as <-. exact I.
Qed.

Lemma resample_df_data_error (whole : list weather_row) (a b : datetime)
    (idf : list weather_row) (e : exn) :
  resample_df whole a b idf = inl e -> data_error e.
Proof.
  unfold resample_df, bind, reindex.
  destruct (reindex_by _ _ _ _) as [e'|out] eqn:E.
  - intros H. injection H as <-. eapply reindex_by_data_error, E.
  - unfold interpolate_time. destruct out; [discriminate|].
    destruct (object_only _ _ _); [|discriminate].
    intros H. injection H as <-. exact I.
Qed.

Lemma apply_groups_data_error (f : list weather_row -> result (list weather_row))
    (df : list weather_row) (keys : list Z) (e : exn) :
  (forall g e', f g = inl e' -> data_error e') ->
  apply_groups f df keys = inl e -> data_error e.
Proof.
  intros Hf. induction keys as [|k keys IH]; simpl; [discriminate|].
  unfold bind. destruct (f _) as [e'|g] eqn:E.
  - intros H. injection H as <-. eapply Hf, E.
  - destruct (apply_groups f df keys) as [e'|rest]; [|discriminate].
    intros H. injection H as <-. apply IH. reflexivity.
Qed.

Lemma smooth_data_error (has_pp : bool) (a b : option datetime) (df : list weather_row)
    (e : exn) :
  smooth has_pp a b df = inl e -> data_error e.
Proof.
  unfold smooth, bind.
  destruct (match b with None => extend_right df | Some _ => ret df end) as [e1|df1] eqn:E1.
  { intros H. injection H as <-. destruct b; [discriminate|].
    unfold extend_right in E1.
    destruct (list_max (map w_dt df)); [destruct (rev df)|];
      try destruct (datetime64_column df);
      try discriminate; injection E1 as <-; exact I. }
  destruct (match a, list_min (map w_dt df1) with
            | Some t, _ => ret t
            | None, Some t => ret t
            | None, None => raise (ValueError "NaT")
            end) as [e2|s] eqn:E2.
  { intros H. injection H as <-. destruct a; [discriminate|].
    destruct (list_min (map w_dt df1)); [discriminate|]. injection E2 as <-. exact I. }
  destruct (match b, list_max (map w_dt df1) with
            | Some t, _ => ret t
            | None, Some t => ret t
            | None, None => raise (ValueError "NaT")
            end) as [e3|t] eqn:E3.
  { intros H. injection H as <-. destruct b; [discriminate|].
    destruct (list_max (map w_dt df1)); [discriminate|]. injection E3 as <-. exact I. }
  destruct (if has_pp then _ else _) as [e4|out] eqn:E4; [|discriminate].
  intros H. injection H as <-. destruct has_pp.
  - unfold groupby_pp_id_apply in E4. destruct df1; [injection E4 as <-; exact I|].
    eapply apply_groups_data_error; [|exact E4].
    intros g e'. apply resample_df_data_error.
  - eapply resample_df_data_error, E4.
Qed.

(** X9. [get_pp_weather] raises a RuntimeError exactly when smoothing is
    asked for without an age and without a cutoff, whatever the table and
    the other arguments are: every other exception of the call is one of
    the identity or of the data. *)
Theorem get_pp_weather_runtime_error (table : list SolarWeatherTable)
    (pp : option PowerPlantIDT) (dt_start dt_end : option date_or_datetime)
    (all_indices : bool) (src_age : option Z) (src_dt_max : option datetime)
    (interpolate_smooth : bool) :
  (exists msg,
     get_pp_weather table pp dt_start dt_end all_indices src_age src_dt_max
       interpolate_smooth = inl (RuntimeError msg)) <->
  interpolate_smooth = true /\ src_age = None /\ src_dt_max = None.
Proof.
  split.
  - intros [msg H]. unfold get_pp_weather in H.
    destruct (interpolate_smooth && _) eqn:Elim.
    + apply andb_prop in Elim. destruct Elim as [-> Elim].
      destruct src_age, src_dt_max; try discriminate Elim. auto.
    + exfalso. unfold bind in H.
      destruct (match pp with
                | None => ret None
                | Some i => _
                end) as [e|rp] eqn:Ep.
      * injection H as ->. destruct pp as [i|]; [|discriminate Ep].
        destruct (get_pp_id i) eqn:Eg; [|discriminate Ep].
        injection Ep as ->. destruct i as [?|[|? ?]|?]; discriminate Eg.
      * destruct (if interpolate_smooth then _ else _) as [e|df] eqn:Es;
          [|discriminate H].
        injection H as ->. destruct interpolate_smooth; [|discriminate Es].
        apply smooth_data_error in Es. exact Es.
  - intros [-> [-> ->]]. eexists. reflexivity.
Qed.

(** ** Histories from stored records *)

Lemma get_pp_power_resolved (table : list SolarPowerTable) (pid : PowerPlantID)
    (a b : datetime) :
  get_pp_power table (Some (IdObj pid)) (Some (DateTime a)) (Some (DateTime b)) true
  = inr (mkPowerFrame full_index
           (upcast_power
              (map (power_row_of true true)
                 (power_query table (Some pid) (Some a) (Some b))))).
Proof. reflexivity. Qed.

Lemma iloc_head_nonneg {R} (n : Z) (df : list R) :
  0 <= n -> iloc_head n df = firstn (Z.to_nat n) df.
Proof.
  intros Hn. unfold iloc_head. destruct (n <? 0) eqn:E; [|reflexivity].
  apply Z.ltb_lt in E. lia.
Qed.

Lemma history_grid_range (start : datetime) (n : Z) :
  0 <= n ->
  date_range (start - P_FREQUENCY_D * n) start P_FREQUENCY_D = history_grid start n.
Proof. apply date_range_back. Qed.

Lemma zip_with_map_snd {A B C D} (f : A -> B -> C) (g : C -> D) (h : B -> D)
    (l : list A) (l' : list B) :
  (forall a b, g (f a b) = h b) ->
  List.length l = List.length l' ->
  map g (zip_with f l l') = map h l'.
Proof.
  intros Hg. revert l'. induction l as [|a l IH]; intros [|b l'] Hlen;
    simpl in *; try discriminate; [reflexivity|].
  rewrite Hg. f_equal. apply IH. lia.
Qed.

Lemma sorted_NoDup_ascending (l : list Z) :
  StronglySorted Z.le l -> NoDup l -> ascending l.
Proof.
  induction 1 as [|x l Hl IH Hx]; intros Hnd; [constructor|].
  inversion Hnd as [|? ? Hnx Hndl]; subst.
  destruct l as [|y l]; [constructor|].
  constructor; [|apply IH, Hndl].
  rewrite Forall_forall in Hx. specialize (Hx y (or_introl eq_refl)).
  assert (x <> y) by (intros ->; apply Hnx; left; reflexivity). lia.
Qed.

(** A stored record whose integers are doubles keeps its values in a typed
    frame, whatever the dtypes of the columns are. *)
Lemma upcast_power_row_exact (df : list power_row) (r : SolarPowerTable)
    (has_pp has_inv : bool) :
  exact_as_doubles r ->
  power_payload (upcast_power_row df (power_row_of has_pp has_inv r)) = stored_payload r.
Proof.
  intros [H1 [H2 [H3 [H4 [H5 H6]]]]].
  unfold power_payload, stored_payload.
  cbn [upcast_power_row power_row_of p_power_ac p_power_dc p_energy_hour p_energy_day
       p_energy_week p_energy_month p_ipolated p_epolated].
  rewrite !as_float64_exact by assumption. reflexivity.
Qed.

(** X10. With the fallback, [prepare_history] reads the window from
    [start - n*5min] to [start + n*5min].  When the records of the window
    have distinct timestamps their order in time is the same for every
    engine, and the first [n] of them in that order are put on the grid
    [start - n*5min, ..., start - 5min]: the rows keep the inverters of the
    records and lose their own timestamps, and they keep the stored values
    when the integers of the window are doubles (at most [2^53] in
    magnitude).  With fewer than [n] records in the window the call raises
    a ValueError. *)
Theorem prepare_history_fallback (data : SolarDBData) (id : PowerPlantIDT)
    (pid : PowerPlantID) (dt_start : date_or_datetime) (n : Z) :
  get_pp_id id = inr pid ->
  0 <= n ->
  let start := earliest_of dt_start in
  let selected := filter (power_where (Some pid) (Some (start - P_FREQUENCY_D * n))
                            (Some (start + P_FREQUENCY_D * n))) (power_table data) in
  NoDup (map pt_dt selected) ->
  exists window,
    Permutation window selected /\
    ascending (map pt_dt window) /\
    ((List.length selected < Z.to_nat n)%nat ->
     prepare_history data id dt_start n true = inl (ValueError "Length mismatch")) /\
    ((Z.to_nat n <= List.length selected)%nat ->
     exists f,
       prepare_history data id dt_start n true = inr f /\
       map p_dt (pf_rows f) = history_grid start n /\
       map p_inv_id (pf_rows f)
       = map (fun r => Some (pt_inv_id r)) (firstn (Z.to_nat n) window) /\
       (Forall exact_as_doubles selected ->
        map power_payload (pf_rows f)
        = map stored_payload (firstn (Z.to_nat n) window))).
Proof.
  intros Hid Hn start selected Hnd.
  set (window := power_query (power_table data) (Some pid)
                   (Some (start - P_FREQUENCY_D * n)) (Some (start + P_FREQUENCY_D * n))).
  assert (Hperm : Permutation window selected) by apply order_by_perm.
  exists window. split; [exact Hperm|]. split.
  { apply sorted_NoDup_ascending.
    - apply StronglySorted_map, power_query_sorted.
    - eapply Permutation_NoDup; [|exact Hnd].
      apply Permutation_map, Permutation_sym, Hperm. }
  set (D := map (power_row_of true true) window).
  assert (Hrun : prepare_history data id dt_start n true
                 = let rows := map (upcast_power_row D)
                                 (map (power_row_of true true)
                                    (firstn (Z.to_nat n) window)) in
                   if Nat.eqb (List.length rows) (List.length (history_grid start n))
                   then inr (mkPowerFrame full_index
                               (zip_with with_p_dt rows (history_grid start n)))
                   else inl (ValueError "Length mismatch")).
  { unfold prepare_history. rewrite Hid. cbn [bind ret].
    unfold _convert_date_time, _prepare_frame_index. fold start.
    rewrite get_pp_power_resolved. cbn [bind ret pf_rows]. fold window. fold D.
    rewrite iloc_head_nonneg, history_grid_range by exact Hn.
    unfold upcast_power, D. rewrite <- !firstn_map. reflexivity. }
  rewrite Hrun. cbv zeta.
  assert (Hg : List.length (history_grid start n) = Z.to_nat n)
    by (unfold history_grid; rewrite length_map, length_seq; reflexivity).
  assert (Hw : List.length window = List.length selected)
    by (apply Permutation_length, Hperm).
  rewrite !length_map, length_firstn, Hg, Hw.
  split.
  - intros Hlt. rewrite Nat.min_r by lia.
    destruct (Nat.eqb (List.length selected) (Z.to_nat n)) eqn:E; [|reflexivity].
    apply Nat.eqb_eq in E. lia.
  - intros Hle. rewrite Nat.min_l by lia. rewrite Nat.eqb_refl.
    set (rows := map (upcast_power_row D)
                   (map (power_row_of true true) (firstn (Z.to_nat n) window))).
    assert (Hlen : List.length rows = List.length (history_grid start n)).
    { unfold rows. rewrite !length_map, length_firstn, Hg, Hw. lia. }
    eexists. split; [reflexivity|]. cbn [pf_rows].
    split; [|split].
    + rewrite <- (map_id (history_grid start n)) at 2.
      apply zip_with_map_snd; [reflexivity | exact Hlen].
    + rewrite (zip_with_map_fst _ p_inv_id p_inv_id)
        by (try reflexivity; symmetry; exact Hlen).
      unfold rows. rewrite !map_map. reflexivity.
    + intros Hex.
      rewrite (zip_with_map_fst _ power_payload power_payload)
        by (try reflexivity; symmetry; exact Hlen).
      unfold rows. rewrite !map_map. apply map_ext_in. intros r Hr.
      apply upcast_power_row_exact.
      rewrite Forall_forall in Hex. apply Hex.
      eapply Permutation_in; [exact Hperm|]. eapply in_firstn, Hr.
Qed.

(** The premises of X10 hold for the aggregate of plant 1 over its two
    records of the late evening, with the start 2021-01-01T00:00 and the
    count 2: the record of 23:50, stored last, comes first. *)
Lemma prepare_history_fallback_witness :
  exists f,
    prepare_history (mkSolarDBData late_evening_power [] []) (IdInt 1)
      (DateTime t_2021_01_01) 2 true = inr f /\
    map p_dt (pf_rows f) = history_grid t_2021_01_01 2 /\
    map power_payload (pf_rows f)
    = [stored_payload (aggregate_power (t_2021_01_01 - 10 * minute) 100);
       stored_payload (aggregate_power (t_2021_01_01 - 5 * minute) 120)].
Proof.
  destruct (prepare_history_fallback (mkSolarDBData late_evening_power [] [])
              (IdInt 1) (mkPowerPlantID 1 (Some (-1))) (DateTime t_2021_01_01) 2
              eq_refl ltac:(lia))
    as [window [Hperm [Hasc [_ Hrun]]]].
  - vm_compute. constructor; [|constructor; [|constructor]].
    + intros [H|[]]. discriminate H.
    + intros [].
  - destruct Hrun as [f [Hf [Hdt _]]]; [vm_compute; lia|].
    exists f. split; [exact Hf|]. split; [exact Hdt|].
    vm_compute in Hf. injection Hf as <-. vm_compute. reflexivity.
Defined.

(** In a strictly ascending list of grid points from [a] on, the points
    after the first [k] lie at least [k] steps after [a]. *)
Lemma ascending_grid_lower (f : Z) (k : nat) :
  0 < f ->
  forall (a : Z) (l : list Z),
    ascending l ->
    (forall v, In v l -> a <= v /\ (v - a) mod f = 0) ->
    forall v, In v (skipn k l) -> a + f * Z.of_nat k <= v.
Proof.
  intros Hf. induction k as [|k IH]; intros a l Hasc Hgrid v Hv.
  - simpl in Hv. specialize (Hgrid v Hv). lia.
  - destruct l as [|x l]; [contradiction|]. simpl in Hv.
    assert (Hstep : forall w, In w l -> a + f <= w /\ (w - (a + f)) mod f = 0).
    { intros w Hw.
      pose proof (ascending_lower x l Hasc w Hw) as Hxw.
      destruct (Hgrid x (or_introl eq_refl)) as [Hax _].
      destruct (Hgrid w (or_intror Hw)) as [_ Hm].
      pose proof (Z.div_mod (w - a) f ltac:(lia)) as Hd. rewrite Hm in Hd.
      assert (1 <= (w - a) / f) by nia.
      split; [nia|].
      replace (w - (a + f)) with ((w - a) + (-1) * f) by lia.
      rewrite Z.mod_add by lia. exact Hm. }
    specialize (IH (a + f) l (ascending_tail x l Hasc) Hstep v Hv). lia.
Qed.

Lemma find_key_unique {R} (key : R -> Z) (l : list R) (r : R) :
  NoDup (map key l) -> In r l ->
  find (fun x => key x =? key r) l = Some r.
Proof.
  intros Hnd Hin.
  destruct (find (fun x => key x =? key r) l) as [x|] eqn:E.
  - apply find_some in E. destruct E as [Hx E]. apply Z.eqb_eq in E.
    f_equal. apply (NoDup_map_eq key l); assumption.
  - exfalso. pose proof (find_none _ _ E r Hin) as H. simpl in H.
    rewrite Z.eqb_refl in H. discriminate.
Qed.

(** X11. Without the fallback, for an identity that names an inverter over
    a power table with unique keys whose records of the window lie on the
    grid of the history, every stored record of the identity before the
    start whose integers are doubles (at most [2^53] in magnitude: the
    reindex types the integer columns float64) has its row in the history:
    at the timestamp of the record, with the stored values, a missing value
    replaced by 0 and a missing flag by not interpolated, extrapolated. *)
Theorem prepare_history_keeps_stored (data : SolarDBData) (id : PowerPlantIDT)
    (pid : PowerPlantID) (i : Z) (dt_start : date_or_datetime) (n : Z) :
  get_pp_id id = inr pid ->
  inv_id pid = Some i ->
  0 <= n ->
  power_keys_unique (power_table data) ->
  let start := earliest_of dt_start in
  let first := start - P_FREQUENCY_D * n in
  (forall r, In r (power_table data) -> power_where (Some pid) None None r = true ->
             first <= pt_dt r <= start -> (pt_dt r - first) mod P_FREQUENCY_D = 0) ->
  exists f,
    prepare_history data id dt_start n false = inr f /\
    forall r, In r (power_table data) -> power_where (Some pid) None None r = true ->
              first <= pt_dt r < start ->
              exact_as_doubles r ->
              exists row, In row (pf_rows f) /\ p_dt row = pt_dt r /\
                          power_payload row = filled_payload r.
Proof.
  intros Hid Hinv Hn Hk start first Hgrid.
  set (q := power_query (power_table data) (Some pid) (Some first) (Some start)).
  assert (Hnd : NoDup (map pt_dt q)).
  { destruct pid as [p o]. simpl in Hinv. subst o.
    apply power_query_inverter_NoDup, Hk. }
  assert (Hq : forall r, In r q <->
                         In r (power_table data) /\
                         power_where (Some pid) None None r = true /\
                         first <= pt_dt r <= start).
  { intros r. unfold q. rewrite power_query_in, !power_where_spec. split.
    - intros [Hin [H1 [H2 H3]]]. split; [exact Hin|]. split.
      + split; [exact H1|]. split; intros x Hx; discriminate Hx.
      + split; [apply H2 | apply H3]; reflexivity.
    - intros [Hin [[H1 _] Hb]]. split; [exact Hin|]. split; [exact H1|].
      split; intros x Hx; injection Hx as <-; lia. }
  pose proof (prepare_history_reindexed data id pid dt_start n Hid Hn Hnd) as Hrun.
  cbv zeta in Hrun. fold start in Hrun. fold first in Hrun. fold q in Hrun.
  set (D := map (power_row_of true true) q) in *.
  set (head := map (upcast_power_row D)
                 (map (power_row_of true true) (firstn (Z.to_nat n) q))) in *.
  set (R := map (fun t => match find (fun r => p_dt r =? t) head with
                          | Some r => r
                          | None => nan_power_row t
                          end)
              (map (fun k => first + Z.of_nat k * P_FREQUENCY_D) (seq 0 (Z.to_nat n)))) in *.
  eexists. split; [exact Hrun|]. cbn [pf_rows].
  intros r Hin Hw Hb Hex.
  assert (Hrq : In r q) by (apply Hq; repeat split; try assumption; lia).
  assert (Hasc : ascending (map pt_dt q)).
  { apply sorted_NoDup_ascending; [|exact Hnd].
    apply StronglySorted_map, power_query_sorted. }
  assert (Hhead : In r (firstn (Z.to_nat n) q)).
  { rewrite <- (firstn_skipn (Z.to_nat n) q) in Hrq. apply in_app_or in Hrq.
    destruct Hrq as [H|H]; [exact H|]. exfalso.
    assert (Hv : In (pt_dt r) (skipn (Z.to_nat n) (map pt_dt q)))
      by (rewrite skipn_map; apply in_map, H).
    apply (ascending_grid_lower P_FREQUENCY_D (Z.to_nat n) P_FREQUENCY_D_pos first) in Hv.
    - rewrite Z2Nat.id in Hv by exact Hn. unfold first in Hv. lia.
    - exact Hasc.
    - intros v Hv'. apply in_map_iff in Hv'. destruct Hv' as [x [<- Hx]].
      apply Hq in Hx. destruct Hx as [Hx1 [Hx2 Hx3]].
      split; [lia | apply Hgrid; assumption]. }
  set (typed := upcast_power_row D (power_row_of true true r)).
  assert (Hfind : find (fun x => p_dt x =? pt_dt r) head = Some typed).
  { apply (find_key_unique p_dt head typed).
    - unfold head. rewrite !map_map. cbn [upcast_power_row power_row_of p_dt].
      rewrite <- firstn_map. apply NoDup_firstn, Hnd.
    - unfold head, typed. apply in_map, in_map, Hhead. }
  assert (Hpay : power_payload typed = stored_payload r)
    by (apply upcast_power_row_exact, Hex).
  exists (assign_power_id (pp_id pid) (inv_id_or_aggregate pid)
            (fill_history (upcast_power_row R typed))).
  split; [|split; [reflexivity|]].
  - apply in_map, in_map. unfold upcast_power. apply in_map.
    unfold R. apply in_map_iff. exists (pt_dt r).
    split; [rewrite Hfind; reflexivity|].
    apply in_map_iff.
    pose proof (Hgrid r Hin Hw ltac:(lia)) as Hm.
    pose proof (Z.div_mod (pt_dt r - first) P_FREQUENCY_D
                  ltac:(pose proof P_FREQUENCY_D_pos; lia)) as Hd.
    rewrite Hm in Hd.
    pose proof P_FREQUENCY_D_pos as Hp.
    exists (Z.to_nat ((pt_dt r - first) / P_FREQUENCY_D)).
    assert (0 <= (pt_dt r - first) / P_FREQUENCY_D) by (apply Z.div_pos; lia).
    split.
    + rewrite Z2Nat.id by assumption. lia.
    + apply in_seq. split; [lia|]. simpl.
      apply Z2Nat.inj_lt; try lia. unfold first in *. nia.
  - destruct Hex as [H1 [H2 [H3 [H4 [H5 H6]]]]].
    unfold typed, power_payload, stored_payload in Hpay.
    cbn [upcast_power_row power_row_of p_power_ac p_power_dc p_energy_hour
         p_energy_day p_energy_week p_energy_month p_ipolated p_epolated] in Hpay.
    injection Hpay as E1 E2 E3 E4 E5 E6.
    unfold typed, power_payload, filled_payload.
    cbn [assign_power_id fill_history upcast_power_row power_row_of p_power_ac
         p_power_dc p_energy_hour p_energy_day p_energy_week p_energy_month
         p_ipolated p_epolated].
    rewrite E1, E2, E3, E4, E5, E6.
    rewrite !as_float64_exact by assumption. reflexivity.
Qed.

Lemma two_inverters_power_keys : power_keys_unique two_inverters_power.
Proof.
  unfold power_keys_unique. simpl.
  constructor; [|constructor; [|constructor]]; simpl.
  - intros [H|[]]. discriminate H.
  - intros [].
Qed.

(** The premises of X11 hold for the bare plant 1 over the power records of
    23:50, with the start 2021-01-01T00:00 and the count 3. *)
Lemma prepare_history_keeps_stored_witness :
  exists f,
    prepare_history (mkSolarDBData two_inverters_power [] []) (IdInt 1)
      (DateTime t_2021_01_01) 3 false = inr f /\
    forall r, In r two_inverters_power ->
              power_where (Some (mkPowerPlantID 1 (Some (-1)))) None None r = true ->
              t_2021_01_01 - P_FREQUENCY_D * 3 <= pt_dt r < t_2021_01_01 ->
              exact_as_doubles r ->
              exists row, In row (pf_rows f) /\ p_dt row = pt_dt r /\
                          power_payload row = filled_payload r.
Proof.
  apply (prepare_history_keeps_stored (mkSolarDBData two_inverters_power [] []) (IdInt 1)
           (mkPowerPlantID 1 (Some (-1))) (-1) (DateTime t_2021_01_01) 3).
  - reflexivity.
  - reflexivity.
  - lia.
  - exact two_inverters_power_keys.
  - intros r [<-|[<-|[]]] _ _; reflexivity.
Defined.

(** ** From the assembler to the evaluator *)

Lemma prepare_weather_index (data : SolarDBData) (pp : PowerPlantIDT)
    (dt_start dt_end : date_or_datetime) (scheme : string) (delta : option Z)
    (w : feature_frame) :
  prepare_weather data pp dt_start dt_end scheme delta = inr w ->
  ff_index w = full_index.
Proof.
  unfold prepare_weather, bind. intros H.
  destruct (get_pp_id pp); [discriminate|].
  destruct (if String.eqb scheme "measured" then _ else _); [discriminate|].
  destruct (get_pp_exogenous _ _ _ _ _); [discriminate|].
  injection H as <-. reflexivity.
Qed.

Lemma template_power_cells (w : feature_frame) :
  power_cells (prediction_template w) = map (fun _ => CNaN) (ff_rows w).
Proof.
  unfold power_cells, prediction_template. cbn [rows]. rewrite map_map. reflexivity.
Qed.

Section Template.

Context (dict : Type).
Context (ep : PowerPlantID -> DataFrame -> option datetime -> option datetime ->
              string -> bool -> result dict).
Context (ew : PowerPlantID -> DataFrame -> option datetime -> option datetime ->
              result dict).

(** X12. The prediction frame that [prepare_prediction] returns has one row
    for each row of the weather frame, at the same timestamp, with a missing
    power; handed to [evaluate_prediction] as it is, with any history and
    weather frame, it is refused. *)
Theorem prediction_template_is_refused (data : SolarDBData) (pp : PowerPlantIDT)
    (dt_start dt_end : date_or_datetime) (scheme : string) (delta : option Z)
    (history_cnt : Z) (fallback : bool)
    (h : power_frame) (w : feature_frame) (p : DataFrame)
    (prediction_type : string) (history_df weather_df : DataFrame)
    (pp' : option PowerPlantIDT) :
  prepare_prediction data pp dt_start dt_end scheme delta history_cnt fallback
  = inr (h, w, p) ->
  map (fun r => r "dt"%string) (rows p) = map (fun r => CTime (f_dt r)) (ff_rows w) /\
  (forall c, In c (power_cells p) -> c = CNaN) /\
  raises (evaluate_prediction dict ep ew p prediction_type history_df weather_df pp').
Proof.
  unfold prepare_prediction, bind. intros H.
  destruct (prepare_history _ _ _ _ _) as [e|h']; [discriminate|].
  destruct (prepare_weather _ _ _ _ _ _) as [e|w'] eqn:Ew; [discriminate|].
  injection H as <- <- <-.
  apply prepare_weather_index in Ew.
  split; [|split].
  - unfold prediction_template. cbn [rows]. rewrite map_map. reflexivity.
  - intros c Hc. rewrite template_power_cells in Hc. apply in_map_iff in Hc.
    destruct Hc as [r [<- _]]. reflexivity.
  - assert (Hidx : lacks_ids (prediction_template w') = false).
    { unfold lacks_ids, in_index_names, prediction_template. cbn [index_names].
      rewrite Ew. reflexivity. }
    unfold evaluate_prediction, bind. rewrite Hidx. cbn [ret].
    destruct (if lacks_ids history_df then _ else _) as [e|hist]; [eexists; reflexivity|].
    change (mem "power" (columns (prediction_template w'))) with true. cbn [negb].
    destruct (ff_rows w') as [|r0 rest] eqn:Er.
    + assert (Hlen : len (prediction_template w') = 0%nat)
        by (unfold len, prediction_template; cbn [rows]; rewrite Er; reflexivity).
      assert (Hcount : count "power" (prediction_template w') = 0%nat)
        by (unfold count, prediction_template; cbn [rows]; rewrite Er; reflexivity).
      rewrite Hcount, Hlen. cbn [Nat.eqb negb].
      destruct (negb (Nat.eqb (len weather_df) 0)); [eexists; reflexivity|].
      cbn [ret].
      destruct (if negb (Nat.eqb (len history_df) 0) then _ else _);
        [eexists; reflexivity|].
      assert (Hpp : get_level_values "pp_id" (prediction_template w') = inr []).
      { unfold get_level_values, in_index_names, prediction_template.
        cbn [index_names rows]. rewrite Ew, Er. reflexivity. }
      assert (Hinv : get_level_values "inv_id" (prediction_template w') = inr []).
      { unfold get_level_values, in_index_names, prediction_template.
        cbn [index_names rows]. rewrite Ew, Er. reflexivity. }
      rewrite Hpp, Hinv. eexists. reflexivity.
    + rewrite count_missing; [eexists; reflexivity|].
      rewrite template_power_cells, Er. left. reflexivity.
Qed.

End Template.

(** The premise of X12 holds for the measured-weather scenario with the
    five-minute exogenous records and a history of three rows. *)
Lemma prediction_template_is_refused_witness :
  exists h w p,
    prepare_prediction (mkSolarDBData [] two_anchor_weather five_minute_exogenous)
      (IdInt 1) (DateTime t_2021_01_01) (DateTime (t_2021_01_01 + hour))
      "measured" None 3 false = inr (h, w, p) /\
    map (fun r => r "dt"%string) (rows p) = map (fun r => CTime (f_dt r)) (ff_rows w) /\
    (forall c, In c (power_cells p) -> c = CNaN) /\
    raises (evaluate_prediction unit unit_power unit_weather p "power_ac"
              empty_frame empty_frame None).
Proof.
  destruct (prepare_prediction (mkSolarDBData [] two_anchor_weather five_minute_exogenous)
              (IdInt 1) (DateTime t_2021_01_01) (DateTime (t_2021_01_01 + hour))
              "measured" None 3 false) as [e|[[h w] p]] eqn:E.
  - vm_compute in E. discriminate E.
  - exists h, w, p. split; [reflexivity|].
    exact (prediction_template_is_refused unit unit_power unit_weather _ _ _ _ _ _ _ _
             h w p "power_ac" empty_frame empty_frame None E).
Defined.

(** ** What an evaluation presupposes *)

Section EvaluatorResults.

Context (dict : Type).
Context (ep : PowerPlantID -> DataFrame -> option datetime -> option datetime ->
              string -> bool -> result dict).
Context (ew : PowerPlantID -> DataFrame -> option datetime -> option datetime ->
              result dict).

(** X13. Whenever [evaluate_prediction] returns statistics, the prediction
    frame has at least one row and no missing power, a weather frame that
    is not empty has as many rows as the prediction frame, and the
    statistics of the weather and of the history are present exactly for
    the frames that are not empty. *)
Theorem evaluate_prediction_success (prediction_df : DataFrame)
    (prediction_type : string) (history_df weather_df : DataFrame)
    (pp : option PowerPlantIDT) (s : stats dict) :
  evaluate_prediction dict ep ew prediction_df prediction_type history_df weather_df pp
  = inr s ->
  rows prediction_df <> [] /\
  ~ In CNaN (power_cells prediction_df) /\
  (len weather_df <> 0%nat -> len weather_df = len prediction_df) /\
  (stats_weather dict s = None <-> len weather_df = 0%nat) /\
  (stats_history dict s = None <-> len history_df = 0%nat).
Proof.
  unfold evaluate_prediction, bind. intros H.
  destruct (if lacks_ids prediction_df then _ else _) as [e|pred] eqn:E1; [discriminate|].
  destruct (if lacks_ids history_df then _ else _) as [e|hist] eqn:E2; [discriminate|].
  apply indexed_frame_power in E1.
  pose proof (power_cells_len _ _ E1) as Hlen.
  destruct (negb (mem "power" (columns pred))); [discriminate|].
  destruct (Nat.eqb (count "power" pred) (len pred)) eqn:Ec; [|discriminate].
  cbn [negb] in H.
  destruct (Nat.eqb (len weather_df) 0) eqn:Ew; cbn [negb] in H.
  - destruct (if negb (Nat.eqb (len history_df) 0) then _ else _) as [e|hist'];
      [discriminate|].
    destruct (get_level_values "pp_id" pred) as [e|l1] eqn:El1; [discriminate|].
    destruct (get_level_values "inv_id" pred) as [e|l2]; [discriminate|].
    destruct (unique l1) as [|p [|? ?]] eqn:Eu; try discriminate.
    destruct (unique l2) as [|i [|? ?]]; try discriminate.
    destruct (int_of_cell p); [discriminate|].
    destruct (int_of_cell i); [discriminate|].
    destruct (get_level_values "dt" pred); [discriminate|].
    cbn [ret andb] in H.
    destruct (ep _ _ _ _ _ _); [discriminate|].
    destruct (Nat.eqb (len history_df) 0) eqn:Eh; cbn [negb] in H.
    + injection H as <-. cbn [stats_weather stats_history].
      apply Nat.eqb_eq in Ew, Eh.
      split; [|split; [|split; [|split]]]; try tauto.
      * intros Hr. unfold get_level_values in El1.
        destruct (in_index_names "pp_id" pred); [|discriminate].
        injection El1 as <-.
        assert (Hp : rows pred = []).
        { apply power_cells_len in E1. unfold len in E1. rewrite Hr in E1.
          destruct (rows pred); [reflexivity | discriminate]. }
        rewrite Hp in Eu. discriminate.
      * intros Hc. rewrite <- E1 in Hc. apply count_missing in Hc. congruence.
    + destruct (_evaluate_history dict ep _ _ _ _ _); [discriminate|].
      injection H as <-. cbn [stats_weather stats_history].
      apply Nat.eqb_eq in Ew. apply Nat.eqb_neq in Eh.
      split; [|split; [|split; [|split]]]; try tauto.
      * intros Hr. unfold get_level_values in El1.
        destruct (in_index_names "pp_id" pred); [|discriminate].
        injection El1 as <-.
        assert (Hp : rows pred = []).
        { apply power_cells_len in E1. unfold len in E1. rewrite Hr in E1.
          destruct (rows pred); [reflexivity | discriminate]. }
        rewrite Hp in Eu. discriminate.
      * intros Hc. rewrite <- E1 in Hc. apply count_missing in Hc. congruence.
      * split; [discriminate | tauto].
  - destruct (Nat.eqb (len weather_df) (len pred)) eqn:Ewl; [|discriminate].
    cbn [negb ret] in H.
    destruct (if negb (Nat.eqb (len history_df) 0) then _ else _) as [e|hist'];
      [discriminate|].
    destruct (get_level_values "pp_id" pred) as [e|l1] eqn:El1; [discriminate|].
    destruct (get_level_values "inv_id" pred) as [e|l2]; [discriminate|].
    destruct (unique l1) as [|p [|? ?]] eqn:Eu; try discriminate.
    destruct (unique l2) as [|i [|? ?]]; try discriminate.
    destruct (int_of_cell p); [discriminate|].
    destruct (int_of_cell i); [discriminate|].
    destruct (get_level_values "dt" pred); [discriminate|].
    destruct (get_level_values "dt" (set_index_of pred weather_df)); [discriminate|].
    cbn [ret andb] in H.
    destruct (negb _ || negb _); [discriminate|].
    destruct (ep _ _ _ _ _ _); [discriminate|].
    destruct (ew _ _ _ _); [discriminate|].
    cbn [ret] in H.
    apply Nat.eqb_neq in Ew. apply Nat.eqb_eq in Ewl.
    assert (Hrows : rows prediction_df <> []).
    { intros Hr. unfold get_level_values in El1.
      destruct (in_index_names "pp_id" pred); [|discriminate].
      injection El1 as <-.
      assert (Hp : rows pred = []).
      { apply power_cells_len in E1. unfold len in E1. rewrite Hr in E1.
        destruct (rows pred); [reflexivity | discriminate]. }
      rewrite Hp in Eu. discriminate. }
    assert (Hnan : ~ In CNaN (power_cells prediction_df)).
    { intros Hc. rewrite <- E1 in Hc. apply count_missing in Hc. congruence. }
    destruct (Nat.eqb (len history_df) 0) eqn:Eh; cbn [negb] in H.
    + injection H as <-. cbn [stats_weather stats_history].
      apply Nat.eqb_eq in Eh.
      split; [exact Hrows|]. split; [exact Hnan|]. split; [intros _; congruence|].
      split; [split; [discriminate | intros; contradiction] | tauto].
    + destruct (_evaluate_history dict ep _ _ _ _ _); [discriminate|].
      injection H as <-. cbn [stats_weather stats_history].
      apply Nat.eqb_neq in Eh.
      split; [exact Hrows|]. split; [exact Hnan|]. split; [intros _; congruence|].
      split; split; try discriminate; intros; contradiction.
Qed.

End EvaluatorResults.

(** The premise of X13 holds for the complete prediction of two rows with
    the history of three rows. *)
Lemma evaluate_prediction_success_witness :
  rows prediction_complete <> [] /\
  ~ In CNaN (power_cells prediction_complete) /\
  (len empty_frame <> 0%nat -> len empty_frame = len prediction_complete) /\
  (stats_weather unit (mkStats unit tt None (Some tt)) = None <-> len empty_frame = 0%nat) /\
  (stats_history unit (mkStats unit tt None (Some tt)) = None <->
   len history_of_three_rows = 0%nat).
Proof.
  apply (evaluate_prediction_success unit unit_power unit_weather prediction_complete
           "power_ac" history_of_three_rows empty_frame None).
  vm_compute. reflexivity.
Defined.

Section EvaluatorHistory.

Context (dict : Type).
Context (ep : PowerPlantID -> DataFrame -> option datetime -> option datetime ->
              string -> bool -> result dict).
Context (ew : PowerPlantID -> DataFrame -> option datetime -> option datetime ->
              result dict).

(** X14. A history frame whose index lacks the plant or the inverter is not
    evaluated itself: [evaluate_prediction] puts the prediction frame in its
    place, so two such histories that are not empty give one and the same
    result, whatever they hold. *)
Theorem history_without_identity_is_replaced (prediction_df : DataFrame)
    (prediction_type : string) (history_1 history_2 weather_df : DataFrame)
    (pp : option PowerPlantIDT) :
  lacks_ids history_1 = true -> lacks_ids history_2 = true ->
  len history_1 <> 0%nat -> len history_2 <> 0%nat ->
  evaluate_prediction dict ep ew prediction_df prediction_type history_1 weather_df pp
  = evaluate_prediction dict ep ew prediction_df prediction_type history_2 weather_df pp.
Proof.
  intros L1 L2 N1 N2. apply Nat.eqb_neq in N1, N2.
  unfold evaluate_prediction. rewrite L1, L2, N1, N2. reflexivity.
Qed.

End EvaluatorHistory.

(** The premises of X14 hold for two histories indexed by the time alone. *)
Lemma history_without_identity_is_replaced_witness :
  evaluate_prediction unit unit_power unit_weather prediction_complete "power_ac"
    history_a empty_frame (Some (IdObj (mkPowerPlantID 1 (Some (-1)))))
  = evaluate_prediction unit unit_power unit_weather prediction_complete "power_ac"
      history_b empty_frame (Some (IdObj (mkPowerPlantID 1 (Some (-1))))).
Proof.
  apply (history_without_identity_is_replaced unit unit_power unit_weather
           prediction_complete "power_ac" history_a history_b empty_frame
           (Some (IdObj (mkPowerPlantID 1 (Some (-1)))))).
  - reflexivity.
  - reflexivity.
  - discriminate.
  - discriminate.
Defined.

(** ** The order and the equality of identities *)

(** X15. On identities that name an inverter, [__lt__] is a strict total
    order that agrees with [__eq__]: no identity is less than itself, the
    order is transitive, and of two identities exactly one is less than the
    other unless they are equal.  [__eq__] holds exactly for identities of
    the same plant and inverter. *)
Theorem PowerPlantID_order_on_inverters (p i q j r k : Z) :
  let a := mkPowerPlantID p (Some i) in
  let b := mkPowerPlantID q (Some j) in
  let c := mkPowerPlantID r (Some k) in
  PowerPlantID_lt a a = false /\
  (PowerPlantID_lt a b = true -> PowerPlantID_lt b c = true -> PowerPlantID_lt a c = true) /\
  ((PowerPlantID_lt a b = true /\ PowerPlantID_eq a b = false /\ PowerPlantID_lt b a = false) \/
   (PowerPlantID_lt a b = false /\ PowerPlantID_eq a b = true /\ PowerPlantID_lt b a = false) \/
   (PowerPlantID_lt a b = false /\ PowerPlantID_eq a b = false /\ PowerPlantID_lt b a = true)) /\
  (forall x y : PowerPlantID, PowerPlantID_eq x y = true <-> x = y).
Proof.
  cbv zeta. unfold PowerPlantID_lt, PowerPlantID_eq. cbn [pp_id inv_id opt_Z_eqb].
  split; [|split; [|split]].
  - rewrite Z.ltb_irrefl, Z.eqb_refl, Z.ltb_irrefl. reflexivity.
  - rewrite !orb_true_iff, !andb_true_iff, !Z.ltb_lt, !Z.eqb_eq. lia.
  - destruct (p <? q) eqn:E1, (q <? p) eqn:E2, (p =? q) eqn:E3, (q =? p) eqn:E4,
      (i <? j) eqn:E5, (j <? i) eqn:E6, (i =? j) eqn:E7; cbn [orb andb];
      rewrite ?Z.ltb_lt, ?Z.ltb_ge, ?Z.eqb_eq, ?Z.eqb_neq in *;
      first [ exfalso; lia
            | left; repeat split; reflexivity
            | right; left; repeat split; reflexivity
            | right; right; repeat split; reflexivity ].
  - intros [xp xi] [yp yi]. cbn [pp_id inv_id]. rewrite andb_true_iff, Z.eqb_eq. split.
    + intros [-> H]. destruct xi, yi; simpl in H; try discriminate; [|reflexivity].
      apply Z.eqb_eq in H. subst. reflexivity.
    + intros H. injection H as -> ->. split; [reflexivity|].
      destruct yi; simpl; [apply Z.eqb_refl | reflexivity].
Qed.

(** ** Meta records *)

(** X16. [get_pp_info] returns the meta records of the table as they are:
    all of them without an identity, those of the plant for a whole-plant
    identity, and for a bare integer only the record of the aggregate, the
    inverter [-1] that the integer resolves to. *)
Theorem get_pp_info_selects (meta : list SolarMetaTable) (p : Z) :
  get_pp_info meta None = inr meta /\
  (exists l, get_pp_info meta (Some (IdObj (whole_plant p))) = inr l /\
             forall r, In r l <-> In r meta /\ mt_pp_id r = p) /\
  (exists l, get_pp_info meta (Some (IdInt p)) = inr l /\
             forall r, In r l <-> In r meta /\ mt_pp_id r = p /\ mt_inv_id r = -1).
Proof.
  unfold get_pp_info. cbn [resolve_opt get_pp_id bind ret when_set inv_id pp_id whole_plant].
  split; [|split].
  - unfold ret. f_equal.
    induction meta as [|r l IH]; simpl; [reflexivity | f_equal; exact IH].
  - eexists. split; [reflexivity|]. intros r.
    rewrite filter_In, andb_true_r, Z.eqb_eq. reflexivity.
  - eexists. split; [reflexivity|]. intros r.
    rewrite filter_In, andb_true_iff, !Z.eqb_eq. reflexivity.
Qed.

(** ** Smoothing keeps the samples *)

Lemma zip_with_nth_error {A B C} (f : A -> B -> C) (l : list A) (l' : list B)
    (i : nat) (a : A) (b : B) :
  nth_error l i = Some a -> nth_error l' i = Some b ->
  nth_error (zip_with f l l') i = Some (f a b).
Proof.
  revert l l'. induction i as [|i IH]; intros [|x l] [|y l'] Ha Hb;
    simpl in *; try discriminate.
  - injection Ha as <-. injection Hb as <-. reflexivity.
  - apply IH; assumption.
Qed.

Lemma nth_error_seq_0 (n i : nat) : (i < n)%nat -> nth_error (seq 0 n) i = Some i.
Proof.
  intros H. rewrite nth_error_nth' with (d := 0%nat) by (rewrite length_seq; exact H).
  rewrite seq_nth by exact H. reflexivity.
Qed.

Lemma nth_error_lt {A} (l : list A) (i : nat) (a : A) :
  nth_error l i = Some a -> (i < List.length l)%nat.
Proof. intros H. apply nth_error_Some. congruence. Qed.

Lemma interp_from_known (prev : option (Z * Q)) (l : list (Z * option Q))
    (i : nat) (x : Z) (c : option Q) :
  nth_error l i = Some (x, c) ->
  exists c', nth_error (interp_from prev l) i = Some c' /\
             forall v, c = Some v -> c' = Some v.
Proof.
  revert prev i. induction l as [|[y [w|]] l IH]; intros prev [|i] H;
    simpl in *; try discriminate.
  - injection H as <- <-. eexists. split; [reflexivity | auto].
  - apply IH, H.
  - injection H as <- <-. eexists. split; [reflexivity|]. intros v Hv. discriminate.
  - apply IH, H.
Qed.

Lemma interpolate_column_known (xs : list Z) (ys : list (option Q)) (i : nat)
    (x : Z) (c : option Q) :
  nth_error xs i = Some x -> nth_error ys i = Some c ->
  exists c', nth_error (interpolate_column xs ys) i = Some c' /\
             forall v, c = Some v -> c' = Some v.
Proof.
  intros Hx Hy. unfold interpolate_column. apply (interp_from_known None _ i x c).
  revert ys i Hx Hy. induction xs as [|a xs IH]; intros [|b ys] [|i] Hx Hy;
    simpl in *; try discriminate.
  - injection Hx as <-. injection Hy as <-. reflexivity.
  - apply IH; assumption.
Qed.

Lemma ffill_from_known {A} (prev : option A) (l : list (option A)) (i : nat)
    (c : option A) :
  nth_error l i = Some c ->
  exists c', nth_error (ffill_from prev l) i = Some c' /\
             forall v, c = Some v -> c' = Some v.
Proof.
  revert prev i. induction l as [|[w|] l IH]; intros prev [|i] H;
    simpl in *; try discriminate.
  - injection H as <-. eexists. split; [reflexivity | auto].
  - apply IH, H.
  - injection H as <-. eexists. split; [reflexivity|]. intros v Hv. discriminate.
  - apply IH, H.
Qed.

Lemma keeps_sample_trans (x y z : weather_row) :
  keeps_sample x y -> keeps_sample y z -> keeps_sample x z.
Proof.
  unfold keeps_sample. intros [H1 [H2 [H3 [H4 H5]]]] [G1 [G2 [G3 [G4 G5]]]].
  repeat split; try congruence; auto.
Qed.

Lemma interpolate_blocks_keeps (df : list weather_row) (i : nat) (x : weather_row) :
  nth_error df i = Some x ->
  exists row, nth_error (interpolate_blocks df) i = Some row /\ keeps_sample x row.
Proof.
  intros H. pose proof (nth_error_lt _ _ _ H) as Hi.
  unfold interpolate_blocks.
  eexists. split.
  - apply zip_with_nth_error; [exact H | apply nth_error_seq_0, Hi].
  - unfold keeps_sample. cbn [with_feature w_dt w_feature w_summary w_ipolated w_epolated].
    repeat split; auto. intros c v Hv. rewrite tabulate_eq.
    destruct (interpolate_column_known (map w_dt df) (map (fun r => w_feature r c) df)
                i (w_dt x) (w_feature x c)) as [c' [Hc' Hk]].
    + rewrite nth_error_map, H. reflexivity.
    + rewrite nth_error_map, H. reflexivity.
    + rewrite (nth_error_nth _ _ None Hc'). apply Hk, Hv.
Qed.

Lemma fix_columns_keep (df : list weather_row) (i : nat) (x : weather_row) :
  nth_error df i = Some x ->
  exists row,
    nth_error (fix_epolated (fix_ipolated (fix_summary (fix_src_dt df)))) i = Some row /\
    keeps_sample x row.
Proof.
  intros H.
  assert (H1 : exists r1, nth_error (fix_src_dt df) i = Some r1 /\ keeps_sample x r1).
  { unfold fix_src_dt. eexists. split.
    - rewrite nth_error_map, H. reflexivity.
    - unfold keeps_sample. simpl. repeat split; auto. }
  destruct H1 as [r1 [E1 K1]].
  assert (H2 : exists r2, nth_error (fix_summary (fix_src_dt df)) i = Some r2 /\
                          keeps_sample r1 r2).
  { unfold fix_summary, ffill.
    destruct (ffill_from_known None (map w_summary (fix_src_dt df)) i (w_summary r1)
                ltac:(rewrite nth_error_map, E1; reflexivity)) as [c' [Hc' Hk]].
    eexists. split.
    - apply zip_with_nth_error; [exact E1 | exact Hc'].
    - unfold keeps_sample. simpl. repeat split; auto. }
  destruct H2 as [r2 [E2 K2]].
  assert (H3 : exists r3, nth_error (fix_ipolated (fix_summary (fix_src_dt df))) i = Some r3 /\
                          keeps_sample r2 r3).
  { unfold fix_ipolated, ffill.
    destruct (ffill_from_known None (map w_ipolated (fix_summary (fix_src_dt df))) i
                (w_ipolated r2)
                ltac:(rewrite nth_error_map, E2; reflexivity)) as [c' [Hc' Hk]].
    eexists. split.
    - apply zip_with_nth_error; [exact E2 | exact Hc'].
    - unfold keeps_sample. simpl. repeat split; auto. }
  destruct H3 as [r3 [E3 K3]].
  unfold fix_epolated at 1. unfold ffill.
  destruct (ffill_from_known None
              (map w_epolated (fix_ipolated (fix_summary (fix_src_dt df)))) i
              (w_epolated r3)
              ltac:(rewrite nth_error_map, E3; reflexivity)) as [c' [Hc' Hk]].
  eexists. split.
  - apply zip_with_nth_error; [exact E3 | exact Hc'].
  - apply (keeps_sample_trans x r1); [exact K1|].
    apply (keeps_sample_trans r1 r2); [exact K2|].
    apply (keeps_sample_trans r2 r3); [exact K3|].
    unfold keeps_sample. simpl. repeat split; auto.
Qed.

Lemma nth_error_removelast {A} (l : list A) (i : nat) :
  (i < List.length (removelast l))%nat ->
  nth_error (removelast l) i = nth_error l i.
Proof.
  revert i. induction l as [|x [|y l] IH]; intros i Hi; simpl in *; try lia.
  destruct i as [|i]; [reflexivity|]. simpl. apply IH. simpl. lia.
Qed.

Lemma keeps_sample_without_plant (v : option Z) (x : weather_row) :
  keeps_sample x (with_pp_id v x).
Proof. unfold keeps_sample. simpl. repeat split; auto. Qed.

Lemma resample_df_keeps (whole : list weather_row) (a b : datetime)
    (idf : list weather_row) (x : weather_row) (i : nat) :
  holds_numbers whole = true ->
  NoDup (map w_dt idf) -> In x idf ->
  nth_error (date_range a (b + P_FREQUENCY_D) P_FREQUENCY_D) i = Some (w_dt x) ->
  exists out row,
    resample_df whole a b idf = inr out /\
    nth_error out i = Some row /\ keeps_sample x row.
Proof.
  intros Hty Hnd Hin Hi. unfold resample_df, reindex.
  assert (Hnd' : NoDup (map w_dt (map (with_pp_id None) idf)))
    by (rewrite map_map; exact Hnd).
  rewrite (reindex_by_rows w_dt nan_row _ _ Hnd'). cbn [bind ret].
  rewrite (holds_numbers_typed _ _ _ Hty), interpolate_time_typed.
  match goal with |- context [interpolate_blocks ?l] => set (re := l) end.
  assert (Hre : nth_error re i = Some (with_pp_id None x)).
  { unfold re. rewrite nth_error_map.
    etransitivity; [apply (f_equal (option_map _) Hi)|].
    cbn [option_map]. f_equal.
    change (w_dt x) with (w_dt (with_pp_id None x)).
    rewrite (find_key_unique w_dt _ (with_pp_id None x) Hnd'); [reflexivity|].
    apply in_map, Hin. }
  destruct (interpolate_blocks_keeps re i _ Hre) as [row [Hrow Hk]].
  exists (interpolate_blocks re), row. split; [reflexivity|]. split; [exact Hrow|].
  eapply keeps_sample_trans; [apply (keeps_sample_without_plant None) | exact Hk].
Qed.

Lemma smooth_keeps (has_pp : bool) (a b : datetime) (p : Z) (df : list weather_row)
    (x : weather_row) (i : nat) :
  a <= b ->
  holds_numbers df = true ->
  NoDup (map w_dt df) ->
  (has_pp = true -> forall r, In r df -> w_pp_id r = Some p) ->
  In x df ->
  nth_error (date_range a b P_FREQUENCY_D) i = Some (w_dt x) ->
  exists out row,
    smooth has_pp (Some a) (Some b) df = inr out /\
    In row out /\ keeps_sample x row.
Proof.
  intros Hab Hty Hnd Hpp Hin Hi.
  pose proof (nth_error_lt _ _ _ Hi) as Hlt.
  assert (Hi' : nth_error (date_range a (b + P_FREQUENCY_D) P_FREQUENCY_D) i
                = Some (w_dt x)).
  { rewrite <- Hi, <- (removelast_date_range a b P_FREQUENCY_D P_FREQUENCY_D_pos Hab).
    symmetry. apply nth_error_removelast.
    rewrite (removelast_date_range a b P_FREQUENCY_D P_FREQUENCY_D_pos Hab). exact Hlt. }
  assert (Hres : exists out row,
             (if has_pp
              then groupby_pp_id_apply (resample_df df a b) df
              else resample_df df a b df) = inr out /\
             List.length out
             = List.length (date_range a (b + P_FREQUENCY_D) P_FREQUENCY_D) /\
             nth_error out i = Some row /\ keeps_sample x row).
  { destruct has_pp.
    - specialize (Hpp eq_refl).
      unfold groupby_pp_id_apply.
      destruct df as [|r0 df0] eqn:Edf; [contradiction|]. rewrite <- Edf in *.
      rewrite (group_keys_constant p).
      + cbn [apply_groups bind ret].
        set (g := filter (fun r => opt_Z_eqb (w_pp_id r) (Some p)) df).
        assert (Hg : In x g).
        { apply filter_In. split; [exact Hin|]. rewrite (Hpp x Hin). simpl.
          apply Z.eqb_refl. }
        destruct (resample_df_keeps df a b g x i Hty (NoDup_map_filter _ _ _ Hnd) Hg Hi')
          as [out [row [E [Hrow Hk]]]].
        destruct (resample_df_dt df a b g Hty (NoDup_map_filter _ _ _ Hnd))
          as [out' [E' Hdt]].
        rewrite E in E'. injection E' as <-.
        rewrite E. cbn [bind ret].
        exists (map (with_pp_id (Some p)) out ++ []), (with_pp_id (Some p) row).
        split; [reflexivity|]. rewrite app_nil_r. split; [|split].
        * rewrite length_map, <- (length_map w_dt out), Hdt. reflexivity.
        * rewrite nth_error_map, Hrow. reflexivity.
        * eapply keeps_sample_trans; [exact Hk | apply keeps_sample_without_plant].
      + rewrite Edf. simpl. rewrite (Hpp r0) by (rewrite Edf; left; reflexivity).
        discriminate.
      + intros y Hy. apply in_flat_map in Hy. destruct Hy as [r [Hr Hy]].
        rewrite (Hpp r Hr) in Hy. destruct Hy as [<-|[]]. reflexivity.
    - destruct (resample_df_keeps df a b df x i Hty Hnd Hin Hi')
        as [out [row [E [Hrow Hk]]]].
      destruct (resample_df_dt df a b df Hty Hnd) as [out' [E' Hdt]].
      rewrite E in E'. injection E' as <-.
      exists out, row. split; [exact E|]. split; [|split; assumption].
      rewrite <- (length_map w_dt out), Hdt. reflexivity. }
  destruct Hres as [out [row [E [Hlen [Hrow Hk]]]]].
  unfold smooth. cbn [bind ret]. rewrite E. cbn [bind ret].
  destruct (fix_columns_keep out i row Hrow) as [row' [Hrow' Hk']].
  set (fixed := fix_epolated (fix_ipolated (fix_summary (fix_src_dt out)))) in *.
  exists (removelast fixed), row'. split; [reflexivity|].
  split; [|eapply keeps_sample_trans; eassumption].
  apply (nth_error_In _ i). rewrite nth_error_removelast; [exact Hrow'|].
  assert (Hfl : List.length fixed = List.length out).
  { unfold fixed. rewrite <- (length_map w_dt), fix_epolated_dt, fix_ipolated_dt,
      fix_summary_dt, fix_src_dt_dt, length_map. reflexivity. }
  assert (Hrl : forall A (l : list A), List.length (removelast l) = pred (List.length l)).
  { intros A l. induction l as [|y [|z l] IH]; simpl in *; auto. }
  rewrite Hrl, Hfl, Hlen.
  rewrite <- (removelast_date_range a b P_FREQUENCY_D P_FREQUENCY_D_pos Hab), Hrl in Hlt.
  exact Hlt.
Qed.

(** X17. Smoothing keeps the feature values, the summary and the flags of
    a stored sample.  In the fixed-age mode of [get_pp_weather] with
    smoothing, over a table with unique keys, with the bounds [t0] (on the
    hour) and [t0 + n hours] and a selected record of the window that holds
    a source time or a feature value (without one pandas refuses to
    interpolate), every stored record of the plant and of the age asked for
    whose timestamp lies on the five-minute grid inside the window is found
    again in the returned frame: the row at its timestamp has every feature
    value, summary and flag that the record has.  The source time of the
    row is recomputed and is not part of the statement. *)
Theorem smoothing_keeps_samples (table : list SolarWeatherTable) (p : PowerPlantIDT)
    (pid : PowerPlantID) (t0 : datetime) (n k : nat) (all_indices : bool)
    (age : Z) (r : SolarWeatherTable) :
  get_pp_id p = inr pid ->
  weather_keys_unique table ->
  t0 mod hour = 0 ->
  In r table ->
  wt_pp_id r = pp_id pid ->
  wt_age r = age ->
  (k < 12 * n)%nat ->
  wt_dt r = t0 + Z.of_nat k * P_FREQUENCY_D ->
  (exists r', In r' table /\ wt_pp_id r' = pp_id pid /\ wt_age r' = age /\
              t0 <= wt_dt r' <= t0 + Z.of_nat n * hour /\
              (wt_src_dt r' <> None \/ exists f, wt_feature r' f <> None)) ->
  exists f row,
    get_pp_weather table (Some p) (Some (DateTime t0))
      (Some (DateTime (t0 + Z.of_nat n * hour))) all_indices (Some age) None true
    = inr f /\
    In row (wf_rows f) /\
    keeps_sample (weather_row_of all_indices false r) row.
Proof.
  intros Hid Hk Ht0 Hin Hpp Hage Hlt Hdt Hval.
  assert (Hhour : 0 < hour) by reflexivity.
  assert (Htn : (t0 + Z.of_nat n * hour) mod hour = 0)
    by (rewrite Z.mod_add by lia; exact Ht0).
  unfold get_pp_weather. cbn [andb]. rewrite Hid.
  cbn [bind ret option_map earliest_of].
  rewrite (freq_floor_aligned t0 S_FREQUENCY_D Hhour Ht0),
    (freq_ceil_aligned _ S_FREQUENCY_D Hhour Htn).
  set (tn := t0 + Z.of_nat n * hour).
  set (q := weather_query table (Some pid) (Some t0) (Some tn) (Some age) None).
  set (df := map (weather_row_of all_indices false) q).
  assert (Hmode : Some age <> None \/ @None datetime <> None) by (left; discriminate).
  destruct (weather_frame_shape table pid (Some t0) (Some tn) (Some age) None false
              Hk Hmode all_indices df eq_refl) as [Hnd Hshape].
  assert (Hr : In r q).
  { apply weather_query_in. split; [exact Hin|].
    apply weather_where_window.
    - unfold weather_where. cbn [when_set]. rewrite Hpp, Hage, !Z.eqb_refl. reflexivity.
    - cbn [when_set]. apply Z.leb_le. rewrite Hdt. pose proof P_FREQUENCY_D_pos. nia.
    - cbn [when_set]. apply Z.leb_le. rewrite Hdt. unfold tn.
      rewrite hour_is_12_steps. pose proof P_FREQUENCY_D_pos. nia. }
  assert (Hq : q <> []) by (intros E; rewrite E in Hr; contradiction).
  assert (Hx : In (weather_row_of all_indices false r) df) by (apply in_map, Hr).
  assert (Hty : holds_numbers df = true).
  { apply (weather_frame_holds_numbers table (Some pid) (Some t0) (Some tn)
             (Some age) None all_indices false).
    destruct Hval as [r' [Hin' [Hpp' [Hage' [Hdt' Hv]]]]]. exists r'.
    split; [exact Hin'|]. split; [|exact Hv].
    apply weather_where_window.
    - unfold weather_where. cbn [when_set]. rewrite Hpp', Hage', !Z.eqb_refl. reflexivity.
    - cbn [when_set]. apply Z.leb_le. lia.
    - cbn [when_set]. apply Z.leb_le. unfold tn. lia. }
  destruct (smooth_keeps all_indices t0 tn (pp_id pid) df
              (weather_row_of all_indices false r) k) as [out [row [E [Hrow Hkeep]]]].
  - unfold tn. lia.
  - exact Hty.
  - exact Hnd.
  - intros Hp. apply Hshape; assumption.
  - exact Hx.
  - unfold tn. rewrite date_range_hours, nth_error_map, (nth_error_seq_0 _ _ Hlt).
    cbn [option_map weather_row_of w_dt]. rewrite Hdt. reflexivity.
  - match goal with
    | |- exists f row, bind ?m _ = _ /\ _ =>
        assert (E' : m = inr out) by exact E; rewrite E'
    end.
    cbn [bind ret]. eexists. exists row. split; [reflexivity|].
    cbn [wf_rows]. split; assumption.
Qed.

(** The premises of X17 hold for the record of 2021-01-01T00:00 among the
    two measured records of plant 1. *)
Lemma smoothing_keeps_samples_witness :
  exists f row,
    get_pp_weather two_anchor_weather (Some (IdInt 1)) (Some (DateTime t_2021_01_01))
      (Some (DateTime (t_2021_01_01 + Z.of_nat 1 * hour))) true (Some 0) None true
    = inr f /\
    In row (wf_rows f) /\
    keeps_sample (weather_row_of true false (measured_at t_2021_01_01 (10 # 1)%Q "Clear"))
      row.
Proof.
  apply (smoothing_keeps_samples two_anchor_weather (IdInt 1)
           (mkPowerPlantID 1 (Some (-1))) t_2021_01_01 1 0 true 0
           (measured_at t_2021_01_01 (10 # 1)%Q "Clear")).
  - reflexivity.
  - exact two_anchor_weather_keys.
  - reflexivity.
  - left. reflexivity.
  - reflexivity.
  - reflexivity.
  - lia.
  - reflexivity.
  - exists (measured_at t_2021_01_01 (10 # 1)%Q "Clear").
    split; [left; reflexivity|]. split; [reflexivity|]. split; [reflexivity|].
    split; [split; discriminate|]. left. discriminate.
Defined.

(** ** The index of a frame *)

Lemma map_seq_from {A} (g : nat -> A) (j c : nat) :
  map g (seq j c) = map (fun k => g (j + k)%nat) (seq 0 c).
Proof.
  revert j. induction c as [|c IH]; intros j; [reflexivity|].
  cbn [seq map]. rewrite Nat.add_0_r. f_equal.
  rewrite IH, <- seq_shift, map_map. apply map_ext. intros k. f_equal. lia.
Qed.

(** X18. The index [_prepare_frame_index] builds is the half-open interval
    the docstring names: an instant belongs to it exactly when it lies at or
    after the start, strictly before the end, and a whole number of steps
    after the start. *)
Theorem prepare_frame_index_half_open (frequency : Z) (dt_start dt_end t : datetime) :
  0 < frequency ->
  (In t (_prepare_frame_index frequency dt_start dt_end) <->
   dt_start <= t < dt_end /\ (t - dt_start) mod frequency = 0).
Proof.
  intros Hf. unfold _prepare_frame_index, date_range, date_range_count.
  rewrite in_map_iff. split.
  - intros [k [<- Hk]]. apply in_seq in Hk. destruct Hk as [_ Hk]. cbn in Hk.
    assert (Hc : Z.of_nat k + 1 <= (dt_end - dt_start + frequency - 1) / frequency) by lia.
    assert (Hm : frequency * ((dt_end - dt_start + frequency - 1) / frequency)
                 <= dt_end - dt_start + frequency - 1)
      by (apply Z.mul_div_le; lia).
    split; [nia|].
    replace (dt_start + Z.of_nat k * frequency - dt_start) with (Z.of_nat k * frequency)
      by lia.
    apply Z.mod_mul. lia.
  - intros [[Hlo Hhi] Hmod].
    pose proof (Z.div_mod (t - dt_start) frequency ltac:(lia)) as Hd.
    rewrite Hmod in Hd. set (q := (t - dt_start) / frequency) in *.
    assert (Hq : 0 <= q) by (apply Z.div_pos; lia).
    exists (Z.to_nat q). split; [rewrite Z2Nat.id by lia; lia|].
    apply in_seq. split; [lia|]. cbn.
    apply Z2Nat.inj_lt; [lia | apply Z.div_pos; lia |].
    assert (Hb : q + 1 <= (dt_end - dt_start + frequency - 1) / frequency)
      by (apply Z.div_le_lower_bound; [lia | nia]).
    lia.
Qed.

Lemma prepare_frame_index_half_open_witness :
  In (t_2021_01_01 + P_FREQUENCY_D)
     (_prepare_frame_index P_FREQUENCY_D t_2021_01_01 (t_2021_01_01 + hour)) <->
  t_2021_01_01 <= t_2021_01_01 + P_FREQUENCY_D < t_2021_01_01 + hour /\
  (t_2021_01_01 + P_FREQUENCY_D - t_2021_01_01) mod P_FREQUENCY_D = 0.
Proof.
  apply (prepare_frame_index_half_open P_FREQUENCY_D t_2021_01_01 (t_2021_01_01 + hour)
           (t_2021_01_01 + P_FREQUENCY_D)).
  reflexivity.
Defined.

(** X19. Adjacent indices tile: an index cut at an instant of its own grid
    is the index up to the cut followed by the index from the cut, so the
    index of a history window that ends where a prediction window starts and
    the index of that prediction window share no instant and leave no gap. *)
Theorem prepare_frame_index_tiles (frequency : Z) (dt_start dt_cut dt_end : datetime) :
  0 < frequency ->
  dt_start <= dt_cut <= dt_end ->
  (dt_cut - dt_start) mod frequency = 0 ->
  _prepare_frame_index frequency dt_start dt_end
  = _prepare_frame_index frequency dt_start dt_cut
    ++ _prepare_frame_index frequency dt_cut dt_end.
Proof.
  intros Hf [Hlo Hhi] Hmod.
  pose proof (Z.div_mod (dt_cut - dt_start) frequency ltac:(lia)) as Hd.
  rewrite Hmod in Hd. set (q := (dt_cut - dt_start) / frequency) in *.
  assert (Hq : 0 <= q) by (apply Z.div_pos; lia).
  unfold _prepare_frame_index, date_range.
  assert (Hc1 : date_range_count dt_start dt_cut frequency = Z.to_nat q).
  { unfold date_range_count. f_equal.
    replace (dt_cut - dt_start + frequency - 1) with ((frequency - 1) + q * frequency) by lia.
    rewrite Z.div_add by lia. rewrite Z.div_small by lia. lia. }
  assert (Hc : date_range_count dt_start dt_end frequency
               = (Z.to_nat q + date_range_count dt_cut dt_end frequency)%nat).
  { unfold date_range_count.
    replace (dt_end - dt_start + frequency - 1)
      with ((dt_end - dt_cut + frequency - 1) + q * frequency) by lia.
    rewrite Z.div_add by lia.
    assert (0 <= (dt_end - dt_cut + frequency - 1) / frequency) by (apply Z.div_pos; lia).
    lia. }
  rewrite Hc, Hc1, seq_app, map_app. cbn [Nat.add].
  rewrite (map_seq_from _ (Z.to_nat q)). apply (f_equal (app _)).
  apply map_ext. intros k.
  rewrite Nat2Z.inj_add, Z2Nat.id by lia. lia.
Qed.

Lemma prepare_frame_index_tiles_witness :
  _prepare_frame_index P_FREQUENCY_D (t_2021_01_01 - hour) (t_2021_01_01 + hour)
  = _prepare_frame_index P_FREQUENCY_D (t_2021_01_01 - hour) t_2021_01_01
    ++ _prepare_frame_index P_FREQUENCY_D t_2021_01_01 (t_2021_01_01 + hour).
Proof.
  apply (prepare_frame_index_tiles P_FREQUENCY_D (t_2021_01_01 - hour) t_2021_01_01
           (t_2021_01_01 + hour)).
  - reflexivity.
  - split; discriminate.
  - reflexivity.
Defined.

(** ** Plant-level tables *)

(** X20. Weather and exogenous records belong to a plant, not to an
    inverter: [get_pp_weather] and [get_pp_exogenous] return the same result
    for any two identities of the same plant, whichever inverter, or none,
    they name. *)
Theorem plant_tables_ignore_inverter (weather : list SolarWeatherTable)
    (exogenous : list SolarExogenousTable) (plant : Z) (i j : option Z)
    (dt_start dt_end : option date_or_datetime) (all_indices : bool)
    (src_age : option Z) (src_dt_max : option datetime) (interpolate_smooth : bool) :
  get_pp_weather weather (Some (IdObj (mkPowerPlantID plant i))) dt_start dt_end
    all_indices src_age src_dt_max interpolate_smooth
  = get_pp_weather weather (Some (IdObj (mkPowerPlantID plant j))) dt_start dt_end
      all_indices src_age src_dt_max interpolate_smooth /\
  get_pp_exogenous exogenous (Some (IdObj (mkPowerPlantID plant i))) dt_start dt_end
    all_indices
  = get_pp_exogenous exogenous (Some (IdObj (mkPowerPlantID plant j))) dt_start dt_end
      all_indices.
Proof.
  assert (Hw : forall s e a m,
             weather_query weather (Some (mkPowerPlantID plant i)) s e a m
             = weather_query weather (Some (mkPowerPlantID plant j)) s e a m)
    by reflexivity.
  assert (He : forall s e,
             exogenous_query exogenous (Some (mkPowerPlantID plant i)) s e
             = exogenous_query exogenous (Some (mkPowerPlantID plant j)) s e)
    by reflexivity.
  split.
  - unfold get_pp_weather.
    destruct (interpolate_smooth && _); [reflexivity|].
    cbn [get_pp_id bind ret]. rewrite Hw. reflexivity.
  - unfold get_pp_exogenous. cbn [get_pp_id bind ret]. rewrite He. reflexivity.
Qed.

(** ** The cutoff query, with and without smoothing *)

Lemma freq_floor_le (t f : Z) : 0 < f -> freq_floor t f <= t.
Proof. intros Hf. unfold freq_floor. apply Z.mul_div_le, Hf. Qed.

Lemma freq_ceil_ge (t f : Z) : 0 < f -> t <= freq_ceil t f.
Proof.
  intros Hf. unfold freq_ceil. pose proof (Z.mul_div_le (- t) f Hf). lia.
Qed.

(** C6, amended. A cutoff query limited to one plant, over a table with
    unique keys.  Without smoothing it returns its rows in ascending order
    of the timestamps, one row for each timestamp that has a record
    selected by the filters (among them [src_dt <= cutoff]) and none else;
    each cell of a row is the first known value of its column among the
    selected records of the timestamp in ascending age: the row carries
    every value that the record of the smallest age has, and a value of an
    older record where it has none.  With smoothing and both bounds, which
    are widened to the hour, and a selection that is not empty, it returns
    one row for each five-minute instant from the start up to, not
    including, the end; the row of an instant that has selected records
    keeps every feature value, summary and flag of the first known cells of
    that instant. *)
Theorem latest_before_cutoff (table : list SolarWeatherTable) (p : PowerPlantIDT)
    (pid : PowerPlantID) (all_indices : bool) (src_age : option Z) (cutoff : datetime) :
  get_pp_id p = inr pid ->
  weather_keys_unique table ->
  (forall dt_start dt_end : option date_or_datetime,
     exists f,
       get_pp_weather table (Some p) dt_start dt_end all_indices src_age (Some cutoff) false
       = inr f /\
       let G := cutoff_group table pid (option_map earliest_of dt_start)
                  (option_map earliest_of dt_end) src_age cutoff in
       ascending (map w_dt (wf_rows f)) /\
       (forall t, In t (map w_dt (wf_rows f)) <-> exists r, G t r) /\
       (forall row, In row (wf_rows f) ->
          cells_first_known (G (w_dt row)) row /\
          forall r0, freshest (G (w_dt row)) r0 -> carries row r0)) /\
  (forall a b : date_or_datetime,
     let s := freq_floor (earliest_of a) S_FREQUENCY_D in
     let e := freq_ceil (earliest_of b) S_FREQUENCY_D in
     let G := cutoff_group table pid (Some s) (Some e) src_age cutoff in
     earliest_of a <= earliest_of b ->
     (exists t r, G t r) ->
     exists f,
       get_pp_weather table (Some p) (Some a) (Some b) all_indices src_age (Some cutoff) true
       = inr f /\
       map w_dt (wf_rows f) = date_range s e P_FREQUENCY_D /\
       (forall t, In t (date_range s e P_FREQUENCY_D) -> (exists r, G t r) ->
          exists row x, In row (wf_rows f) /\ w_dt row = t /\
                        cells_first_known (G t) x /\ keeps_sample x row)).
Proof.
  intros Hid Hk.
  assert (Hlim : match src_age, Some cutoff with
                 | None, None => true
                 | _, _ => false
                 end = false) by (destruct src_age; reflexivity).
  split.
  - intros dt_start dt_end. unfold get_pp_weather.
    rewrite Hlim. cbn [andb]. rewrite Hid. cbn [bind ret].
    eexists. split; [reflexivity|]. cbn [wf_rows].
    apply cutoff_frame_first_known, Hk.
  - intros a b s e G Hab [t0 [r0 Hsel]].
    assert (Hhour : 0 < S_FREQUENCY_D) by reflexivity.
    assert (Hse : s <= e).
    { pose proof (freq_floor_le (earliest_of a) S_FREQUENCY_D Hhour).
      pose proof (freq_ceil_ge (earliest_of b) S_FREQUENCY_D Hhour).
      unfold s, e. lia. }
    unfold get_pp_weather. rewrite Hlim. cbn [andb]. rewrite Hid.
    cbn [bind ret option_map]. fold s. fold e.
    set (q := weather_query table (Some pid) (Some s) (Some e) src_age (Some cutoff)).
    set (df := groupby_dt_first (map (weather_row_of all_indices false) q)).
    assert (Hmode : src_age <> None \/ Some cutoff <> None) by (right; discriminate).
    destruct (weather_frame_shape table pid (Some s) (Some e) src_age (Some cutoff) false
                Hk Hmode all_indices df eq_refl) as [Hnd Hpp].
    destruct (cutoff_frame_first_known table pid (Some s) (Some e) src_age cutoff
                all_indices Hk) as [_ [Hts Hcells]].
    fold q in Hts, Hcells. fold df in Hts, Hcells.
    assert (Hr0 : In r0 q).
    { destruct Hsel as [Hin [Hw _]]. apply weather_query_in. auto. }
    assert (Hq : q <> []) by (intros E; rewrite E in Hr0; contradiction).
    assert (Hty : holds_numbers df = true).
    { apply (weather_frame_holds_numbers table (Some pid) (Some s) (Some e)
               src_age (Some cutoff) all_indices false).
      destruct Hsel as [Hin [Hw _]]. exists r0. split; [exact Hin|].
      split; [exact Hw|]. left.
      destruct (weather_where_cutoff_src _ _ _ _ _ _ Hw) as [sd ->]. discriminate. }
    destruct (smooth_bounded_dt all_indices s e (pp_id pid) df Hse Hty Hnd)
      as [out [E Hout]].
    { intros Hp. apply Hpp; assumption. }
    match goal with
    | |- exists f, bind ?m _ = _ /\ _ => assert (E' : m = inr out) by exact E; rewrite E'
    end.
    cbn [bind ret]. eexists. split; [reflexivity|]. cbn [wf_rows].
    split; [exact Hout|].
    intros t Ht Hrec.
    apply Hts in Hrec. apply in_map_iff in Hrec. destruct Hrec as [x [Hx Hin]].
    apply In_nth_error in Ht. destruct Ht as [i Hi].
    destruct (smooth_keeps all_indices s e (pp_id pid) df x i Hse Hty Hnd)
      as [out' [row [E2 [Hrow Hkeep]]]].
    + intros Hp r Hr. apply Hpp; assumption.
    + exact Hin.
    + rewrite Hx. exact Hi.
    + rewrite E in E2. injection E2 as <-.
      exists row, x. split; [exact Hrow|]. split.
      * destruct Hkeep as [Hd _]. rewrite Hd. exact Hx.
      * split; [|exact Hkeep]. rewrite <- Hx. apply Hcells, Hin.
Qed.

(** The premises of the amended C6 hold over the two forecasts of
    2021-01-01T12:00, without bounds and, with smoothing, from 12:00 to
    13:00. *)
Lemma latest_before_cutoff_witness :
  (exists f,
     get_pp_weather two_forecasts (Some (IdInt 1)) None None false None
       (Some (t_2021_01_01 + 12 * hour)) false
     = inr f /\
     let G := cutoff_group two_forecasts (mkPowerPlantID 1 (Some (-1)))
                None None None (t_2021_01_01 + 12 * hour) in
     ascending (map w_dt (wf_rows f)) /\
     (forall t, In t (map w_dt (wf_rows f)) <-> exists r, G t r) /\
     (forall row, In row (wf_rows f) ->
        cells_first_known (G (w_dt row)) row /\
        forall r0, freshest (G (w_dt row)) r0 -> carries row r0)) /\
  (exists f,
     get_pp_weather two_forecasts (Some (IdInt 1))
       (Some (DateTime (t_2021_01_01 + 12 * hour)))
       (Some (DateTime (t_2021_01_01 + 13 * hour))) false None
       (Some (t_2021_01_01 + 12 * hour)) true
     = inr f /\
     exists row x,
       In row (wf_rows f) /\ w_dt row = t_2021_01_01 + 12 * hour /\
       cells_first_known
         (cutoff_group two_forecasts (mkPowerPlantID 1 (Some (-1)))
            (Some (t_2021_01_01 + 12 * hour)) (Some (t_2021_01_01 + 13 * hour))
            None (t_2021_01_01 + 12 * hour) (t_2021_01_01 + 12 * hour)) x /\
       keeps_sample x row).
Proof.
  destruct (latest_before_cutoff two_forecasts (IdInt 1) (mkPowerPlantID 1 (Some (-1)))
              false None (t_2021_01_01 + 12 * hour) eq_refl two_forecasts_keys)
    as [HA HB].
  assert (Hsel : cutoff_group two_forecasts (mkPowerPlantID 1 (Some (-1)))
                   (Some (t_2021_01_01 + 12 * hour)) (Some (t_2021_01_01 + 13 * hour))
                   None (t_2021_01_01 + 12 * hour) (t_2021_01_01 + 12 * hour)
                   forecast_fresh).
  { split; [right; left; reflexivity | split; reflexivity]. }
  split.
  - apply (HA None None).
  - destruct (HB (DateTime (t_2021_01_01 + 12 * hour))
                (DateTime (t_2021_01_01 + 13 * hour)))
      as [f [Hf [_ Hrows]]].
    + discriminate.
    + exists (t_2021_01_01 + 12 * hour), forecast_fresh. exact Hsel.
    + exists f. split; [exact Hf|].
      apply Hrows; [left; reflexivity | exists forecast_fresh; exact Hsel].
Defined.

(** ** Listings of a table and the order of a query's rows *)

Lemma order_by_of_sorted {A} (le : A -> A -> bool) (l : list A) :
  StronglySorted (fun a b => le a b = true) l -> order_by le l = l.
Proof.
  induction 1 as [|x l Hl IH Hx]; [reflexivity|].
  unfold order_by in *. cbn [fold_right]. rewrite IH.
  destruct l as [|y l']; [reflexivity|]. cbn [insert_by].
  inversion Hx as [|? ? Hxy _]; subst. rewrite Hxy. reflexivity.
Qed.

Lemma filter_split_perm {A} (sel : A -> bool) (l : list A) :
  Permutation (filter sel l ++ filter (fun x => negb (sel x)) l) l.
Proof.
  induction l as [|x l IH]; [constructor|].
  cbn [filter]. destruct (sel x); cbn [negb app].
  - constructor. exact IH.
  - apply Permutation_sym, Permutation_cons_app, Permutation_sym, IH.
Qed.

Lemma filter_all {A} (sel : A -> bool) (l : list A) :
  (forall x, In x l -> sel x = true) -> filter sel l = l.
Proof.
  induction l as [|x l IH]; intros H; [reflexivity|].
  cbn [filter]. rewrite (H x (or_introl eq_refl)), IH; [reflexivity|].
  intros y Hy. apply H. right. exact Hy.
Qed.

Lemma filter_none {A} (sel : A -> bool) (l : list A) :
  (forall x, In x l -> sel x = false) -> filter sel l = [].
Proof.
  induction l as [|x l IH]; intros H; [reflexivity|].
  cbn [filter]. rewrite (H x (or_introl eq_refl)). apply IH.
  intros y Hy. apply H. right. exact Hy.
Qed.

(** Every answer that a database engine may give to a filtered and ordered
    query, a permutation of the selected records that is sorted along the
    order, is the answer of the model over some listing of the table. *)
Lemma query_any_listing {A} (le : A -> A -> bool) (sel : A -> bool)
    (table answer : list A) :
  Permutation answer (filter sel table) ->
  StronglySorted (fun a b => le a b = true) answer ->
  exists listing,
    Permutation listing table /\ order_by le (filter sel listing) = answer.
Proof.
  intros Hperm Hsorted.
  exists (answer ++ filter (fun x => negb (sel x)) table). split.
  - eapply Permutation_trans; [|apply (filter_split_perm sel)].
    apply Permutation_app_tail, Hperm.
  - rewrite filter_app, filter_all, filter_none.
    + rewrite app_nil_r. apply order_by_of_sorted, Hsorted.
    + intros x Hx. apply filter_In in Hx. destruct Hx as [_ Hx].
      destruct (sel x); [discriminate Hx | reflexivity].
    + intros x Hx. apply (Permutation_in _ Hperm), filter_In in Hx. apply Hx.
Qed.

(** The rows of a power query, in whatever order the engine leaves the
    records of one timestamp, are the rows of [power_query] over a listing
    of the table. *)
Lemma power_query_any_tie_order (table answer : list SolarPowerTable)
    (pp : option PowerPlantID) (dt_start dt_end : option datetime) :
  Permutation answer (filter (power_where pp dt_start dt_end) table) ->
  StronglySorted (fun a b => pt_dt a <= pt_dt b) answer ->
  exists listing,
    Permutation listing table /\ power_query listing pp dt_start dt_end = answer.
Proof.
  intros Hperm Hsorted. apply query_any_listing; [exact Hperm|].
  eapply StronglySorted_ind with (P := StronglySorted _); [constructor| |exact Hsorted].
  intros a l _ IH Ha. constructor; [exact IH|].
  eapply Forall_impl; [|exact Ha]. intros b Hb. apply Z.leb_le, Hb.
Qed.

(** The meta records of [get_pp_info], in whatever order the engine returns
    them, are its rows over a listing of the table. *)
Lemma get_pp_info_any_order (meta answer : list SolarMetaTable)
    (pp : option PowerPlantIDT) (p : option PowerPlantID) :
  resolve_opt pp = inr p ->
  Permutation answer
    (filter (fun r => when_set p (fun p =>
               (mt_pp_id r =? pp_id p) &&
               when_set (inv_id p) (fun i => mt_inv_id r =? i))) meta) ->
  exists listing,
    Permutation listing meta /\ get_pp_info listing pp = inr answer.
Proof.
  intros Hp Hperm.
  destruct (query_any_listing (fun _ _ => true) _ meta answer Hperm) as [l [Hl E]].
  - clear. induction answer as [|x l IH]; constructor; [exact IH|].
    apply Forall_forall. reflexivity.
  - exists l. split; [exact Hl|]. unfold get_pp_info. rewrite Hp. cbn [bind ret].
    unfold ret. f_equal. rewrite <- E. symmetry. apply order_by_of_sorted.
    clear. induction (filter _ l) as [|x k IH]; constructor; [exact IH|].
    apply Forall_forall. reflexivity.
Qed.
